(** * mbw-helpers: DialogBuilder and OperatorBuilder

    A shallow embedding of [DialogBuilder.py] and [OperatorBuilder.py].

    Python objects that the builders mutate live in an explicit heap: the
    accumulating [dialogs] lists are heap cells addressed by location, and
    every [DialogBuilder] instance has its own attribute dictionary that is
    consulted before the attributes of the class.  Methods are computations
    in a state-and-exception monad over that heap; an exception leaves the
    heap as the statements before the [raise] made it. *)

From Stdlib Require Import ZArith String List Lia.
From stdpp Require Import base option list gmap strings.

Local Open Scope string_scope.
Local Open Scope Z_scope.
Local Open Scope list_scope.

Set Warnings "-register-all".

(** ** Python values *)

(** The fragment of Python values the two builders handle: [None], integers
    (opcodes, troop identifiers, bit masks), strings, tuples and lists. *)
Inductive pyval : Type :=
| VNone
| VInt (z : Z)
| VStr (s : string)
| VTuple (items : list pyval)
| VList (items : list pyval).

(** Python's [==] on this fragment: structural, and never true across
    different types. *)
Fixpoint py_eqb (a b : pyval) {struct a} : bool :=
  let fix all_eqb (xs ys : list pyval) {struct xs} : bool :=
    match xs, ys with
    | [], [] => true
    | x :: xs', y :: ys' => py_eqb x y && all_eqb xs' ys'
    | _, _ => false
    end in
  match a, b with
  | VNone, VNone => true
  | VInt x, VInt y => Z.eqb x y
  | VStr x, VStr y => String.eqb x y
  | VTuple xs, VTuple ys => all_eqb xs ys
  | VList xs, VList ys => all_eqb xs ys
  | _, _ => false
  end.

(** [type(v) == list] and [type(v) is tuple]. *)
Definition is_list (v : pyval) : bool :=
  match v with VList _ => true | _ => false end.

Definition is_tuple (v : pyval) : bool :=
  match v with VTuple _ => true | _ => false end.

(** ** Exceptions *)

Inductive exn : Type :=
| ValueError (msg : string)
| IndexError
| TypeError
| AttributeError (name : string).

(** [v[n]] for a non-negative index [n]. *)
Definition py_index (v : pyval) (n : nat) : exn + pyval :=
  match v with
  | VTuple items | VList items =>
      match items !! n with
      | Some x => inr x
      | None => inl IndexError
      end
  | VStr s =>
      match String.get n s with
      | Some c => inr (VStr (String c EmptyString))
      | None => inl IndexError
      end
  | _ => inl TypeError
  end.

(** [l[-1]] on a Python list. *)
Definition py_last (l : list pyval) : exn + pyval :=
  match last l with
  | Some x => inr x
  | None => inl IndexError
  end.

(** [operator.or_] : bitwise or of two integers, a [TypeError] on the other
    values of the fragment. *)
Definition or_ (a b : pyval) : exn + pyval :=
  match a, b with
  | VInt x, VInt y => inr (VInt (Z.lor x y))
  | _, _ => inl TypeError
  end.

(** [functools.reduce(f, l)] without an initial value: the first element
    seeds the accumulator, an empty list is a [TypeError]. *)
Fixpoint reduce_from (f : pyval -> pyval -> exn + pyval)
    (acc : pyval) (l : list pyval) : exn + pyval :=
  match l with
  | [] => inr acc
  | x :: rest =>
      match f acc x with
      | inr acc' => reduce_from f acc' rest
      | inl e => inl e
      end
  end.

Definition reduce (f : pyval -> pyval -> exn + pyval)
    (l : list pyval) : exn + pyval :=
  match l with
  | [] => inl TypeError
  | x :: rest => reduce_from f x rest
  end.

(** ** The heap *)

Definition loc := nat.
Definition oid := nat.

(** The attribute dictionary of one [DialogBuilder] instance.  [None] means
    that the instance does not bind the attribute, so that a read falls
    through to the class.  [dialogs] holds a reference to a list cell. *)
Record inst : Type := Inst {
  dialogs : option loc;
  partner_bitwise : option pyval;
  pre_state_string : option pyval;
  pre_state_reply_string : option pyval;
  condition_tuples : option pyval;
  dialog_string : option pyval;
  post_state_string : option pyval;
  consequence_tuples : option pyval
}.

(** A freshly constructed instance: the class has no [__init__]. *)
Definition empty_inst : inst :=
  Inst None None None None None None None None.

Record heap : Type := Heap {
  lists : gmap loc (list pyval);
  objs : gmap oid inst
}.

(** The class body of [DialogBuilder] (lines 23-30): [dialogs = []] is one
    list cell, created when the class is; the other attributes are
    immutable values. *)
Definition class_dialogs : loc := 0%nat.
Definition class_partner_bitwise : pyval := VNone.
Definition class_pre_state_string : pyval := VNone.
Definition class_pre_state_reply_string : pyval := VNone.
Definition class_condition_tuples : pyval := VList [].
Definition class_dialog_string : pyval := VStr "".
Definition class_post_state_string : pyval := VNone.
Definition class_consequence_tuples : pyval := VList [].

(** The heap right after the class statement has run. *)
Definition heap0 : heap :=
  Heap {[ class_dialogs := [] ]} ∅.

(** Attribute reads [self.x]: instance dictionary first, then the class. *)
Definition attr_dialogs (i : inst) : loc :=
  default class_dialogs (dialogs i).
Definition attr_partner_bitwise (i : inst) : pyval :=
  default class_partner_bitwise (partner_bitwise i).
Definition attr_pre_state_string (i : inst) : pyval :=
  default class_pre_state_string (pre_state_string i).
Definition attr_pre_state_reply_string (i : inst) : pyval :=
  default class_pre_state_reply_string (pre_state_reply_string i).
Definition attr_condition_tuples (i : inst) : pyval :=
  default class_condition_tuples (condition_tuples i).
Definition attr_dialog_string (i : inst) : pyval :=
  default class_dialog_string (dialog_string i).
Definition attr_post_state_string (i : inst) : pyval :=
  default class_post_state_string (post_state_string i).
Definition attr_consequence_tuples (i : inst) : pyval :=
  default class_consequence_tuples (consequence_tuples i).

(** Attribute writes [self.x = v]: always into the instance dictionary. *)
Definition set_dialogs (l : loc) (i : inst) : inst :=
  Inst (Some l) (partner_bitwise i) (pre_state_string i)
    (pre_state_reply_string i) (condition_tuples i) (dialog_string i)
    (post_state_string i) (consequence_tuples i).
Definition set_partner_bitwise (v : pyval) (i : inst) : inst :=
  Inst (dialogs i) (Some v) (pre_state_string i)
    (pre_state_reply_string i) (condition_tuples i) (dialog_string i)
    (post_state_string i) (consequence_tuples i).
Definition set_pre_state_string (v : pyval) (i : inst) : inst :=
  Inst (dialogs i) (partner_bitwise i) (Some v)
    (pre_state_reply_string i) (condition_tuples i) (dialog_string i)
    (post_state_string i) (consequence_tuples i).
Definition set_pre_state_reply_string (v : pyval) (i : inst) : inst :=
  Inst (dialogs i) (partner_bitwise i) (pre_state_string i)
    (Some v) (condition_tuples i) (dialog_string i)
    (post_state_string i) (consequence_tuples i).
Definition set_condition_tuples (v : pyval) (i : inst) : inst :=
  Inst (dialogs i) (partner_bitwise i) (pre_state_string i)
    (pre_state_reply_string i) (Some v) (dialog_string i)
    (post_state_string i) (consequence_tuples i).
Definition set_dialog_string (v : pyval) (i : inst) : inst :=
  Inst (dialogs i) (partner_bitwise i) (pre_state_string i)
    (pre_state_reply_string i) (condition_tuples i) (Some v)
    (post_state_string i) (consequence_tuples i).
Definition set_post_state_string (v : pyval) (i : inst) : inst :=
  Inst (dialogs i) (partner_bitwise i) (pre_state_string i)
    (pre_state_reply_string i) (condition_tuples i) (dialog_string i)
    (Some v) (consequence_tuples i).
Definition set_consequence_tuples (v : pyval) (i : inst) : inst :=
  Inst (dialogs i) (partner_bitwise i) (pre_state_string i)
    (pre_state_reply_string i) (condition_tuples i) (dialog_string i)
    (post_state_string i) (Some v).

(** ** The monad of method bodies *)

(** A method returns, raises, or faults; [Fault] is a dangling reference
    (an object or list that was never allocated), which no Python program
    can produce. *)
Inductive outcome (A : Type) : Type :=
| Ret (a : A)
| Raise (e : exn)
| Fault.
Arguments Ret {A} a.
Arguments Raise {A} e.
Arguments Fault {A}.

Definition M (A : Type) : Type := heap -> outcome A * heap.

Definition ret {A} (a : A) : M A := fun h => (Ret a, h).
Definition raise {A} (e : exn) : M A := fun h => (Raise e, h).
Definition fault {A} : M A := fun h => (Fault, h).

Definition bind {A B} (c : M A) (k : A -> M B) : M B :=
  fun h =>
    match c h with
    | (Ret a, h') => k a h'
    | (Raise e, h') => (Raise e, h')
    | (Fault, h') => (Fault, h')
    end.

Declare Scope py_scope.
Delimit Scope py_scope with py.
Notation "'let!' x ':=' c 'in' k" := (bind c (fun x => k))
  (at level 10, x name, c at level 100, k at level 200) : py_scope.
Notation "c ';;!' k" := (bind c (fun _ => k))
  (at level 100, k at level 200, right associativity) : py_scope.
Local Open Scope py_scope.

(** [if b: raise e] *)
Definition raise_if (b : bool) (e : exn) : M unit :=
  if b then raise e else ret tt.

(** Lifting of a pure computation that may raise. *)
Definition lift {A} (r : exn + A) : M A :=
  match r with
  | inr a => ret a
  | inl e => raise e
  end.

(** The dictionary of [self]. *)
Definition self_dict (self : oid) : M inst :=
  fun h =>
    match objs h !! self with
    | Some i => (Ret i, h)
    | None => (Fault, h)
    end.

(** [self.x] for an attribute reader [f]. *)
Definition getattr {A} (self : oid) (f : inst -> A) : M A :=
  let! i := self_dict self in ret (f i).

(** [self.x = v] for an attribute writer [f]. *)
Definition setattr (self : oid) (f : inst -> inst) : M unit :=
  fun h =>
    match objs h !! self with
    | Some i => (Ret tt, Heap (lists h) (<[self := f i]> (objs h)))
    | None => (Fault, h)
    end.

(** The contents of a list cell. *)
Definition read_list (l : loc) : M (list pyval) :=
  fun h =>
    match lists h !! l with
    | Some ds => (Ret ds, h)
    | None => (Fault, h)
    end.

(** [ds.append(x)] on the contents of a cell. *)
Definition snoc (ds : list pyval) (x : pyval) : list pyval := ds ++ [x].

(** [l.append(x)]: in place, so visible through every reference to [l]. *)
Definition list_append (l : loc) (x : pyval) : M unit :=
  fun h =>
    match lists h !! l with
    | Some ds => (Ret tt, Heap (<[l := snoc ds x]> (lists h)) (objs h))
    | None => (Fault, h)
    end.

(** The list display [[]]: a new, empty cell. *)
Definition new_list : M loc :=
  fun h =>
    let l := fresh (dom (lists h)) in
    (Ret l, Heap (<[l := []]> (lists h)) (objs h)).

(** [DialogBuilder()]: a new object with an empty dictionary. *)
Definition construct : M oid :=
  fun h =>
    let o := fresh (dom (objs h)) in
    (Ret o, Heap (lists h) (<[o := empty_inst]> (objs h))).

(** ** DialogBuilder *)

Module DialogBuilder.

(** [append(self, dialog = [])], lines 32-80.  The four checks run before
    the test for an explicit entry; the entry the builder assembles is a
    six-element list. *)
Definition append (self : oid) (dialog : pyval) : M oid :=
  raise_if (negb (py_eqb dialog (VList [])) && negb (is_list dialog))
    (ValueError "dialog must be a list") ;;!
  let! p := getattr self attr_partner_bitwise in
  raise_if (py_eqb p VNone) (ValueError "partner must be set") ;;!
  let! pre := getattr self attr_pre_state_string in
  raise_if (py_eqb pre VNone) (ValueError "pre_state must be set") ;;!
  let! post := getattr self attr_post_state_string in
  raise_if (py_eqb post VNone) (ValueError "post_state must be set") ;;!
  let! txt := getattr self attr_dialog_string in
  raise_if (py_eqb txt VNone) (ValueError "dialog must be set") ;;!
  let! dialog :=
    (if py_eqb dialog (VList []) then
       let! i := self_dict self in
       ret (VList [attr_partner_bitwise i; attr_pre_state_string i;
                   attr_condition_tuples i; attr_dialog_string i;
                   attr_post_state_string i; attr_consequence_tuples i])
     else ret dialog) in
  setattr self (set_partner_bitwise VNone) ;;!
  setattr self (set_pre_state_string VNone) ;;!
  setattr self (set_condition_tuples (VList [])) ;;!
  setattr self (set_dialog_string (VStr "")) ;;!
  setattr self (set_post_state_string VNone) ;;!
  setattr self (set_consequence_tuples (VList [])) ;;!
  let! l := getattr self attr_dialogs in
  list_append l dialog ;;!
  ret self.

(** The default of [append]'s parameter. *)
Definition no_dialog : pyval := VList [].

(** [build(self)], lines 82-92. *)
Definition build (self : oid) : M pyval :=
  let! i := self_dict self in
  ret (VTuple [attr_partner_bitwise i; attr_pre_state_string i;
               attr_condition_tuples i; attr_dialog_string i;
               attr_post_state_string i; attr_consequence_tuples i]).

(** [done(self)], lines 94-109.  The result is the reference [self.dialogs]
    held before the attribute is rebound to a new empty list. *)
Definition done (self : oid) : M loc :=
  let! l := getattr self attr_dialogs in
  let! ds := read_list l in
  (if py_eqb (VList ds) (VList []) then
     append self no_dialog ;;! ret tt
   else ret tt) ;;!
  let! dialogs := getattr self attr_dialogs in
  let! l' := new_list in
  setattr self (set_dialogs l') ;;!
  ret dialogs.

(** [partner(self, partner)], lines 111-129. *)
Definition partner (self : oid) (partner : pyval) : M oid :=
  setattr self (set_partner_bitwise partner) ;;!
  match partner with
  | VList items =>
      let! mask := lift (reduce or_ items) in
      setattr self (set_partner_bitwise mask)
  | _ => ret tt
  end ;;!
  ret self.

(** [pre_state(self, prestate, on_reply = False)], lines 131-149. *)
Definition pre_state (self : oid) (prestate : pyval) (on_reply : bool)
    : M oid :=
  setattr self (set_pre_state_string prestate) ;;!
  (if on_reply then setattr self (set_pre_state_reply_string prestate)
   else ret tt) ;;!
  ret self.

(** [condition(self, condition)], lines 151-173. *)
Definition condition (self : oid) (condition : pyval) : M oid :=
  raise_if (negb (is_list condition))
    (ValueError "condition must be a list") ;;!
  setattr self (set_condition_tuples condition) ;;!
  ret self.

(** [post_state(self, poststate = "close_window")], lines 209-223. *)
Definition post_state (self : oid) (poststate : pyval) : M oid :=
  setattr self (set_post_state_string poststate) ;;!
  ret self.

Definition close_window : pyval := VStr "close_window".

(** [state(self, prestate, poststate)], lines 175-191. *)
Definition state (self : oid) (prestate poststate : pyval) : M oid :=
  pre_state self prestate false ;;!
  post_state self poststate ;;!
  ret self.

(** [dialog(self, text)], lines 193-207. *)
Definition dialog (self : oid) (text : pyval) : M oid :=
  setattr self (set_dialog_string text) ;;!
  ret self.

(** [consequence(self, consequence)], lines 225-247. *)
Definition consequence (self : oid) (consequence : pyval) : M oid :=
  raise_if (negb (is_list consequence))
    (ValueError "consequence must be a list") ;;!
  setattr self (set_consequence_tuples consequence) ;;!
  append self no_dialog.

(** [end], [start] and [replies_end], lines 249-273 and 321-331. *)
Definition end_ (self : oid) : M oid := ret self.
Definition start (self : oid) : M oid := ret self.
Definition replies_end (self : oid) : M oid := ret self.

(** [replies_start(self, prestate = "")], lines 275-294. *)
Definition replies_start (self : oid) (prestate : pyval) : M oid :=
  pre_state self prestate true ;;!
  (if py_eqb prestate (VStr "") then
     let! l := getattr self attr_dialogs in
     let! ds := read_list l in
     let! entry := lift (py_last ds) in
     let! post := lift (py_index entry 4) in
     pre_state self post true ;;! ret tt
   else ret tt) ;;!
  ret self.

Definition no_prestate : pyval := VStr "".

(** The methods of the class that are called as [self.name(x)] and return
    the builder, by name; [reply], which is defined last, is the only
    caller.  A name that the class does not bind is an [AttributeError]:
    instances bind data attributes only, and the class has no base class
    and no [__getattr__]. *)
Definition bound_methods : list (string * (oid -> pyval -> M oid)) :=
  [ ("append", append);
    ("partner", partner);
    ("pre_state", fun self x => pre_state self x false);
    ("condition", condition);
    ("dialog", dialog);
    ("post_state", post_state);
    ("consequence", consequence);
    ("replies_start", replies_start) ].

Fixpoint find_method (name : string)
    (table : list (string * (oid -> pyval -> M oid)))
    : option (oid -> pyval -> M oid) :=
  match table with
  | [] => None
  | (n, m) :: rest => if String.eqb n name then Some m else find_method name rest
  end.

Definition call_method (self : oid) (name : string) (x : pyval) : M oid :=
  match find_method name bound_methods with
  | Some m => m self x
  | None => raise (AttributeError name)
  end.

Section Reply.

(** [anyone] and [plyr] come from the module system's headers, through
    [from _imports import *]; they are integers there. *)
Variables anyone plyr : Z.

(** [reply(self, text, poststate = "close_window", append = True)],
    lines 296-319.  Line 313 calls [self.talk]. *)
Definition reply (self : oid) (text poststate : pyval) (append_ : bool)
    : M oid :=
  partner self (VList [VInt anyone; VInt plyr]) ;;!
  let! base := getattr self attr_pre_state_reply_string in
  pre_state self base false ;;!
  call_method self "talk" text ;;!
  post_state self poststate ;;!
  (if append_ then append self no_dialog ;;! ret tt else ret tt) ;;!
  ret self.

End Reply.

End DialogBuilder.

(** ** OperatorBuilder *)

Module OperatorBuilder.

(** An [OperatorBuilder] owns its list: [__init__] binds [self.tuples] to a
    new list in every instance, so a method is a function from the list
    before the call to an outcome and the list after it. *)
Definition method : Type := list pyval -> outcome unit * list pyval.

(** [append(self, item)], lines 7-21. *)
Definition append (item : pyval) : method :=
  fun tuples => (Ret tt, tuples ++ [item]).

(** The generator expression of lines 38, 82 and 11438:
    [j for i in operation for j in (i if type(i) is tuple else (i,))]. *)
Definition flatten (operation : list pyval) : list pyval :=
  flat_map (fun i => match i with VTuple items => items | _ => [i] end)
    operation.

(** [tuple(self, *args)], lines 24-40. *)
Definition tuple (args : list pyval) : method :=
  let operation := args in
  let flattened_operation := VTuple (flatten operation) in
  append flattened_operation.

(** [done(self)], lines 43-51: the list itself, which stays bound. *)
Definition done (tuples : list pyval) : list pyval := tuples.

Definition too_many_parameters : string :=
  "Maximum number of parameters you can pass with the operation is 16.".

Section Opcodes.

(** Operation codes of the module system, bound by
    [from _headers import *]; they are integers there. *)
Variables op_call_script op_try_begin op_try_for_range
  op_set_shader_param_float4x4 : Z.

(** [call_script(self, script, *args)], lines 61-84. *)
Definition call_script (script : pyval) (args : list pyval) : method :=
  fun tuples =>
    if (16 <? length args)%nat then
      (Raise (ValueError too_many_parameters), tuples)
    else
      let operation := [VInt op_call_script; script; VTuple args] in
      let flattened_operation := VTuple (flatten operation) in
      append flattened_operation tuples.

(** [try_begin(self)], lines 86-97: [(try_begin)] is the opcode itself,
    not a tuple. *)
Definition try_begin : method :=
  append (VInt op_try_begin).

(** [try_for_range(self, iterable, lower_bound, upper_bound)],
    lines 151-167; the shape of the fixed-arity wrappers. *)
Definition try_for_range (iterable lower_bound upper_bound : pyval)
    : method :=
  append (VTuple [VInt op_try_for_range; iterable; lower_bound; upper_bound]).

(** [set_shader_param_float4x4(self, parameter_name, *args)],
    lines 11422-11440. *)
Definition set_shader_param_float4x4 (parameter_name : pyval)
    (args : list pyval) : method :=
  let operation :=
    [VInt op_set_shader_param_float4x4; parameter_name; VTuple args] in
  let flattened_operation := VTuple (flatten operation) in
  append flattened_operation.

End Opcodes.

(** The flattening as section 4.2 of the specification words it: each
    tuple argument's elements are spliced in place, every other argument
    passes through unchanged. *)
Inductive spliced : list pyval -> list pyval -> Prop :=
| spliced_nil : spliced [] []
| spliced_tuple items args flat :
    spliced args flat ->
    spliced (VTuple items :: args) (items ++ flat)
| spliced_scalar x args flat :
    is_tuple x = false ->
    spliced args flat ->
    spliced (x :: args) (x :: flat).

End OperatorBuilder.

(** ** Observations on heaps *)

(** The heap with the dictionary of [self] replaced. *)
Definition upd (h : heap) (self : oid) (i : inst) : heap :=
  Heap (lists h) (<[self := i]> (objs h)).

(** The heap with the contents of a list cell replaced. *)
Definition store (h : heap) (l : loc) (ds : list pyval) : heap :=
  Heap (<[l := ds]> (lists h)) (objs h).

(** The sequence that [self.dialogs] denotes, when [self] is allocated and
    the reference is not dangling. *)
Definition seq_of (h : heap) (self : oid) : option (list pyval) :=
  match objs h !! self with
  | Some i => lists h !! attr_dialogs i
  | None => None
  end.

(** The entry that the no-argument [append] assembles at line 69. *)
Definition entry_of (i : inst) : pyval :=
  VList [attr_partner_bitwise i; attr_pre_state_string i;
         attr_condition_tuples i; attr_dialog_string i;
         attr_post_state_string i; attr_consequence_tuples i].

(** The entry that reaches the output: the explicit one, or the assembled
    one when the argument equals [[]]. *)
Definition emitted (i : inst) (d : pyval) : pyval :=
  if py_eqb d (VList []) then entry_of i else d.

(** The dictionary after the six assignments of lines 71-76. *)
Definition reset (i : inst) : inst :=
  Inst (dialogs i) (Some VNone) (Some VNone) (pre_state_reply_string i)
    (Some (VList [])) (Some (VStr "")) (Some VNone) (Some (VList [])).

(** The four required fields are all set, as [append] tests it. *)
Definition complete (i : inst) : bool :=
  negb (py_eqb (attr_partner_bitwise i) VNone)
  && negb (py_eqb (attr_pre_state_string i) VNone)
  && negb (py_eqb (attr_post_state_string i) VNone)
  && negb (py_eqb (attr_dialog_string i) VNone).

(** [a | b | c | ...] on a non-empty list of integers, left to right. *)
Definition bit_or_all (a : Z) (rest : list Z) : Z :=
  fold_left Z.lor rest a.

(** The required field that [append] reports first, in the order of its
    checks (lines 56-66), or [None] when every check passes. *)
Definition first_missing (i : inst) : option string :=
  if py_eqb (attr_partner_bitwise i) VNone then Some "partner"
  else if py_eqb (attr_pre_state_string i) VNone then Some "pre_state"
  else if py_eqb (attr_post_state_string i) VNone then Some "post_state"
  else if py_eqb (attr_dialog_string i) VNone then Some "dialog"
  else None.

Definition must_be_set (field : string) : exn :=
  ValueError (field ++ " must be set").

(** ** Sample builders *)

(** [anyone] and [plyr] as the module system's [header_dialogs] has them. *)
Definition sample_anyone : Z := 4095.
Definition sample_plyr : Z := 65536.

(** [DialogBuilder()] on the initial heap: object [0]. *)
Definition fresh_heap : heap := snd (construct heap0).

(** [b.partner([anyone, plyr]).pre_state("start").dialog("Hello.")
      .post_state("close_window")] on a new builder [b]. *)
Definition hello_chain : M oid :=
  let! b := construct in
  DialogBuilder.partner b (VList [VInt sample_anyone; VInt sample_plyr]) ;;!
  DialogBuilder.pre_state b (VStr "start") false ;;!
  DialogBuilder.dialog b (VStr "Hello.") ;;!
  DialogBuilder.post_state b DialogBuilder.close_window.

Definition hello_heap : heap := snd (hello_chain heap0).

Definition hello_inst : inst :=
  Inst None (Some (VInt 69631)) (Some (VStr "start")) None None
    (Some (VStr "Hello.")) (Some DialogBuilder.close_window) None.

Definition hello_entry : pyval :=
  VList [VInt 69631; VStr "start"; VList []; VStr "Hello.";
         VStr "close_window"; VList []].

(** [b.partner(1).pre_state("start").post_state("close_window")] on a new
    builder [b]: the text is never set. *)
Definition silent_chain : M oid :=
  let! b := construct in
  DialogBuilder.partner b (VInt 1) ;;!
  DialogBuilder.pre_state b (VStr "start") false ;;!
  DialogBuilder.post_state b DialogBuilder.close_window.

Definition silent_heap : heap := snd (silent_chain heap0).

Definition silent_entry : pyval :=
  VList [VInt 1; VStr "start"; VList []; VStr "";
         VStr "close_window"; VList []].

(** [b.partner(1)] on a new builder [b]: one required field is set. *)
Definition partner_only_heap : heap :=
  snd ((let! b := construct in DialogBuilder.partner b (VInt 1)) heap0).

(** The location that [new_list] hands out next. *)
Definition next_loc (h : heap) : loc := fresh (dom (lists h)).

(** [b.replies_start("start")] on a new builder [b]. *)
Definition replies_heap : heap :=
  snd ((let! b := construct in
        DialogBuilder.replies_start b (VStr "start")) heap0).

Definition replies_inst : inst :=
  Inst None None (Some (VStr "start")) (Some (VStr "start"))
    None None None None.

(** Two builders on the initial heap: [0] holds a complete line, [1] is
    new. *)
Definition two_builders_heap : heap :=
  snd ((hello_chain ;;! construct) heap0).

(** A second complete line for builder [0]. *)
Definition again_chain (text : string) : M oid :=
  DialogBuilder.partner 0%nat (VInt 1) ;;!
  DialogBuilder.pre_state 0%nat (VStr "start") false ;;!
  DialogBuilder.dialog 0%nat (VStr text) ;;!
  DialogBuilder.post_state 0%nat DialogBuilder.close_window ;;!
  DialogBuilder.append 0%nat DialogBuilder.no_dialog.

(** Builder [0] emits a line, calls [done], emits a second line; then a
    new builder calls [done], and the sequence it returns is read. *)
Definition after_done_scenario : M (list pyval) :=
  hello_chain ;;!
  DialogBuilder.append 0%nat DialogBuilder.no_dialog ;;!
  DialogBuilder.done 0%nat ;;!
  again_chain "Again." ;;!
  let! b := construct in
  let! l := DialogBuilder.done b in
  read_list l.

(** One builder sets its partner; the partner of a second, new builder is
    read. *)
Definition field_scenario : M pyval :=
  let! a := construct in
  DialogBuilder.partner a (VInt 1) ;;!
  let! b := construct in
  getattr b attr_partner_bitwise.

(** ** Calls on a builder *)

(** The public methods of [DialogBuilder], as data: one constructor per
    [def] of the class, with the method's parameters. *)
Inductive call : Type :=
| CallAppend (dialog : pyval)
| CallBuild
| CallDone
| CallPartner (partner : pyval)
| CallPreState (prestate : pyval) (on_reply : bool)
| CallCondition (condition : pyval)
| CallState (prestate poststate : pyval)
| CallDialog (text : pyval)
| CallPostState (poststate : pyval)
| CallConsequence (consequence : pyval)
| CallEnd
| CallStart
| CallRepliesStart (prestate : pyval)
| CallReply (text poststate : pyval) (append_ : bool)
| CallRepliesEnd.

Section Exec.

Variables anyone plyr : Z.

(** One method call on the builder [self]; the value returned is dropped. *)
Definition exec (self : oid) (c : call) : M unit :=
  match c with
  | CallAppend d => DialogBuilder.append self d ;;! ret tt
  | CallBuild => DialogBuilder.build self ;;! ret tt
  | CallDone => DialogBuilder.done self ;;! ret tt
  | CallPartner p => DialogBuilder.partner self p ;;! ret tt
  | CallPreState s r => DialogBuilder.pre_state self s r ;;! ret tt
  | CallCondition v => DialogBuilder.condition self v ;;! ret tt
  | CallState a b => DialogBuilder.state self a b ;;! ret tt
  | CallDialog t => DialogBuilder.dialog self t ;;! ret tt
  | CallPostState s => DialogBuilder.post_state self s ;;! ret tt
  | CallConsequence v => DialogBuilder.consequence self v ;;! ret tt
  | CallEnd => DialogBuilder.end_ self ;;! ret tt
  | CallStart => DialogBuilder.start self ;;! ret tt
  | CallRepliesStart s => DialogBuilder.replies_start self s ;;! ret tt
  | CallReply t s a => DialogBuilder.reply anyone plyr self t s a ;;! ret tt
  | CallRepliesEnd => DialogBuilder.replies_end self ;;! ret tt
  end.

(** The heaps a program can reach from [h0]: it constructs builders and
    calls methods on builders that exist.  The heap of a call that raised
    is a heap to go on from, as when the caller catches the exception. *)
Inductive reachable_from (h0 : heap) : heap -> Prop :=
| reach_here : reachable_from h0 h0
| reach_new h :
    reachable_from h0 h ->
    reachable_from h0 (snd (construct h))
| reach_call h self i c :
    reachable_from h0 h ->
    objs h !! self = Some i ->
    reachable_from h0 (snd (exec self c h)).

End Exec.

(** No reference dangles: the class-level list exists, and so does the
    list that each builder's [dialogs] denotes. *)
Definition wf (h : heap) : Prop :=
  is_Some (lists h !! class_dialogs) /\
  forall o i, objs h !! o = Some i -> is_Some (lists h !! attr_dialogs i).

(** Every list of [h] is in [h'], with its entries and possibly more
    after them. *)
Definition grows (h h' : heap) : Prop :=
  forall l ds, lists h !! l = Some ds ->
    exists more, lists h' !! l = Some (ds ++ more).

(** Every entry of every list is a Python list. *)
Definition holds_lists (h : heap) : Prop :=
  forall l ds, lists h !! l = Some ds -> Forall (fun x => is_list x = true) ds.

(** The same builders exist in both heaps. *)
Definition same_builders (h h' : heap) : Prop :=
  forall o, is_Some (objs h !! o) <-> is_Some (objs h' !! o).

(** The elementary changes that the methods make to a heap: an attribute
    other than [dialogs] is written; a Python list is appended to a list
    cell; a builder's [dialogs] is rebound to a new empty cell. *)
Inductive moves : heap -> heap -> Prop :=
| moves_refl h : moves h h
| moves_setattr h self i i' :
    objs h !! self = Some i ->
    dialogs i' = dialogs i ->
    moves h (upd h self i')
| moves_push h l ds x :
    lists h !! l = Some ds ->
    is_list x = true ->
    moves h (store h l (snoc ds x))
| moves_rebind h self i :
    objs h !! self = Some i ->
    moves h (upd (store h (next_loc h) []) self (set_dialogs (next_loc h) i))
| moves_trans h1 h2 h3 :
    moves h1 h2 -> moves h2 h3 -> moves h1 h3.

(** The exceptions a call may end in, by method. *)
Definition may_raise (c : call) (e : exn) : Prop :=
  match c with
  | CallAppend _ =>
      e = ValueError "dialog must be a list" \/
      exists field, e = must_be_set field
  | CallDone => exists field, e = must_be_set field
  | CallCondition _ => e = ValueError "condition must be a list"
  | CallConsequence _ =>
      e = ValueError "consequence must be a list" \/
      exists field, e = must_be_set field
  | CallPartner _ => e = TypeError
  | CallRepliesStart _ => e = IndexError
  | CallReply _ _ _ => e = AttributeError "talk"
  | _ => False
  end.

(** A call ends well when it returns or raises one of its exceptions. *)
Definition ends_well {A} (c : call) (r : outcome A) : Prop :=
  match r with
  | Ret _ => True
  | Raise e => may_raise c e
  | Fault => False
  end.

(** The calls that can add an entry to a sequence. *)
Definition emits (c : call) : bool :=
  match c with
  | CallAppend _ | CallConsequence _ | CallDone => true
  | _ => false
  end.

(** The calls that write the reply base state, [pre_state_reply_string]. *)
Definition sets_reply_base (c : call) : bool :=
  match c with
  | CallPreState _ true | CallRepliesStart _ => true
  | _ => false
  end.

(** After any call on [self], the dictionaries are those of before with
    the one of [self] replaced. *)
Definition dict_after (h h' : heap) (self : oid) (i' : inst) : Prop :=
  objs h' = <[self := i']> (objs h).

(** Builder [0] has emitted one line and holds a second, complete one
    that is not emitted yet; builder [1] is new.  The class-level list
    holds the first line. *)
Definition pending_chain : M oid :=
  DialogBuilder.partner 0%nat (VInt 1) ;;!
  DialogBuilder.pre_state 0%nat (VStr "start") false ;;!
  DialogBuilder.dialog 0%nat (VStr "Again.") ;;!
  DialogBuilder.post_state 0%nat DialogBuilder.close_window.

Definition busy_heap : heap :=
  snd ((hello_chain ;;!
        DialogBuilder.append 0%nat DialogBuilder.no_dialog ;;!
        construct ;;!
        pending_chain) heap0).

Definition pending_inst : inst :=
  Inst None (Some (VInt 1)) (Some (VStr "start")) None (Some (VList []))
    (Some (VStr "Again.")) (Some DialogBuilder.close_window)
    (Some (VList [])).

Definition pending_entry : pyval :=
  VList [VInt 1; VStr "start"; VList []; VStr "Again.";
         VStr "close_window"; VList []].

(** [type(v) is int]. *)
Definition is_int (v : pyval) : bool :=
  match v with VInt _ => true | _ => false end.

(** ** The wrappers of OperatorBuilder as a class body *)

(** No tuple argument holds a tuple. *)
Definition shallow (args : list pyval) : bool :=
  forallb (fun i => match i with
                    | VTuple items => forallb (fun j => negb (is_tuple j)) items
                    | _ => true
                    end) args.

(** The number of constructors of a value, and the number of tuples
    among the elements of a list. *)
Fixpoint size (v : pyval) : nat :=
  match v with
  | VTuple items | VList items => S (list_sum (map size items))
  | _ => 1%nat
  end.

Definition tuples_in (args : list pyval) : nat :=
  length (filter (fun i => is_tuple i = true) args).

(** The two bodies of the fixed-arity wrappers: [self.append((op, a, b))]
    appends a tuple, [self.append((op))] appends the opcode itself. *)
Inductive wrapper_body : Type :=
| AppendsTuple
| AppendsOpcode.

(** One [def] of the class body: its line, its name, which is also the
    name of its opcode, the number of its parameters after [self], and
    the shape of its body. *)
Record wrapper_def : Type := WrapperDef {
  def_line : Z;
  def_name : string;
  def_params : nat;
  def_body : wrapper_body
}.

(** The three [def set_spawn_position] of [OperatorBuilder.py]. *)
Definition set_spawn_position_11650 : wrapper_def :=
  WrapperDef 11650 "set_spawn_position" 1 AppendsTuple.
Definition set_spawn_position_12474 : wrapper_def :=
  WrapperDef 12474 "set_spawn_position" 1 AppendsTuple.
Definition set_spawn_position_13107 : wrapper_def :=
  WrapperDef 13107 "set_spawn_position" 0 AppendsOpcode.

(** Executing a class body binds each name to the latest [def] of it. *)
Definition class_namespace (body : list wrapper_def)
    : gmap string wrapper_def :=
  fold_left (fun ns d => <[def_name d := d]> ns) body ∅.

(** [builder.name(args...)] for a name bound to a wrapper: a call with the
    wrong number of arguments is a [TypeError], a name that the class does
    not bind an [AttributeError]. *)
Definition call_wrapper (opcode : string -> Z)
    (ns : gmap string wrapper_def) (name : string) (args : list pyval)
    : OperatorBuilder.method :=
  fun tuples =>
    match ns !! name with
    | None => (Raise (AttributeError name), tuples)
    | Some d =>
        if (length args =? def_params d)%nat then
          match def_body d with
          | AppendsTuple =>
              OperatorBuilder.append
                (VTuple (VInt (opcode (def_name d)) :: args)) tuples
          | AppendsOpcode =>
              OperatorBuilder.append (VInt (opcode (def_name d))) tuples
          end
        else (Raise TypeError, tuples)
    end.

(** The calls all of whose [raise] statements come before the first
    write: [append], [done] and [condition]. *)
Definition checks_first (c : call) : bool :=
  match c with
  | CallAppend _ | CallDone | CallCondition _ => true
  | _ => false
  end.

(** ** The class body of OperatorBuilder *)

(** The bodies that occur in [class OperatorBuilder].  Nine methods have a
    body of their own; every other [def] is one [return self.append(...)],
    of the tuple of its own opcode and its parameters in order, or of the
    opcode alone. *)
Inductive method_body : Type :=
| SetsTuples
| AppendsItem
| AppendsFlattened
| ReturnsTuples
| ChecksThenFlattens
| FlattensKeywords
| ConvertsBool
| FlattensValues
| Delegates (target : string) (params : nat)
| AppendsOperation (required : nat) (defaults : list pyval)
| AppendsBare (params : nat).

(** One [def]: its line, its name, which is also the name of the opcode
    its body uses, and its body.  [AppendsOperation r ds] has [r]
    parameters without a default followed by parameters with the defaults
    [ds]; [AppendsBare n] and [Delegates _ n] have [n] parameters. *)
Record method_def : Type := Def {
  m_line : Z;
  m_name : string;
  m_body : method_body
}.

Definition class_body_00 : list method_def :=
  [ Def 4 "__init__" (SetsTuples);
    Def 7 "append" (AppendsItem);
    Def 24 "tuple" (AppendsFlattened);
    Def 43 "done" (ReturnsTuples);
    Def 61 "call_script" (ChecksThenFlattens);
    Def 86 "try_begin" (AppendsBare 0);
    Def 99 "else_try" (AppendsBare 0);
    Def 112 "else_try_begin" (AppendsBare 1);
    Def 125 "try_end" (AppendsBare 0);
    Def 138 "end_try" (AppendsBare 0);
    Def 151 "try_for_range" (AppendsOperation 3 []);
    Def 169 "try_for_range_backwards" (AppendsOperation 3 []);
    Def 187 "try_for_parties" (AppendsOperation 1 []);
    Def 203 "try_for_agents" (AppendsOperation 1 []);
    Def 219 "try_for_prop_instances" (FlattensKeywords);
    Def 238 "try_for_players" (ConvertsBool);
    Def 283 "gt" (AppendsOperation 2 []);
    Def 300 "ge" (AppendsOperation 2 []);
    Def 317 "eq" (AppendsOperation 2 []);
    Def 334 "neq" (AppendsOperation 2 []);
    Def 351 "le" (AppendsOperation 2 []);
    Def 368 "lt" (AppendsOperation 2 []);
    Def 385 "is_between" (AppendsOperation 3 []);
    Def 405 "assign" (AppendsOperation 2 []);
    Def 423 "store_add" (AppendsOperation 3 []);
    Def 441 "store_sub" (AppendsOperation 3 []);
    Def 459 "store_mul" (AppendsOperation 3 []);
    Def 477 "store_div" (AppendsOperation 3 []);
    Def 495 "store_mod" (AppendsOperation 3 []);
    Def 513 "val_add" (AppendsOperation 2 []);
    Def 529 "val_sub" (AppendsOperation 2 []);
    Def 545 "val_mul" (AppendsOperation 1 []);
    Def 561 "val_div" (AppendsOperation 2 []);
    Def 577 "val_mod" (AppendsOperation 2 []);
    Def 593 "val_min" (AppendsOperation 2 []);
    Def 609 "val_max" (AppendsOperation 2 []);
    Def 625 "val_clamp" (AppendsOperation 3 []);
    Def 641 "val_abs" (AppendsOperation 1 []);
    Def 657 "store_or" (AppendsOperation 3 []);
    Def 673 "store_and" (AppendsOperation 3 []);
    Def 689 "val_or" (AppendsOperation 2 []);
    Def 705 "val_and" (AppendsOperation 2 []);
    Def 721 "val_lshift" (AppendsOperation 2 []);
    Def 737 "val_rshift" (AppendsOperation 2 []);
    Def 753 "store_sqrt" (AppendsOperation 2 []);
    Def 769 "store_pow" (AppendsOperation 3 []);
    Def 785 "store_sin" (AppendsOperation 2 []);
    Def 801 "store_cos" (AppendsOperation 2 []);
    Def 817 "store_tan" (AppendsOperation 2 []);
    Def 833 "store_asin" (AppendsOperation 2 []);
    Def 849 "store_acos" (AppendsOperation 2 []);
    Def 865 "store_atan" (AppendsOperation 2 []);
    Def 881 "store_atan2" (AppendsOperation 3 []);
    Def 899 "store_random" (AppendsOperation 2 []);
    Def 915 "store_random_in_range" (AppendsOperation 3 []);
    Def 931 "shuffle_range" (AppendsOperation 2 []);
    Def 949 "set_fixed_point_multiplier" (AppendsOperation 1 []);
    Def 965 "convert_to_fixed_point" (AppendsOperation 1 []);
    Def 981 "convert_from_fixed_point" (AppendsOperation 1 []);
    Def 1025 "store_script_param_1" (AppendsOperation 1 []);
    Def 1041 "store_script_param_2" (AppendsOperation 1 []);
    Def 1057 "store_script_param" (AppendsOperation 2 []);
    Def 1073 "set_result_string" (AppendsOperation 1 []);
    Def 1089 "store_trigger_param_1" (AppendsOperation 1 []);
    Def 1105 "store_trigger_param_2" (AppendsOperation 1 []);
    Def 1121 "store_trigger_param_3" (AppendsOperation 1 []);
    Def 1137 "store_trigger_param" (AppendsOperation 2 []);
    Def 1153 "get_trigger_object_position" (AppendsOperation 1 []);
    Def 1169 "set_trigger_result" (AppendsOperation 1 []);
    Def 1197 "key_is_down" (AppendsOperation 1 []);
    Def 1213 "key_clicked" (AppendsOperation 1 []);
    Def 1229 "game_key_is_down" (AppendsOperation 1 []);
    Def 1245 "game_key_clicked" (AppendsOperation 1 []);
    Def 1263 "omit_key_once" (AppendsOperation 1 []);
    Def 1279 "clear_omitted_keys" (AppendsBare 0);
    Def 1292 "mouse_get_position" (AppendsOperation 1 []);
    Def 1318 "is_currently_night" (AppendsBare 0);
    Def 1331 "map_free" (AppendsBare 0);
    Def 1346 "get_global_cloud_amount" (AppendsOperation 1 []);
    Def 1362 "set_global_cloud_amount" (AppendsOperation 1 []);
    Def 1378 "get_global_haze_amount" (AppendsOperation 1 []);
    Def 1394 "set_global_haze_amount" (AppendsOperation 1 []);
    Def 1412 "store_current_hours" (AppendsOperation 1 []);
    Def 1428 "store_time_of_day" (AppendsOperation 1 []);
    Def 1444 "store_current_day" (AppendsOperation 1 []);
    Def 1460 "rest_for_hours" (AppendsOperation 0 [VInt 0; VInt 0; VInt 0]);
    Def 1476 "rest_for_hours_interactive" (AppendsOperation 0 [VInt 0; VInt 0; VInt 0]);
    Def 1504 "is_trial_version" (AppendsBare 0);
    Def 1517 "is_edit_mode_enabled" (AppendsBare 0);
    Def 1530 "get_operation_set_version" (AppendsOperation 1 []);
    Def 1546 "set_player_troop" (AppendsOperation 1 []);
    Def 1562 "show_object_details_overlay" (AppendsOperation 1 []);
    Def 1578 "auto_save" (AppendsBare 0);
    Def 1591 "options_get_damage_to_player" (AppendsOperation 1 []);
    Def 1607 "options_set_damage_to_player" (AppendsOperation 1 []);
    Def 1623 "options_get_damage_to_friends" (AppendsOperation 1 []);
    Def 1639 "options_set_damage_to_friends" (AppendsOperation 1 []);
    Def 1655 "options_get_combat_ai" (AppendsOperation 1 []);
    Def 1671 "options_set_combat_ai" (AppendsOperation 1 []);
    Def 1687 "game_get_reduce_campaign_ai" (AppendsOperation 1 []) ].

Definition class_body_01 : list method_def :=
  [ Def 1703 "options_get_campaign_ai" (AppendsOperation 1 []);
    Def 1719 "options_set_campaign_ai" (AppendsOperation 1 []);
    Def 1735 "options_get_combat_speed" (AppendsOperation 1 []);
    Def 1751 "options_set_combat_speed" (AppendsOperation 1 []);
    Def 1767 "options_get_battle_size" (AppendsOperation 1 []);
    Def 1783 "options_set_battle_size" (AppendsOperation 1 []);
    Def 1799 "get_average_game_difficulty" (AppendsOperation 1 []);
    Def 1815 "get_achievement_stat" (AppendsOperation 3 []);
    Def 1833 "set_achievement_stat" (AppendsOperation 3 []);
    Def 1851 "unlock_achievement" (AppendsOperation 1 []);
    Def 1867 "get_player_agent_kill_count" (AppendsOperation 2 []);
    Def 1884 "get_player_agent_own_troop_kill_count" (AppendsOperation 2 []);
    Def 1901 "faction_set_slot" (AppendsOperation 3 []);
    Def 1919 "faction_get_slot" (AppendsOperation 3 []);
    Def 1937 "faction_slot_eq" (AppendsOperation 3 []);
    Def 1955 "faction_slot_ge" (AppendsOperation 3 []);
    Def 1973 "set_relation" (AppendsOperation 3 []);
    Def 1991 "store_relation" (AppendsOperation 3 []);
    Def 2009 "faction_set_name" (AppendsOperation 2 []);
    Def 2026 "faction_set_color" (AppendsOperation 2 []);
    Def 2043 "faction_get_color" (AppendsOperation 2 []);
    Def 2060 "hero_can_join" (AppendsOperation 1 []);
    Def 2076 "hero_can_join_as_prisoner" (AppendsOperation 1 []);
    Def 2092 "party_can_join" (AppendsBare 0);
    Def 2105 "party_can_join_as_prisoner" (AppendsBare 0);
    Def 2118 "troops_can_join" (AppendsOperation 1 []);
    Def 2134 "troops_can_join_as_prisoner" (AppendsOperation 1 []);
    Def 2150 "party_can_join_party" (AppendsOperation 3 []);
    Def 2168 "main_party_has_troop" (AppendsOperation 1 []);
    Def 2184 "party_is_in_town" (AppendsOperation 2 []);
    Def 2201 "party_is_in_any_town" (AppendsOperation 1 []);
    Def 2217 "party_is_active" (AppendsOperation 1 []);
    Def 2233 "party_template_set_slot" (AppendsOperation 3 []);
    Def 2251 "party_template_get_slot" (AppendsOperation 3 []);
    Def 2269 "party_template_slot_eq" (AppendsOperation 3 []);
    Def 2287 "party_template_slot_ge" (AppendsOperation 3 []);
    Def 2305 "party_set_slot" (AppendsOperation 3 []);
    Def 2323 "party_get_slot" (AppendsOperation 3 []);
    Def 2341 "party_slot_eq" (AppendsOperation 3 []);
    Def 2359 "party_slot_ge" (AppendsOperation 3 []);
    Def 2377 "set_party_creation_random_limits" (AppendsOperation 2 []);
    Def 2394 "set_spawn_radius" (AppendsOperation 1 []);
    Def 2410 "spawn_around_party" (AppendsOperation 2 []);
    Def 2427 "disable_party" (AppendsOperation 1 []);
    Def 2443 "enable_party" (AppendsOperation 1 []);
    Def 2459 "remove_party" (AppendsOperation 1 []);
    Def 2475 "party_get_current_terrain" (AppendsOperation 2 []);
    Def 2492 "party_relocate_near_party" (AppendsOperation 3 []);
    Def 2510 "party_get_position" (AppendsOperation 2 []);
    Def 2527 "party_set_position" (AppendsOperation 2 []);
    Def 2544 "set_camera_follow_party" (AppendsOperation 1 []);
    Def 2560 "party_attach_to_party" (AppendsOperation 2 []);
    Def 2577 "party_detach" (AppendsOperation 1 []);
    Def 2593 "party_collect_attachments_to_party" (AppendsOperation 2 []);
    Def 2610 "party_get_cur_town" (AppendsOperation 2 []);
    Def 2627 "party_get_attached_to" (AppendsOperation 2 []);
    Def 2644 "party_get_num_attached_parties" (AppendsOperation 2 []);
    Def 2661 "party_get_attached_party_with_rank" (AppendsOperation 3 []);
    Def 2679 "party_set_name" (AppendsOperation 2 []);
    Def 2696 "party_set_extra_text" (AppendsOperation 2 []);
    Def 2713 "party_get_icon" (AppendsOperation 2 []);
    Def 2730 "party_set_icon" (AppendsOperation 2 []);
    Def 2747 "party_set_banner_icon" (AppendsOperation 2 []);
    Def 2764 "party_set_extra_icon" (AppendsOperation 6 []);
    Def 2785 "party_add_particle_system" (AppendsOperation 2 []);
    Def 2802 "party_clear_particle_systems" (AppendsOperation 1 []);
    Def 2818 "context_menu_add_item" (AppendsOperation 2 []);
    Def 2835 "party_get_template_id" (AppendsOperation 2 []);
    Def 2852 "party_set_faction" (AppendsOperation 2 []);
    Def 2869 "store_faction_of_party" (AppendsOperation 2 []);
    Def 2886 "store_random_party_in_range" (AppendsOperation 3 []);
    Def 2904 "store01_random_parties_in_range" (AppendsOperation 2 []);
    Def 2921 "store_distance_to_party_from_party" (AppendsOperation 2 []);
    Def 2938 "store_num_parties_of_template" (AppendsOperation 2 []);
    Def 2955 "store_random_party_of_template" (AppendsOperation 2 []);
    Def 2972 "store_num_parties_created" (AppendsOperation 2 []);
    Def 2989 "store_num_parties_destroyed" (AppendsOperation 2 []);
    Def 3006 "store_num_parties_destroyed_by_player" (AppendsOperation 2 []);
    Def 3023 "party_get_morale" (AppendsOperation 2 []);
    Def 3040 "party_set_morale" (AppendsOperation 2 []);
    Def 3057 "party_join" (AppendsBare 0);
    Def 3070 "party_join_as_prisoner" (AppendsBare 0);
    Def 3083 "troop_join" (AppendsOperation 1 []);
    Def 3099 "troop_join_as_prisoner" (AppendsOperation 1 []);
    Def 3115 "add_companion_party" (AppendsOperation 1 []);
    Def 3131 "party_add_members" (AppendsOperation 3 []);
    Def 3149 "party_add_prisoners" (AppendsOperation 3 []);
    Def 3167 "party_add_leader" (AppendsOperation 3 []);
    Def 3185 "party_force_add_members" (AppendsOperation 3 []);
    Def 3203 "party_force_add_prisoners" (AppendsOperation 3 []);
    Def 3221 "party_add_template" (AppendsOperation 3 []);
    Def 3239 "distribute_party_among_party_group" (AppendsOperation 2 []);
    Def 3256 "remove_member_from_party" (AppendsOperation 2 []);
    Def 3273 "remove_regular_prisoners" (AppendsOperation 1 []);
    Def 3289 "remove_troops_from_companions" (AppendsOperation 2 []);
    Def 3306 "remove_troops_from_prisoners" (AppendsOperation 2 []);
    Def 3323 "party_remove_members" (AppendsOperation 3 []);
    Def 3341 "party_remove_prisoners" (AppendsOperation 3 []);
    Def 3359 "party_clear" (AppendsOperation 1 []);
    Def 3375 "add_gold_to_party" (AppendsOperation 2 []) ].

Definition class_body_02 : list method_def :=
  [ Def 3392 "party_get_num_companions" (AppendsOperation 2 []);
    Def 3409 "party_get_num_prisoners" (AppendsOperation 2 []);
    Def 3426 "party_count_members_of_type" (AppendsOperation 3 []);
    Def 3444 "party_count_companions_of_type" (AppendsOperation 3 []);
    Def 3462 "party_count_prisoners_of_type" (AppendsOperation 3 []);
    Def 3480 "party_get_free_companions_capacity" (AppendsOperation 2 []);
    Def 3497 "party_get_free_prisoners_capacity" (AppendsOperation 2 []);
    Def 3514 "party_get_num_companion_stacks" (AppendsOperation 2 []);
    Def 3531 "party_get_num_prisoner_stacks" (AppendsOperation 2 []);
    Def 3548 "party_stack_get_troop_id" (AppendsOperation 3 []);
    Def 3566 "party_stack_get_size" (AppendsOperation 3 []);
    Def 3584 "party_stack_get_num_wounded" (AppendsOperation 3 []);
    Def 3602 "party_stack_get_troop_dna" (AppendsOperation 3 []);
    Def 3620 "party_prisoner_stack_get_troop_id" (AppendsOperation 3 []);
    Def 3638 "party_prisoner_stack_get_size" (AppendsOperation 3 []);
    Def 3656 "party_prisoner_stack_get_troop_dna" (AppendsOperation 3 []);
    Def 3674 "store_num_free_stacks" (AppendsOperation 2 []);
    Def 3691 "store_num_free_prisoner_stacks" (AppendsOperation 2 []);
    Def 3708 "store_party_size" (AppendsOperation 2 []);
    Def 3725 "store_party_size_wo_prisoners" (AppendsOperation 2 []);
    Def 3742 "store_troop_kind_count" (AppendsOperation 2 []);
    Def 3759 "store_num_regular_prisoners" (AppendsOperation 2 []);
    Def 3776 "store_troop_count_companions" (AppendsOperation 3 []);
    Def 3794 "store_troop_count_prisoners" (AppendsOperation 3 []);
    Def 3812 "party_add_xp_to_stack" (AppendsOperation 3 []);
    Def 3830 "party_upgrade_with_xp" (AppendsOperation 3 []);
    Def 3849 "party_add_xp" (AppendsOperation 2 []);
    Def 3866 "party_get_skill_level" (AppendsOperation 3 []);
    Def 3884 "heal_party" (AppendsOperation 1 []);
    Def 3900 "party_wound_members" (AppendsOperation 3 []);
    Def 3918 "party_remove_members_wounded_first" (AppendsOperation 3 []);
    Def 3936 "party_quick_attach_to_current_battle" (AppendsOperation 2 []);
    Def 3953 "party_leave_cur_battle" (AppendsOperation 1 []);
    Def 3969 "party_set_next_battle_simulation_time" (AppendsOperation 2 []);
    Def 3986 "party_get_battle_opponent" (AppendsOperation 2 []);
    Def 4003 "inflict_casualties_to_party_group" (AppendsOperation 3 []);
    Def 4021 "party_end_battle" (AppendsOperation 1 []);
    Def 4037 "party_set_marshall" (AppendsOperation 2 []);
    Def 4054 "party_set_marshal" (Delegates "party_set_marshall" 2);
    Def 4071 "party_set_flags" (AppendsOperation 3 []);
    Def 4089 "party_set_aggressiveness" (AppendsOperation 2 []);
    Def 4106 "party_set_courage" (AppendsOperation 2 []);
    Def 4123 "party_get_ai_initiative" (AppendsOperation 2 []);
    Def 4140 "party_set_ai_initiative" (AppendsOperation 2 []);
    Def 4157 "party_set_ai_behavior" (AppendsOperation 2 []);
    Def 4174 "party_set_ai_object" (AppendsOperation 2 []);
    Def 4191 "party_set_ai_target_position" (AppendsOperation 2 []);
    Def 4208 "party_set_ai_patrol_radius" (AppendsOperation 2 []);
    Def 4225 "party_ignore_player" (AppendsOperation 2 []);
    Def 4242 "party_set_bandit_attraction" (AppendsOperation 2 []);
    Def 4259 "party_get_helpfulness" (AppendsOperation 2 []);
    Def 4276 "party_set_helpfulness" (AppendsOperation 2 []);
    Def 4293 "get_party_ai_behavior" (AppendsOperation 2 []);
    Def 4310 "get_party_ai_object" (AppendsOperation 2 []);
    Def 4327 "party_get_ai_target_position" (AppendsOperation 2 []);
    Def 4344 "get_party_ai_current_behavior" (AppendsOperation 2 []);
    Def 4361 "get_party_ai_current_object" (AppendsOperation 2 []);
    Def 4378 "party_set_ignore_with_player_party" (AppendsOperation 2 []);
    Def 4395 "party_get_ignore_with_player_party" (AppendsOperation 1 []);
    Def 4411 "troop_has_item_equipped" (AppendsOperation 2 []);
    Def 4428 "troop_is_mounted" (AppendsOperation 1 []);
    Def 4444 "troop_is_guarantee_ranged" (AppendsOperation 1 []);
    Def 4460 "troop_is_guarantee_horse" (AppendsOperation 1 []);
    Def 4476 "troop_is_hero" (AppendsOperation 1 []);
    Def 4492 "troop_is_wounded" (AppendsOperation 1 []);
    Def 4508 "player_has_item" (AppendsOperation 1 []);
    Def 4524 "troop_set_slot" (AppendsOperation 3 []);
    Def 4542 "troop_get_slot" (AppendsOperation 3 []);
    Def 4560 "troop_slot_eq" (AppendsOperation 3 []);
    Def 4578 "troop_slot_ge" (AppendsOperation 3 []);
    Def 4596 "troop_set_type" (AppendsOperation 2 []);
    Def 4613 "troop_get_type" (AppendsOperation 2 []);
    Def 4630 "troop_set_class" (AppendsOperation 2 []);
    Def 4647 "troop_get_class" (AppendsOperation 2 []);
    Def 4664 "class_set_name" (AppendsOperation 2 []);
    Def 4681 "add_xp_to_troop" (AppendsOperation 2 []);
    Def 4698 "add_xp_as_reward" (AppendsOperation 1 []);
    Def 4714 "troop_get_xp" (AppendsOperation 2 []);
    Def 4731 "store_attribute_level" (AppendsOperation 3 []);
    Def 4749 "troop_raise_attribute" (AppendsOperation 3 []);
    Def 4767 "store_skill_level" (AppendsOperation 3 []);
    Def 4785 "troop_raise_skill" (AppendsOperation 3 []);
    Def 4803 "store_proficiency_level" (AppendsOperation 3 []);
    Def 4821 "troop_raise_proficiency" (AppendsOperation 3 []);
    Def 4839 "troop_raise_proficiency_linear" (AppendsOperation 3 []);
    Def 4857 "troop_add_proficiency_points" (AppendsOperation 2 []);
    Def 4874 "store_troop_health" (AppendsOperation 3 []);
    Def 4893 "troop_set_health" (AppendsOperation 2 []);
    Def 4910 "troop_get_upgrade_troop" (AppendsOperation 3 []);
    Def 4928 "store_character_level" (AppendsOperation 2 []);
    Def 4945 "get_level_boundary" (AppendsOperation 2 []);
    Def 4962 "add_gold_as_xp" (AppendsOperation 2 []);
    Def 4980 "troop_set_auto_equip" (AppendsOperation 2 []);
    Def 4997 "troop_ensure_inventory_space" (AppendsOperation 2 []);
    Def 5014 "troop_sort_inventory" (AppendsOperation 1 []);
    Def 5030 "troop_add_item" (AppendsOperation 3 []);
    Def 5048 "troop_remove_item" (AppendsOperation 2 []);
    Def 5065 "troop_clear_inventory" (AppendsOperation 1 []);
    Def 5081 "troop_equip_items" (AppendsOperation 1 []);
    Def 5097 "troop_inventory_slot_set_item_amount" (AppendsOperation 3 []) ].

Definition class_body_03 : list method_def :=
  [ Def 5115 "troop_inventory_slot_get_item_amount" (AppendsOperation 3 []);
    Def 5133 "troop_inventory_slot_get_item_max_amount" (AppendsOperation 3 []);
    Def 5151 "troop_add_items" (AppendsOperation 3 []);
    Def 5169 "troop_remove_items" (AppendsOperation 3 []);
    Def 5187 "troop_loot_troop" (AppendsOperation 3 []);
    Def 5205 "troop_get_inventory_capacity" (AppendsOperation 2 []);
    Def 5222 "troop_get_inventory_slot" (AppendsOperation 3 []);
    Def 5240 "troop_get_inventory_slot_modifier" (AppendsOperation 3 []);
    Def 5258 "troop_set_inventory_slot" (AppendsOperation 3 []);
    Def 5276 "troop_set_inventory_slot_modifier" (AppendsOperation 3 []);
    Def 5294 "store_item_kind_count" (AppendsOperation 3 []);
    Def 5312 "store_free_inventory_capacity" (AppendsOperation 2 []);
    Def 5329 "reset_price_rates" (AppendsBare 0);
    Def 5342 "set_price_rate_for_item" (AppendsOperation 2 []);
    Def 5359 "set_price_rate_for_item_type" (AppendsOperation 2 []);
    Def 5376 "set_merchandise_modifier_quality" (AppendsOperation 1 []);
    Def 5392 "set_merchandise_max_value" (AppendsOperation 1 []);
    Def 5408 "reset_item_probabilities" (AppendsOperation 1 []);
    Def 5424 "set_item_probability_in_merchandise" (AppendsOperation 2 []);
    Def 5441 "troop_add_merchandise" (AppendsOperation 3 []);
    Def 5459 "troop_add_merchandise_with_faction" (AppendsOperation 4 []);
    Def 5479 "troop_set_name" (AppendsOperation 2 []);
    Def 5496 "troop_set_plural_name" (AppendsOperation 2 []);
    Def 5513 "troop_set_face_key_from_current_profile" (AppendsOperation 1 []);
    Def 5529 "troop_add_gold" (AppendsOperation 2 []);
    Def 5546 "troop_remove_gold" (AppendsOperation 2 []);
    Def 5563 "store_troop_gold" (AppendsOperation 2 []);
    Def 5580 "troop_set_faction" (AppendsOperation 2 []);
    Def 5597 "store_troop_faction" (AppendsOperation 2 []);
    Def 5614 "store_faction_of_troop" (AppendsOperation 2 []);
    Def 5631 "troop_set_age" (AppendsOperation 2 []);
    Def 5648 "store_troop_value" (AppendsOperation 2 []);
    Def 5665 "str_store_player_face_keys" (AppendsOperation 2 []);
    Def 5682 "player_set_face_keys" (AppendsOperation 2 []);
    Def 5699 "str_store_troop_face_keys" (AppendsOperation 3 []);
    Def 5717 "troop_set_face_keys" (AppendsOperation 3 []);
    Def 5735 "face_keys_get_hair" (AppendsOperation 2 []);
    Def 5752 "face_keys_set_hair" (AppendsOperation 2 []);
    Def 5769 "face_keys_get_beard" (AppendsOperation 2 []);
    Def 5786 "face_keys_set_beard" (AppendsOperation 2 []);
    Def 5803 "face_keys_get_face_texture" (AppendsOperation 2 []);
    Def 5820 "face_keys_set_face_texture" (AppendsOperation 2 []);
    Def 5837 "face_keys_get_hair_texture" (AppendsOperation 2 []);
    Def 5854 "face_keys_set_hair_texture" (AppendsOperation 2 []);
    Def 5871 "face_keys_get_hair_color" (AppendsOperation 2 []);
    Def 5888 "face_keys_set_hair_color" (AppendsOperation 2 []);
    Def 5905 "face_keys_get_age" (AppendsOperation 2 []);
    Def 5922 "face_keys_set_age" (AppendsOperation 2 []);
    Def 5939 "face_keys_get_skin_color" (AppendsOperation 2 []);
    Def 5956 "face_keys_set_skin_color" (AppendsOperation 2 []);
    Def 5973 "face_keys_get_morph_key" (AppendsOperation 3 []);
    Def 5991 "face_keys_set_morph_key" (AppendsOperation 3 []);
    Def 6009 "check_quest_active" (AppendsOperation 1 []);
    Def 6025 "check_quest_finished" (AppendsOperation 1 []);
    Def 6041 "check_quest_succeeded" (AppendsOperation 1 []);
    Def 6057 "check_quest_failed" (AppendsOperation 1 []);
    Def 6073 "check_quest_concluded" (AppendsOperation 1 []);
    Def 6089 "quest_set_slot" (AppendsOperation 3 []);
    Def 6107 "quest_get_slot" (AppendsOperation 3 []);
    Def 6125 "quest_slot_eq" (AppendsOperation 3 []);
    Def 6143 "quest_slot_ge" (AppendsOperation 3 []);
    Def 6161 "start_quest" (AppendsOperation 2 []);
    Def 6178 "conclude_quest" (AppendsOperation 1 []);
    Def 6194 "succeed_quest" (AppendsOperation 1 []);
    Def 6211 "fail_quest" (AppendsOperation 1 []);
    Def 6228 "complete_quest" (AppendsOperation 1 []);
    Def 6244 "cancel_quest" (AppendsOperation 1 []);
    Def 6260 "setup_quest_text" (AppendsOperation 1 []);
    Def 6276 "store_partner_quest" (AppendsOperation 1 []);
    Def 6292 "setup_quest_giver" (AppendsOperation 2 []);
    Def 6309 "store_random_quest_in_range" (AppendsOperation 3 []);
    Def 6327 "set_quest_progression" (AppendsOperation 2 []);
    Def 6344 "store_random_troop_to_raise" (AppendsOperation 3 []);
    Def 6362 "store_random_troop_to_capture" (AppendsOperation 3 []);
    Def 6380 "store_quest_number" (AppendsOperation 2 []);
    Def 6397 "store_quest_item" (AppendsOperation 2 []);
    Def 6414 "store_quest_troop" (AppendsOperation 2 []);
    Def 6431 "item_has_property" (AppendsOperation 2 []);
    Def 6448 "item_has_capability" (AppendsOperation 2 []);
    Def 6465 "item_has_modifier" (AppendsOperation 2 []);
    Def 6482 "item_has_faction" (AppendsOperation 2 []);
    Def 6499 "item_set_slot" (AppendsOperation 3 []);
    Def 6517 "item_get_slot" (AppendsOperation 3 []);
    Def 6535 "item_slot_eq" (AppendsOperation 3 []);
    Def 6553 "item_slot_ge" (AppendsOperation 3 []);
    Def 6571 "item_get_type" (AppendsOperation 2 []);
    Def 6588 "store_item_value" (AppendsOperation 2 []);
    Def 6605 "store_random_horse" (AppendsOperation 1 []);
    Def 6621 "store_random_equipment" (AppendsOperation 1 []);
    Def 6637 "store_random_armor" (AppendsOperation 1 []);
    Def 6653 "cur_item_add_mesh" (AppendsOperation 3 []);
    Def 6671 "cur_item_set_material" (AppendsOperation 4 []);
    Def 6690 "item_get_weight" (AppendsOperation 2 []);
    Def 6707 "item_get_value" (AppendsOperation 2 []);
    Def 6724 "item_get_difficulty" (AppendsOperation 2 []);
    Def 6741 "item_get_head_armor" (AppendsOperation 2 []);
    Def 6758 "item_get_body_armor" (AppendsOperation 2 []);
    Def 6775 "item_get_leg_armor" (AppendsOperation 2 []);
    Def 6792 "item_get_hit_points" (AppendsOperation 2 []);
    Def 6809 "item_get_weapon_length" (AppendsOperation 2 []) ].

Definition class_body_04 : list method_def :=
  [ Def 6826 "item_get_speed_rating" (AppendsOperation 2 []);
    Def 6843 "item_get_missile_speed" (AppendsOperation 2 []);
    Def 6860 "item_get_max_ammo" (AppendsOperation 2 []);
    Def 6877 "item_get_accuracy" (AppendsOperation 2 []);
    Def 6894 "item_get_shield_height" (AppendsOperation 2 []);
    Def 6911 "item_get_horse_scale" (AppendsOperation 2 []);
    Def 6928 "item_get_horse_speed" (AppendsOperation 2 []);
    Def 6945 "item_get_horse_maneuver" (AppendsOperation 2 []);
    Def 6962 "item_get_food_quality" (AppendsOperation 2 []);
    Def 6979 "item_get_abundance" (AppendsOperation 2 []);
    Def 6996 "item_get_thrust_damage" (AppendsOperation 2 []);
    Def 7013 "item_get_thrust_damage_type" (AppendsOperation 2 []);
    Def 7030 "item_get_swing_damage" (AppendsOperation 2 []);
    Def 7047 "item_get_swing_damage_type" (AppendsOperation 2 []);
    Def 7064 "item_get_horse_charge_damage" (AppendsOperation 2 []);
    Def 7081 "play_sound_at_position" (AppendsOperation 3 []);
    Def 7099 "play_sound" (AppendsOperation 2 []);
    Def 7116 "play_track" (AppendsOperation 2 []);
    Def 7133 "play_cue_track" (AppendsOperation 1 []);
    Def 7149 "music_set_situation" (AppendsOperation 1 []);
    Def 7165 "music_set_culture" (AppendsOperation 1 []);
    Def 7181 "stop_all_sounds" (AppendsOperation 1 []);
    Def 7197 "store_last_sound_channel" (AppendsOperation 1 []);
    Def 7213 "stop_sound_channel" (AppendsOperation 1 []);
    Def 7229 "init_position" (AppendsOperation 1 []);
    Def 7245 "copy_position" (AppendsOperation 2 []);
    Def 7262 "position_copy_origin" (AppendsOperation 2 []);
    Def 7279 "position_copy_rotation" (AppendsOperation 2 []);
    Def 7296 "position_transform_position_to_parent" (AppendsOperation 3 []);
    Def 7314 "position_transform_position_to_local" (AppendsOperation 3 []);
    Def 7332 "position_get_x" (AppendsOperation 2 []);
    Def 7349 "position_get_y" (AppendsOperation 2 []);
    Def 7366 "position_get_z" (AppendsOperation 2 []);
    Def 7383 "position_set_x" (AppendsOperation 2 []);
    Def 7400 "position_set_y" (AppendsOperation 2 []);
    Def 7417 "position_set_z" (AppendsOperation 2 []);
    Def 7434 "position_move_x" (AppendsOperation 3 []);
    Def 7452 "position_move_y" (AppendsOperation 3 []);
    Def 7470 "position_move_z" (AppendsOperation 3 []);
    Def 7488 "position_set_z_to_ground_level" (AppendsOperation 1 []);
    Def 7504 "position_get_distance_to_terrain" (AppendsOperation 2 []);
    Def 7521 "position_get_distance_to_ground_level" (AppendsOperation 2 []);
    Def 7538 "position_get_rotation_around_x" (AppendsOperation 2 []);
    Def 7555 "position_get_rotation_around_y" (AppendsOperation 2 []);
    Def 7572 "position_get_rotation_around_z" (AppendsOperation 2 []);
    Def 7589 "position_rotate_x" (AppendsOperation 2 []);
    Def 7606 "position_rotate_y" (AppendsOperation 2 []);
    Def 7623 "position_rotate_z" (AppendsOperation 3 []);
    Def 7641 "position_rotate_x_floating" (AppendsOperation 2 []);
    Def 7658 "position_rotate_y_floating" (AppendsOperation 2 []);
    Def 7675 "position_rotate_z_floating" (AppendsOperation 2 []);
    Def 7692 "position_get_scale_x" (AppendsOperation 2 []);
    Def 7709 "position_get_scale_y" (AppendsOperation 2 []);
    Def 7726 "position_get_scale_z" (AppendsOperation 2 []);
    Def 7743 "position_set_scale_x" (AppendsOperation 2 []);
    Def 7760 "position_set_scale_y" (AppendsOperation 2 []);
    Def 7777 "position_set_scale_z" (AppendsOperation 2 []);
    Def 7794 "get_angle_between_positions" (AppendsOperation 3 []);
    Def 7812 "position_has_line_of_sight_to_position" (AppendsOperation 2 []);
    Def 7829 "get_distance_between_positions" (AppendsOperation 3 []);
    Def 7847 "get_distance_between_positions_in_meters" (AppendsOperation 3 []);
    Def 7865 "get_sq_distance_between_positions" (AppendsOperation 3 []);
    Def 7883 "get_sq_distance_between_positions_in_meters" (AppendsOperation 3 []);
    Def 7901 "position_is_behind_position" (AppendsOperation 2 []);
    Def 7918 "get_sq_distance_between_position_heights" (AppendsOperation 3 []);
    Def 7936 "position_normalize_origin" (AppendsOperation 2 []);
    Def 7953 "position_get_screen_projection" (AppendsOperation 2 []);
    Def 7970 "map_get_random_position_around_position" (AppendsOperation 3 []);
    Def 7988 "map_get_land_position_around_position" (AppendsOperation 3 []);
    Def 8006 "map_get_water_position_around_position" (AppendsOperation 3 []);
    Def 8024 "troop_set_note_available" (AppendsOperation 2 []);
    Def 8041 "add_troop_note_tableau_mesh" (AppendsOperation 2 []);
    Def 8058 "add_troop_note_from_dialog" (AppendsOperation 3 []);
    Def 8076 "add_troop_note_from_sreg" (AppendsOperation 4 []);
    Def 8095 "faction_set_note_available" (AppendsOperation 2 []);
    Def 8113 "add_faction_note_tableau_mesh" (AppendsOperation 2 []);
    Def 8130 "add_faction_note_from_dialog" (AppendsOperation 3 []);
    Def 8148 "add_faction_note_from_sreg" (AppendsOperation 4 []);
    Def 8167 "party_set_note_available" (AppendsOperation 2 []);
    Def 8185 "add_party_note_tableau_mesh" (AppendsOperation 2 []);
    Def 8202 "add_party_note_from_dialog" (AppendsOperation 3 []);
    Def 8220 "add_party_note_from_sreg" (AppendsOperation 4 []);
    Def 8239 "quest_set_note_available" (AppendsOperation 2 []);
    Def 8257 "add_quest_note_tableau_mesh" (AppendsOperation 2 []);
    Def 8274 "add_quest_note_from_dialog" (AppendsOperation 3 []);
    Def 8292 "add_quest_note_from_sreg" (AppendsOperation 4 []);
    Def 8311 "add_info_page_note_tableau_mesh" (AppendsOperation 2 []);
    Def 8328 "add_info_page_note_from_dialog" (AppendsOperation 3 []);
    Def 8346 "add_info_page_note_from_sreg" (AppendsOperation 4 []);
    Def 8365 "cur_item_set_tableau_material" (AppendsOperation 2 []);
    Def 8382 "cur_scene_prop_set_tableau_material" (AppendsOperation 2 []);
    Def 8399 "cur_map_icon_set_tableau_material" (AppendsOperation 2 []);
    Def 8416 "cur_agent_set_banner_tableau_material" (AppendsBare 0);
    Def 8429 "cur_tableau_add_tableau_mesh" (AppendsOperation 3 []);
    Def 8447 "cur_tableau_render_as_alpha_mask" (AppendsBare 0);
    Def 8460 "cur_tableau_set_background_color" (AppendsOperation 1 []);
    Def 8476 "cur_tableau_set_ambient_light" (AppendsOperation 3 []);
    Def 8494 "cur_tableau_set_camera_position" (AppendsOperation 1 []);
    Def 8510 "cur_tableau_set_camera_parameters" (AppendsOperation 5 []);
    Def 8530 "cur_tableau_add_point_light" (AppendsOperation 4 []) ].

Definition class_body_05 : list method_def :=
  [ Def 8549 "cur_tableau_add_sun_light" (AppendsOperation 4 []);
    Def 8568 "cur_tableau_add_mesh" (AppendsOperation 2 []);
    Def 8585 "cur_tableau_add_mesh_with_vertex_color" (AppendsOperation 2 []);
    Def 8602 "cur_tableau_add_mesh_with_scale_and_vertex_color" (AppendsOperation 5 []);
    Def 8622 "cur_tableau_add_map_icon" (AppendsOperation 3 []);
    Def 8640 "cur_tableau_add_troop" (AppendsOperation 4 []);
    Def 8659 "cur_tableau_add_horse" (AppendsOperation 3 []);
    Def 8677 "cur_tableau_set_override_flags" (AppendsOperation 1 []);
    Def 8693 "cur_tableau_clear_override_items" (AppendsBare 0);
    Def 8706 "cur_tableau_add_override_item" (AppendsOperation 1 []);
    Def 8722 "str_is_empty" (AppendsOperation 1 []);
    Def 8738 "str_clear" (AppendsBare 0);
    Def 8751 "str_store_string" (AppendsOperation 2 []);
    Def 8768 "str_store_string_reg" (AppendsOperation 2 []);
    Def 8785 "str_store_troop_name" (AppendsOperation 2 []);
    Def 8802 "str_store_troop_name_plural" (AppendsOperation 2 []);
    Def 8819 "str_store_troop_name_by_count" (AppendsOperation 3 []);
    Def 8837 "str_store_item_name" (AppendsOperation 2 []);
    Def 8854 "str_store_item_name_plural" (AppendsOperation 2 []);
    Def 8871 "str_store_item_name_by_count" (AppendsOperation 2 []);
    Def 8888 "str_store_party_name" (AppendsOperation 2 []);
    Def 8905 "str_store_agent_name" (AppendsOperation 2 []);
    Def 8922 "str_store_faction_name" (AppendsOperation 2 []);
    Def 8939 "str_store_quest_name" (AppendsOperation 2 []);
    Def 8956 "str_store_info_page_name" (AppendsOperation 2 []);
    Def 8973 "str_store_date" (AppendsOperation 2 []);
    Def 8990 "str_store_troop_name_link" (AppendsOperation 2 []);
    Def 9007 "str_store_party_name_link" (AppendsOperation 2 []);
    Def 9024 "str_store_faction_name_link" (AppendsOperation 2 []);
    Def 9041 "str_store_quest_name_link" (AppendsOperation 2 []);
    Def 9058 "str_store_info_page_name_link" (AppendsOperation 2 []);
    Def 9075 "str_store_class_name" (AppendsOperation 2 []);
    Def 9092 "game_key_get_mapped_key_name" (AppendsOperation 2 []);
    Def 9109 "str_store_player_username" (AppendsOperation 2 []);
    Def 9126 "str_store_server_password" (AppendsOperation 1 []);
    Def 9142 "str_store_server_name" (AppendsOperation 1 []);
    Def 9158 "str_store_welcome_message" (AppendsOperation 1 []);
    Def 9174 "str_encode_url" (AppendsOperation 1 []);
    Def 9190 "display_debug_message" (AppendsOperation 2 []);
    Def 9207 "display_log_message" (AppendsOperation 2 []);
    Def 9224 "display_message" (AppendsOperation 2 []);
    Def 9241 "set_show_messages" (AppendsOperation 1 []);
    Def 9257 "tutorial_box" (AppendsOperation 2 []);
    Def 9274 "dialog_box" (AppendsOperation 2 []);
    Def 9291 "question_box" (AppendsOperation 3 []);
    Def 9309 "tutorial_message" (AppendsOperation 3 []);
    Def 9327 "tutorial_message_set_position" (AppendsOperation 2 []);
    Def 9344 "tutorial_message_set_size" (AppendsOperation 2 []);
    Def 9361 "tutorial_message_set_center_justify" (AppendsOperation 1 []);
    Def 9377 "tutorial_message_set_background" (AppendsOperation 1 []);
    Def 9393 "entering_town" (AppendsOperation 1 []);
    Def 9409 "encountered_party_is_attacker" (AppendsBare 0);
    Def 9422 "conversation_screen_is_active" (AppendsBare 0);
    Def 9435 "in_meta_mission" (AppendsBare 0);
    Def 9448 "change_screen_return" (AppendsBare 0);
    Def 9461 "change_screen_loot" (AppendsOperation 1 []);
    Def 9477 "change_screen_trade" (AppendsOperation 1 []);
    Def 9493 "change_screen_exchange_members" (AppendsOperation 2 []);
    Def 9510 "change_screen_trade_prisoners" (AppendsBare 0);
    Def 9523 "change_screen_buy_mercenaries" (AppendsBare 0);
    Def 9536 "change_screen_view_character" (AppendsBare 0);
    Def 9549 "change_screen_training" (AppendsBare 0);
    Def 9562 "change_screen_mission" (AppendsBare 0);
    Def 9575 "change_screen_map_conversation" (AppendsOperation 1 []);
    Def 9591 "change_screen_exchange_with_party" (AppendsOperation 1 []);
    Def 9607 "change_screen_equip_other" (AppendsOperation 1 []);
    Def 9623 "change_screen_map" (AppendsBare 0);
    Def 9636 "change_screen_notes" (AppendsOperation 2 []);
    Def 9653 "change_screen_quit" (AppendsBare 0);
    Def 9666 "change_screen_give_members" (AppendsOperation 1 []);
    Def 9682 "change_screen_controls" (AppendsBare 0);
    Def 9695 "change_screen_options" (AppendsBare 0);
    Def 9708 "set_mercenary_source_party" (AppendsOperation 1 []);
    Def 9724 "start_map_conversation" (AppendsOperation 2 []);
    Def 9741 "set_background_mesh" (AppendsOperation 1 []);
    Def 9757 "set_game_menu_tableau_mesh" (AppendsOperation 3 []);
    Def 9775 "jump_to_menu" (AppendsOperation 1 []);
    Def 9791 "disable_menu_option" (AppendsBare 0);
    Def 9804 "set_party_battle_mode" (AppendsBare 0);
    Def 9817 "finish_party_battle_mode" (AppendsBare 0);
    Def 9830 "start_encounter" (AppendsOperation 1 []);
    Def 9846 "leave_encounter" (AppendsBare 0);
    Def 9859 "encounter_attack" (AppendsBare 0);
    Def 9872 "select_enemy" (AppendsOperation 1 []);
    Def 9888 "set_passage_menu" (AppendsOperation 1 []);
    Def 9904 "start_mission_conversation" (AppendsOperation 1 []);
    Def 9920 "set_conversation_speaker_troop" (AppendsOperation 1 []);
    Def 9936 "set_conversation_speaker_agent" (AppendsOperation 1 []);
    Def 9952 "store_conversation_agent" (AppendsOperation 1 []);
    Def 9968 "store_conversation_troop" (AppendsOperation 1 []);
    Def 9984 "store_partner_faction" (AppendsOperation 1 []);
    Def 10000 "store_encountered_party" (AppendsOperation 1 []);
    Def 10016 "store_encountered_party2" (AppendsOperation 1 []);
    Def 10032 "set_encountered_party" (AppendsOperation 1 []);
    Def 10048 "end_current_battle" (AppendsBare 0);
    Def 10061 "store_repeat_object" (AppendsOperation 1 []);
    Def 10077 "talk_info_show" (AppendsOperation 1 []);
    Def 10093 "talk_info_set_relation_bar" (AppendsOperation 1 []);
    Def 10109 "talk_info_set_line" (AppendsOperation 2 []);
    Def 10126 "all_enemies_defeated" (AppendsOperation 1 []) ].

Definition class_body_06 : list method_def :=
  [ Def 10142 "race_completed_by_player" (AppendsBare 0);
    Def 10155 "num_active_teams_le" (AppendsOperation 1 []);
    Def 10171 "main_hero_fallen" (AppendsBare 0);
    Def 10184 "scene_allows_mounted_units" (AppendsBare 0);
    Def 10197 "is_zoom_disabled" (AppendsBare 0);
    Def 10210 "scene_set_slot" (AppendsOperation 3 []);
    Def 10228 "scene_get_slot" (AppendsOperation 3 []);
    Def 10246 "scene_slot_eq" (AppendsOperation 3 []);
    Def 10264 "scene_slot_ge" (AppendsOperation 3 []);
    Def 10282 "add_troop_to_site" (AppendsOperation 3 []);
    Def 10300 "remove_troop_from_site" (AppendsOperation 2 []);
    Def 10317 "modify_visitors_at_site" (AppendsOperation 1 []);
    Def 10333 "reset_visitors" (AppendsBare 0);
    Def 10346 "set_visitor" (AppendsOperation 3 []);
    Def 10364 "set_visitors" (AppendsOperation 3 []);
    Def 10382 "add_visitors_to_current_scene" (AppendsOperation 5 []);
    Def 10402 "mission_tpl_entry_set_override_flags" (AppendsOperation 3 []);
    Def 10420 "mission_tpl_entry_clear_override_items" (AppendsOperation 2 []);
    Def 10437 "mission_tpl_entry_add_override_item" (AppendsOperation 3 []);
    Def 10455 "set_mission_result" (AppendsOperation 1 []);
    Def 10471 "finish_mission" (AppendsOperation 1 []);
    Def 10487 "set_jump_mission" (AppendsOperation 1 []);
    Def 10503 "jump_to_scene" (AppendsOperation 2 []);
    Def 10520 "set_jump_entry" (AppendsOperation 1 []);
    Def 10536 "store_current_scene" (AppendsOperation 1 []);
    Def 10552 "close_order_menu" (AppendsBare 0);
    Def 10565 "entry_point_get_position" (AppendsOperation 2 []);
    Def 10582 "entry_point_set_position" (AppendsOperation 2 []);
    Def 10599 "entry_point_is_auto_generated" (AppendsOperation 1 []);
    Def 10615 "scene_set_day_time" (AppendsOperation 1 []);
    Def 10631 "set_rain" (AppendsOperation 2 []);
    Def 10648 "set_fog_distance" (AppendsOperation 2 []);
    Def 10665 "set_skybox" (AppendsOperation 2 []);
    Def 10682 "set_startup_sun_light" (AppendsOperation 3 []);
    Def 10700 "set_startup_ambient_light" (AppendsOperation 3 []);
    Def 10718 "set_startup_ground_ambient_light" (AppendsOperation 3 []);
    Def 10736 "get_startup_sun_light" (AppendsOperation 1 []);
    Def 10752 "get_startup_ambient_light" (AppendsOperation 1 []);
    Def 10768 "get_startup_ground_ambient_light" (AppendsOperation 1 []);
    Def 10784 "get_battle_advantage" (AppendsOperation 1 []);
    Def 10800 "set_battle_advantage" (AppendsOperation 1 []);
    Def 10816 "get_scene_boundaries" (AppendsOperation 2 []);
    Def 10833 "mission_enable_talk" (AppendsBare 0);
    Def 10846 "mission_disable_talk" (AppendsBare 0);
    Def 10859 "mission_get_time_speed" (AppendsOperation 1 []);
    Def 10875 "mission_set_time_speed" (AppendsOperation 1 []);
    Def 10891 "mission_time_speed_move_to_value" (AppendsOperation 2 []);
    Def 10908 "mission_set_duel_mode" (AppendsOperation 1 []);
    Def 10924 "store_zoom_amount" (AppendsOperation 1 []);
    Def 10940 "set_zoom_amount" (AppendsOperation 1 []);
    Def 10956 "reset_mission_timer_a" (AppendsBare 0);
    Def 10969 "reset_mission_timer_b" (AppendsBare 0);
    Def 10982 "reset_mission_timer_c" (AppendsBare 0);
    Def 10995 "store_mission_timer_a" (AppendsOperation 1 []);
    Def 11011 "store_mission_timer_b" (AppendsOperation 1 []);
    Def 11027 "store_mission_timer_c" (AppendsOperation 1 []);
    Def 11043 "store_mission_timer_a_msec" (AppendsOperation 1 []);
    Def 11059 "store_mission_timer_b_msec" (AppendsOperation 1 []);
    Def 11075 "store_mission_timer_c_msec" (AppendsOperation 1 []);
    Def 11091 "mission_cam_set_mode" (AppendsOperation 3 []);
    Def 11109 "mission_cam_set_screen_color" (AppendsOperation 1 []);
    Def 11125 "mission_cam_animate_to_screen_color" (AppendsOperation 2 []);
    Def 11142 "mission_cam_get_position" (AppendsBare 0);
    Def 11155 "mission_cam_set_position" (AppendsBare 0);
    Def 11168 "mission_cam_animate_to_position" (AppendsOperation 3 []);
    Def 11186 "mission_cam_get_aperture" (AppendsBare 0);
    Def 11199 "mission_cam_set_aperture" (AppendsBare 0);
    Def 11212 "mission_cam_animate_to_aperture" (AppendsOperation 2 []);
    Def 11229 "mission_cam_animate_to_position_and_aperture" (AppendsOperation 2 []);
    Def 11246 "mission_cam_set_target_agent" (AppendsOperation 2 []);
    Def 11263 "mission_cam_clear_target_agent" (AppendsBare 0);
    Def 11276 "mission_cam_set_animation" (AppendsOperation 1 []);
    Def 11292 "mouse_get_world_projection" (AppendsOperation 2 []);
    Def 11309 "cast_ray" (AppendsOperation 4 []);
    Def 11328 "set_postfx" (AppendsBare 0);
    Def 11341 "set_river_shader_to_mud" (AppendsBare 0);
    Def 11354 "rebuild_shadow_map" (AppendsBare 0);
    Def 11367 "set_shader_param_int" (AppendsOperation 2 []);
    Def 11385 "set_shader_param_float" (AppendsOperation 2 []);
    Def 11402 "set_shader_param_float4" (AppendsOperation 5 []);
    Def 11422 "set_shader_param_float4x4" (FlattensValues);
    Def 11442 "prop_instance_is_valid" (AppendsOperation 1 []);
    Def 11458 "prop_instance_is_animating" (AppendsOperation 2 []);
    Def 11475 "prop_instance_intersects_with_prop_instance" (AppendsOperation 2 []);
    Def 11492 "scene_prop_has_agent_on_it" (AppendsOperation 2 []);
    Def 11509 "scene_prop_set_slot" (AppendsOperation 3 []);
    Def 11527 "scene_prop_get_slot" (AppendsOperation 3 []);
    Def 11545 "scene_prop_slot_eq" (AppendsOperation 3 []);
    Def 11563 "scene_prop_slot_ge" (AppendsOperation 3 []);
    Def 11581 "prop_instance_get_scene_prop_kind" (AppendsOperation 2 []);
    Def 11598 "scene_prop_get_num_instances" (AppendsOperation 2 []);
    Def 11615 "scene_prop_get_instance" (AppendsOperation 3 []);
    Def 11633 "scene_prop_enable_after_time" (AppendsOperation 2 []);
    Def 11650 "set_spawn_position" (AppendsOperation 1 []);
    Def 11666 "spawn_scene_prop" (AppendsOperation 1 []);
    Def 11682 "prop_instance_get_variation_id" (AppendsOperation 2 []);
    Def 11699 "prop_instance_get_variation_id_2" (AppendsOperation 2 []);
    Def 11716 "replace_prop_instance" (AppendsOperation 2 []);
    Def 11733 "replace_scene_props" (AppendsOperation 2 []);
    Def 11750 "scene_prop_fade_out" (AppendsOperation 2 []) ].

Definition class_body_07 : list method_def :=
  [ Def 11767 "scene_prop_fade_in" (AppendsOperation 2 []);
    Def 11784 "prop_instance_set_material" (AppendsOperation 3 []);
    Def 11802 "scene_prop_get_visibility" (AppendsOperation 2 []);
    Def 11819 "scene_prop_set_visibility" (AppendsOperation 2 []);
    Def 11836 "scene_prop_get_hit_points" (AppendsOperation 2 []);
    Def 11853 "scene_prop_get_max_hit_points" (AppendsOperation 2 []);
    Def 11870 "scene_prop_set_hit_points" (AppendsOperation 2 []);
    Def 11887 "scene_prop_set_cur_hit_points" (AppendsOperation 2 []);
    Def 11904 "prop_instance_receive_damage" (AppendsOperation 3 []);
    Def 11922 "prop_instance_refill_hit_points" (AppendsOperation 1 []);
    Def 11938 "scene_prop_get_team" (AppendsOperation 2 []);
    Def 11955 "scene_prop_set_team" (AppendsOperation 2 []);
    Def 11972 "scene_prop_set_prune_time" (AppendsOperation 2 []);
    Def 11989 "prop_instance_get_position" (AppendsOperation 2 []);
    Def 12006 "prop_instance_get_starting_position" (AppendsOperation 2 []);
    Def 12023 "prop_instance_set_position" (AppendsOperation 3 []);
    Def 12041 "prop_instance_animate_to_position" (AppendsOperation 3 []);
    Def 12059 "prop_instance_get_animation_target_position" (AppendsOperation 2 []);
    Def 12076 "prop_instance_stop_animating" (AppendsOperation 1 []);
    Def 12092 "prop_instance_get_scale" (AppendsOperation 2 []);
    Def 12109 "prop_instance_set_scale" (AppendsOperation 4 []);
    Def 12128 "prop_instance_enable_physics" (AppendsOperation 2 []);
    Def 12145 "prop_instance_initialize_rotation_angles" (AppendsOperation 1 []);
    Def 12161 "prop_instance_rotate_to_position" (AppendsOperation 4 []);
    Def 12180 "prop_instance_clear_attached_missiles" (AppendsOperation 1 []);
    Def 12196 "prop_instance_dynamics_set_properties" (AppendsOperation 2 []);
    Def 12213 "prop_instance_dynamics_set_velocity" (AppendsOperation 2 []);
    Def 12230 "prop_instance_dynamics_set_omega" (AppendsOperation 2 []);
    Def 12247 "prop_instance_dynamics_apply_impulse" (AppendsOperation 2 []);
    Def 12264 "prop_instance_deform_to_time" (AppendsOperation 2 []);
    Def 12281 "prop_instance_deform_in_range" (AppendsOperation 4 []);
    Def 12300 "prop_instance_deform_in_cycle_loop" (AppendsOperation 4 []);
    Def 12319 "prop_instance_get_current_deform_progress" (AppendsOperation 2 []);
    Def 12336 "prop_instance_get_current_deform_frame" (AppendsOperation 2 []);
    Def 12353 "prop_instance_play_sound" (AppendsOperation 3 []);
    Def 12371 "prop_instance_stop_sound" (AppendsOperation 1 []);
    Def 12387 "scene_item_get_num_instances" (AppendsOperation 2 []);
    Def 12404 "scene_item_get_instance" (AppendsOperation 3 []);
    Def 12422 "scene_spawned_item_get_num_instances" (AppendsOperation 2 []);
    Def 12439 "scene_spawned_item_get_instance" (AppendsOperation 3 []);
    Def 12457 "replace_scene_items_with_scene_props" (AppendsOperation 2 []);
    Def 12474 "set_spawn_position" (AppendsOperation 1 []);
    Def 12491 "spawn_item" (AppendsOperation 3 []);
    Def 12509 "spawn_item_without_refill" (AppendsOperation 3 []);
    Def 12527 "set_current_color" (AppendsOperation 3 []);
    Def 12545 "set_position_delta" (AppendsOperation 3 []);
    Def 12563 "add_point_light" (AppendsOperation 2 []);
    Def 12580 "add_point_light_to_entity" (AppendsOperation 2 []);
    Def 12597 "particle_system_add_new" (AppendsOperation 2 []);
    Def 12614 "particle_system_emit" (AppendsOperation 3 []);
    Def 12632 "particle_system_burst" (AppendsOperation 3 []);
    Def 12650 "particle_system_burst_no_sync" (AppendsOperation 3 []);
    Def 12668 "prop_instance_add_particle_system" (AppendsOperation 3 []);
    Def 12686 "prop_instance_stop_all_particle_systems" (AppendsOperation 1 []);
    Def 12702 "agent_is_in_special_mode" (AppendsOperation 1 []);
    Def 12718 "agent_is_routed" (AppendsOperation 1 []);
    Def 12734 "agent_is_alive" (AppendsOperation 1 []);
    Def 12750 "agent_is_wounded" (AppendsOperation 1 []);
    Def 12766 "agent_is_human" (AppendsOperation 1 []);
    Def 12782 "agent_is_ally" (AppendsOperation 1 []);
    Def 12798 "agent_is_non_player" (AppendsOperation 1 []);
    Def 12814 "agent_is_defender" (AppendsOperation 1 []);
    Def 12830 "agent_is_active" (AppendsOperation 1 []);
    Def 12846 "agent_has_item_equipped" (AppendsOperation 2 []);
    Def 12863 "agent_is_in_parried_animation" (AppendsOperation 1 []);
    Def 12879 "agent_is_alarmed" (AppendsOperation 1 []);
    Def 12895 "class_is_listening_order" (AppendsOperation 2 []);
    Def 12912 "teams_are_enemies" (AppendsOperation 2 []);
    Def 12929 "agent_is_in_line_of_sight" (AppendsOperation 2 []);
    Def 12946 "team_set_slot" (AppendsOperation 3 []);
    Def 12964 "team_get_slot" (AppendsOperation 3 []);
    Def 12982 "team_slot_eq" (AppendsOperation 3 []);
    Def 13000 "team_slot_ge" (AppendsOperation 3 []);
    Def 13018 "agent_set_slot" (AppendsOperation 3 []);
    Def 13036 "agent_get_slot" (AppendsOperation 3 []);
    Def 13054 "agent_slot_eq" (AppendsOperation 3 []);
    Def 13072 "agent_slot_ge" (AppendsOperation 3 []);
    Def 13090 "add_reinforcements_to_entry" (AppendsOperation 2 []);
    Def 13107 "set_spawn_position" (AppendsBare 0);
    Def 13121 "spawn_agent" (AppendsOperation 1 []);
    Def 13137 "spawn_horse" (AppendsOperation 2 []);
    Def 13154 "remove_agent" (AppendsOperation 1 []);
    Def 13170 "agent_fade_out" (AppendsOperation 1 []);
    Def 13186 "agent_play_sound" (AppendsOperation 2 []);
    Def 13203 "agent_stop_sound" (AppendsOperation 1 []);
    Def 13219 "agent_set_visibility" (AppendsOperation 2 []);
    Def 13236 "get_player_agent_no" (AppendsOperation 1 []);
    Def 13252 "agent_get_kill_count" (AppendsOperation 3 []);
    Def 13270 "agent_get_position" (AppendsOperation 2 []);
    Def 13287 "agent_set_position" (AppendsOperation 2 []);
    Def 13304 "agent_get_horse" (AppendsOperation 2 []);
    Def 13321 "agent_get_rider" (AppendsOperation 2 []);
    Def 13338 "agent_get_party_id" (AppendsOperation 2 []);
    Def 13355 "agent_get_entry_no" (AppendsOperation 2 []);
    Def 13372 "agent_get_troop_id" (AppendsOperation 2 []);
    Def 13389 "agent_get_item_id" (AppendsOperation 2 []);
    Def 13406 "store_agent_hit_points" (AppendsOperation 3 []);
    Def 13424 "agent_set_hit_points" (AppendsOperation 3 []);
    Def 13442 "agent_set_max_hit_points" (AppendsOperation 3 []);
    Def 13460 "agent_deliver_damage_to_agent" (AppendsOperation 4 []) ].

Definition class_body_08 : list method_def :=
  [ Def 13479 "agent_deliver_damage_to_agent_advanced" (AppendsOperation 5 []);
    Def 13499 "add_missile" (AppendsOperation 7 []);
    Def 13521 "agent_get_speed" (AppendsOperation 2 []);
    Def 13538 "agent_set_no_death_knock_down_only" (AppendsOperation 2 []);
    Def 13555 "agent_set_horse_speed_factor" (AppendsOperation 2 []);
    Def 13572 "agent_set_speed_limit" (AppendsOperation 2 []);
    Def 13589 "agent_set_damage_modifier" (AppendsOperation 2 []);
    Def 13606 "agent_set_accuracy_modifier" (AppendsOperation 2 []);
    Def 13623 "agent_set_speed_modifier" (AppendsOperation 2 []);
    Def 13640 "agent_set_reload_speed_modifier" (AppendsOperation 2 []);
    Def 13657 "agent_set_use_speed_modifier" (AppendsOperation 2 []);
    Def 13674 "agent_set_ranged_damage_modifier" (AppendsOperation 2 []);
    Def 13691 "agent_get_time_elapsed_since_removed" (AppendsOperation 2 []);
    Def 13708 "agent_refill_wielded_shield_hit_points" (AppendsOperation 1 []);
    Def 13724 "agent_set_invulnerable_shield" (AppendsOperation 2 []);
    Def 13741 "agent_get_wielded_item" (AppendsOperation 3 []);
    Def 13759 "agent_get_ammo" (AppendsOperation 3 []);
    Def 13777 "agent_get_item_cur_ammo" (AppendsOperation 3 []);
    Def 13795 "agent_refill_ammo" (AppendsOperation 1 []);
    Def 13811 "agent_set_wielded_item" (AppendsOperation 2 []);
    Def 13828 "agent_equip_item" (AppendsOperation 3 []);
    Def 13846 "agent_unequip_item" (AppendsOperation 3 []);
    Def 13864 "agent_set_ammo" (AppendsOperation 3 []);
    Def 13882 "agent_get_item_slot" (AppendsOperation 3 []);
    Def 13900 "agent_get_ammo_for_slot" (AppendsOperation 3 []);
    Def 13918 "agent_set_no_dynamics" (AppendsOperation 2 []);
    Def 13935 "agent_get_animation" (AppendsOperation 3 []);
    Def 13953 "agent_set_animation" (AppendsOperation 3 []);
    Def 13971 "agent_set_stand_animation" (AppendsOperation 2 []);
    Def 13988 "agent_set_walk_forward_animation" (AppendsOperation 2 []);
    Def 14005 "agent_set_animation_progress" (AppendsOperation 2 []);
    Def 14022 "agent_ai_set_can_crouch" (AppendsOperation 2 []);
    Def 14039 "agent_get_crouch_mode" (AppendsOperation 2 []);
    Def 14056 "agent_set_crouch_mode" (AppendsOperation 2 []);
    Def 14073 "agent_get_attached_scene_prop" (AppendsOperation 2 []);
    Def 14090 "agent_set_attached_scene_prop" (AppendsOperation 2 []);
    Def 14107 "agent_set_attached_scene_prop_x" (AppendsOperation 2 []);
    Def 14124 "agent_set_attached_scene_prop_y" (AppendsOperation 2 []);
    Def 14141 "agent_set_attached_scene_prop_z" (AppendsOperation 2 []);
    Def 14158 "agent_get_bone_position" (AppendsOperation 4 []);
    Def 14177 "agent_ai_set_interact_with_player" (AppendsOperation 2 []);
    Def 14194 "agent_set_is_alarmed" (AppendsOperation 2 []);
    Def 14211 "agent_clear_relations_with_agents" (AppendsOperation 1 []);
    Def 14227 "agent_add_relation_with_agent" (AppendsOperation 2 []);
    Def 14244 "agent_get_number_of_enemies_following" (AppendsOperation 2 []);
    Def 14261 "agent_ai_get_num_cached_enemies" (AppendsOperation 2 []);
    Def 14278 "agent_ai_get_cached_enemy" (AppendsOperation 3 []);
    Def 14296 "agent_get_attack_action" (AppendsOperation 2 []);
    Def 14313 "agent_get_defend_action" (AppendsOperation 2 []);
    Def 14330 "agent_get_action_dir" (AppendsOperation 2 []);
    Def 14347 "agent_set_attack_action" (AppendsOperation 3 []);
    Def 14365 "agent_set_defend_action" (AppendsOperation 3 []);
    Def 14383 "agent_set_scripted_destination" (AppendsOperation 4 []);
    Def 14402 "agent_set_scripted_destination_no_attack" (AppendsOperation 3 []);
    Def 14420 "agent_get_scripted_destination" (AppendsOperation 2 []);
    Def 14437 "agent_force_rethink" (AppendsOperation 1 []);
    Def 14453 "agent_clear_scripted_mode" (AppendsOperation 1 []);
    Def 14469 "agent_ai_set_always_attack_in_melee" (AppendsOperation 2 []);
    Def 14486 "agent_get_simple_behavior" (AppendsOperation 2 []);
    Def 14503 "agent_ai_get_behavior_target" (AppendsOperation 2 []);
    Def 14520 "agent_get_combat_state" (AppendsOperation 2 []);
    Def 14537 "agent_ai_get_move_target" (AppendsOperation 2 []);
    Def 14554 "agent_get_look_position" (AppendsOperation 2 []);
    Def 14571 "agent_set_look_target_position" (AppendsOperation 2 []);
    Def 14588 "agent_ai_get_look_target" (AppendsOperation 2 []);
    Def 14605 "agent_set_look_target_agent" (AppendsOperation 2 []);
    Def 14622 "agent_start_running_away" (AppendsOperation 2 []);
    Def 14639 "agent_stop_running_away" (AppendsOperation 1 []);
    Def 14655 "agent_ai_set_aggressiveness" (AppendsOperation 2 []);
    Def 14672 "agent_set_kick_allowed" (AppendsOperation 2 []);
    Def 14689 "set_cheer_at_no_enemy" (AppendsOperation 1 []);
    Def 14705 "agent_add_offer_with_timeout" (AppendsOperation 3 []);
    Def 14723 "agent_check_offer_from_agent" (AppendsOperation 2 []);
    Def 14741 "agent_get_group" (AppendsOperation 2 []);
    Def 14758 "agent_set_group" (AppendsOperation 2 []);
    Def 14775 "agent_get_team" (AppendsOperation 2 []);
    Def 14792 "agent_set_team" (AppendsOperation 2 []);
    Def 14809 "agent_get_class" (AppendsOperation 2 []);
    Def 14826 "agent_get_division" (AppendsOperation 2 []);
    Def 14843 "agent_set_division" (AppendsOperation 2 []);
    Def 14860 "team_get_hold_fire_order" (AppendsOperation 3 []);
    Def 14878 "team_get_movement_order" (AppendsOperation 3 []);
    Def 14896 "team_get_riding_order" (AppendsOperation 3 []);
    Def 14914 "team_get_weapon_usage_order" (AppendsOperation 3 []);
    Def 14932 "team_give_order" (AppendsOperation 3 []);
    Def 14950 "team_set_order_position" (AppendsOperation 3 []);
    Def 14968 "team_get_leader" (AppendsOperation 2 []);
    Def 14985 "team_set_leader" (AppendsOperation 2 []);
    Def 15002 "team_get_order_position" (AppendsOperation 3 []);
    Def 15020 "team_set_order_listener" (AppendsOperation 3 []);
    Def 15038 "team_set_relation" (AppendsOperation 3 []);
    Def 15056 "store_remaining_team_no" (AppendsOperation 1 []);
    Def 15072 "team_get_gap_distance" (AppendsOperation 3 []);
    Def 15090 "store_enemy_count" (AppendsOperation 1 []);
    Def 15106 "store_friend_count" (AppendsOperation 1 []);
    Def 15122 "store_ally_count" (AppendsOperation 1 []);
    Def 15138 "store_defender_count" (AppendsOperation 1 []);
    Def 15154 "store_attacker_count" (AppendsOperation 1 []);
    Def 15170 "store_normalized_team_count" (AppendsOperation 2 []);
    Def 15187 "is_presentation_active" (AppendsOperation 1 []) ].

Definition class_body_09 : list method_def :=
  [ Def 15203 "start_presentation" (AppendsOperation 1 []);
    Def 15219 "start_background_presentation" (AppendsOperation 1 []);
    Def 15235 "presentation_set_duration" (AppendsOperation 1 []);
    Def 15251 "create_text_overlay" (AppendsOperation 2 []);
    Def 15268 "create_mesh_overlay" (AppendsOperation 2 []);
    Def 15285 "create_mesh_overlay_with_item_id" (AppendsOperation 2 []);
    Def 15302 "create_mesh_overlay_with_tableau_material" (AppendsOperation 4 []);
    Def 15321 "create_button_overlay" (AppendsOperation 2 []);
    Def 15338 "create_game_button_overlay" (AppendsOperation 2 []);
    Def 15355 "create_in_game_button_overlay" (AppendsOperation 2 []);
    Def 15372 "create_image_button_overlay" (AppendsOperation 2 []);
    Def 15389 "create_image_button_overlay_with_tableau_material" (AppendsOperation 4 []);
    Def 15408 "create_slider_overlay" (AppendsOperation 3 []);
    Def 15426 "create_progress_overlay" (AppendsOperation 3 []);
    Def 15444 "create_number_box_overlay" (AppendsOperation 3 []);
    Def 15462 "create_text_box_overlay" (AppendsOperation 1 []);
    Def 15478 "create_simple_text_box_overlay" (AppendsOperation 1 []);
    Def 15494 "create_check_box_overlay" (AppendsOperation 3 []);
    Def 15512 "create_listbox_overlay" (AppendsOperation 3 []);
    Def 15530 "create_combo_label_overlay" (AppendsOperation 1 []);
    Def 15546 "create_combo_button_overlay" (AppendsOperation 1 []);
    Def 15562 "overlay_add_item" (AppendsOperation 2 []);
    Def 15579 "set_container_overlay" (AppendsOperation 1 []);
    Def 15595 "overlay_set_container_overlay" (AppendsOperation 2 []);
    Def 15612 "overlay_get_position" (AppendsOperation 2 []);
    Def 15629 "overlay_set_val" (AppendsOperation 2 []);
    Def 15646 "overlay_set_text" (AppendsOperation 2 []);
    Def 15663 "overlay_set_boundaries" (AppendsOperation 3 []);
    Def 15681 "overlay_set_position" (AppendsOperation 2 []);
    Def 15698 "overlay_set_size" (AppendsOperation 2 []);
    Def 15715 "overlay_set_area_size" (AppendsOperation 2 []);
    Def 15732 "overlay_set_additional_render_height" (AppendsOperation 2 []);
    Def 15749 "overlay_animate_to_position" (AppendsOperation 3 []);
    Def 15767 "overlay_animate_to_size" (AppendsOperation 3 []);
    Def 15785 "overlay_set_mesh_rotation" (AppendsOperation 2 []);
    Def 15802 "overlay_set_material" (AppendsOperation 2 []);
    Def 15819 "overlay_set_color" (AppendsOperation 2 []);
    Def 15836 "overlay_set_alpha" (AppendsOperation 2 []);
    Def 15853 "overlay_set_hilight_color" (AppendsOperation 2 []);
    Def 15870 "overlay_set_hilight_alpha" (AppendsOperation 2 []);
    Def 15887 "overlay_animate_to_color" (AppendsOperation 3 []);
    Def 15905 "overlay_animate_to_alpha" (AppendsOperation 3 []);
    Def 15923 "overlay_animate_to_highlight_color" (AppendsOperation 3 []);
    Def 15941 "overlay_animate_to_highlight_alpha" (AppendsOperation 3 []);
    Def 15959 "overlay_set_display" (AppendsOperation 2 []);
    Def 15976 "overlay_obtain_focus" (AppendsOperation 1 []);
    Def 15992 "overlay_set_tooltip" (AppendsOperation 2 []);
    Def 16009 "show_item_details" (AppendsOperation 3 []);
    Def 16027 "show_item_details_with_modifier" (AppendsOperation 4 []);
    Def 16046 "close_item_details" (AppendsBare 0);
    Def 16059 "show_troop_details" (AppendsOperation 3 []);
    Def 16077 "player_is_active" (AppendsOperation 1 []);
    Def 16093 "multiplayer_is_server" (AppendsBare 0);
    Def 16106 "multiplayer_is_dedicated_server" (AppendsBare 0);
    Def 16119 "game_in_multiplayer_mode" (AppendsBare 0);
    Def 16132 "player_is_admin" (AppendsOperation 1 []);
    Def 16148 "player_is_busy_with_menus" (AppendsOperation 1 []);
    Def 16164 "player_item_slot_is_picked_up" (AppendsOperation 2 []);
    Def 16181 "player_set_slot" (AppendsOperation 3 []);
    Def 16199 "player_get_slot" (AppendsOperation 3 []);
    Def 16217 "player_slot_eq" (AppendsOperation 3 []);
    Def 16235 "player_slot_ge" (AppendsOperation 3 []);
    Def 16253 "send_message_to_url" (AppendsOperation 2 []);
    Def 16270 "multiplayer_send_message_to_server" (AppendsOperation 1 []);
    Def 16286 "multiplayer_send_int_to_server" (AppendsOperation 2 []);
    Def 16303 "multiplayer_send_2_int_to_server" (AppendsOperation 2 []);
    Def 16320 "multiplayer_send_3_int_to_server" (AppendsOperation 3 []);
    Def 16338 "multiplayer_send_4_int_to_server" (AppendsOperation 4 []);
    Def 16357 "multiplayer_send_string_to_server" (AppendsOperation 2 []);
    Def 16374 "multiplayer_send_message_to_player" (AppendsOperation 2 []);
    Def 16391 "multiplayer_send_int_to_player" (AppendsOperation 3 []);
    Def 16409 "multiplayer_send_2_int_to_player" (AppendsOperation 2 []);
    Def 16426 "multiplayer_send_3_int_to_player" (AppendsOperation 3 []);
    Def 16444 "multiplayer_send_4_int_to_player" (AppendsOperation 4 []);
    Def 16463 "multiplayer_send_string_to_player" (AppendsOperation 3 []);
    Def 16481 "get_max_players" (AppendsOperation 1 []);
    Def 16497 "player_get_team_no" (AppendsOperation 2 []);
    Def 16514 "player_set_team_no" (AppendsOperation 2 []);
    Def 16531 "player_get_troop_id" (AppendsOperation 2 []);
    Def 16548 "player_set_troop_id" (AppendsOperation 2 []);
    Def 16565 "player_get_agent_id" (AppendsOperation 2 []);
    Def 16582 "agent_get_player_id" (AppendsOperation 2 []);
    Def 16599 "player_get_gold" (AppendsOperation 2 []);
    Def 16616 "player_set_gold" (AppendsOperation 3 []);
    Def 16634 "player_spawn_new_agent" (AppendsOperation 2 []);
    Def 16651 "player_add_spawn_item" (AppendsOperation 3 []);
    Def 16669 "multiplayer_get_my_team" (AppendsOperation 1 []);
    Def 16685 "multiplayer_get_my_troop" (AppendsOperation 1 []);
    Def 16701 "multiplayer_set_my_troop" (AppendsOperation 1 []);
    Def 16717 "multiplayer_get_my_gold" (AppendsOperation 1 []);
    Def 16733 "multiplayer_get_my_player" (AppendsOperation 1 []);
    Def 16749 "multiplayer_make_everyone_enemy" (AppendsBare 0);
    Def 16762 "player_control_agent" (AppendsOperation 2 []);
    Def 16779 "player_get_item_id" (AppendsOperation 3 []);
    Def 16797 "player_get_banner_id" (AppendsOperation 2 []);
    Def 16814 "player_set_is_admin" (AppendsOperation 2 []);
    Def 16831 "player_get_score" (AppendsOperation 2 []);
    Def 16848 "player_set_score" (AppendsOperation 2 []);
    Def 16865 "player_get_kill_count" (AppendsOperation 2 []);
    Def 16882 "player_set_kill_count" (AppendsOperation 2 []) ].

Definition class_body_10 : list method_def :=
  [ Def 16899 "player_get_death_count" (AppendsOperation 2 []);
    Def 16916 "player_set_death_count" (AppendsOperation 2 []);
    Def 16933 "player_get_ping" (AppendsOperation 2 []);
    Def 16950 "player_get_is_muted" (AppendsOperation 2 []);
    Def 16967 "player_set_is_muted" (AppendsOperation 3 []);
    Def 16986 "player_get_unique_id" (AppendsOperation 2 []);
    Def 17004 "player_get_gender" (AppendsOperation 2 []);
    Def 17021 "player_save_picked_up_items_for_next_spawn" (AppendsOperation 1 []);
    Def 17037 "player_get_value_of_original_items" (AppendsOperation 1 []);
    Def 17053 "profile_get_banner_id" (AppendsOperation 1 []);
    Def 17069 "profile_set_banner_id" (AppendsOperation 1 []);
    Def 17085 "team_get_bot_kill_count" (AppendsOperation 2 []);
    Def 17102 "team_set_bot_kill_count" (AppendsOperation 2 []);
    Def 17119 "team_get_bot_death_count" (AppendsOperation 2 []);
    Def 17136 "team_set_bot_death_count" (AppendsOperation 2 []);
    Def 17153 "team_get_kill_count" (AppendsOperation 2 []);
    Def 17170 "team_get_score" (AppendsOperation 2 []);
    Def 17187 "team_set_score" (AppendsOperation 2 []);
    Def 17204 "team_set_faction" (AppendsOperation 2 []);
    Def 17221 "team_get_faction" (AppendsOperation 2 []);
    Def 17238 "multiplayer_clear_scene" (AppendsBare 0);
    Def 17251 "multiplayer_find_spawn_point" (AppendsOperation 4 []);
    Def 17270 "set_spawn_effector_scene_prop_kind" (AppendsOperation 2 []);
    Def 17287 "set_spawn_effector_scene_prop_id" (AppendsOperation 2 []);
    Def 17304 "start_multiplayer_mission" (AppendsOperation 3 []);
    Def 17322 "kick_player" (AppendsOperation 1 []);
    Def 17338 "ban_player" (AppendsOperation 2 []);
    Def 17355 "save_ban_info_of_player" (AppendsOperation 1 []);
    Def 17371 "ban_player_using_saved_ban_info" (AppendsBare 0);
    Def 17384 "server_add_message_to_log" (AppendsOperation 1 []);
    Def 17400 "server_get_renaming_server_allowed" (AppendsOperation 1 []);
    Def 17416 "server_get_changing_game_type_allowed" (AppendsOperation 1 []);
    Def 17432 "server_get_combat_speed" (AppendsOperation 1 []);
    Def 17448 "server_set_combat_speed" (AppendsOperation 1 []);
    Def 17464 "server_get_friendly_fire" (AppendsOperation 1 []);
    Def 17480 "server_set_friendly_fire" (AppendsOperation 1 []);
    Def 17496 "server_get_control_block_dir" (AppendsOperation 1 []);
    Def 17512 "server_set_control_block_dir" (AppendsOperation 1 []);
    Def 17528 "server_set_password" (AppendsOperation 1 []);
    Def 17544 "server_get_add_to_game_servers_list" (AppendsOperation 1 []);
    Def 17560 "server_set_add_to_game_servers_list" (AppendsOperation 1 []);
    Def 17576 "server_get_ghost_mode" (AppendsOperation 1 []);
    Def 17592 "server_set_ghost_mode" (AppendsOperation 1 []);
    Def 17608 "server_set_name" (AppendsOperation 1 []);
    Def 17624 "server_get_max_num_players" (AppendsOperation 1 []);
    Def 17640 "server_set_max_num_players" (AppendsOperation 1 []);
    Def 17656 "server_set_welcome_message" (AppendsOperation 1 []);
    Def 17672 "server_get_melee_friendly_fire" (AppendsOperation 1 []);
    Def 17688 "server_set_melee_friendly_fire" (AppendsOperation 1 []);
    Def 17704 "server_get_friendly_fire_damage_self_ratio" (AppendsOperation 1 []);
    Def 17720 "server_set_friendly_fire_damage_self_ratio" (AppendsOperation 1 []);
    Def 17736 "server_get_friendly_fire_damage_friend_ratio" (AppendsOperation 1 []);
    Def 17752 "server_set_friendly_fire_damage_friend_ratio" (AppendsOperation 1 []);
    Def 17768 "server_get_anti_cheat" (AppendsOperation 1 []);
    Def 17784 "server_set_anti_cheat" (AppendsOperation 1 []);
    Def 17800 "set_tooltip_text" (AppendsOperation 1 []);
    Def 17816 "ai_mesh_face_group_show_hide" (AppendsOperation 2 []);
    Def 17833 "auto_set_meta_mission_at_end_commited" (AppendsBare 0) ].

(** The body of [class OperatorBuilder], in source order. *)
Definition class_body : list method_def :=
  class_body_00
  ++ class_body_01
  ++ class_body_02
  ++ class_body_03
  ++ class_body_04
  ++ class_body_05
  ++ class_body_06
  ++ class_body_07
  ++ class_body_08
  ++ class_body_09
  ++ class_body_10.

(** Executing the class body binds each name to the latest [def] of it. *)
Definition class_dict (body : list method_def) : gmap string method_def :=
  fold_left (fun ns d => <[m_name d := d]> ns) body ∅.

Section Invoke.

(** The opcodes, by name, and the dict that Python makes of keyword
    arguments, a value outside the fragment. *)
Variable opcode : string -> Z.
Variable py_dict : list (string * pyval) -> pyval.

(** [try_for_prop_instances(self, iterable, **args)], lines 219-236.
    [args] is a dict, which the flattening never opens. *)
Definition try_for_prop_instances (iterable : pyval)
    (kwargs : list (string * pyval)) : OperatorBuilder.method :=
  let flattened_operation :=
    VTuple (OperatorBuilder.flatten
              [VInt (opcode "try_for_prop_instances"); iterable]
            ++ [py_dict kwargs]) in
  OperatorBuilder.append flattened_operation.

(** The body of [d] on positional arguments.  A number of arguments that
    the signature does not admit is Python's [TypeError].  No value of
    the fragment is a bool, so that [try_for_players] (lines 238-256)
    appends its arguments as they are; the body of a delegating method
    needs the class and is run by [invoke]. *)
Definition run_body (d : method_def) (args : list pyval)
    : OperatorBuilder.method :=
  fun tuples =>
    let op := opcode (m_name d) in
    let wrong_arity := (Raise TypeError, tuples) in
    match m_body d with
    | SetsTuples =>
        match args with [] => (Ret tt, []) | _ => wrong_arity end
    | AppendsItem =>
        match args with
        | [item] => OperatorBuilder.append item tuples
        | _ => wrong_arity
        end
    | AppendsFlattened => OperatorBuilder.tuple args tuples
    | ReturnsTuples =>
        match args with
        | [] => (Ret tt, OperatorBuilder.done tuples)
        | _ => wrong_arity
        end
    | ChecksThenFlattens =>
        match args with
        | script :: rest => OperatorBuilder.call_script op script rest tuples
        | [] => wrong_arity
        end
    | FlattensKeywords =>
        match args with
        | [iterable] => try_for_prop_instances iterable [] tuples
        | _ => wrong_arity
        end
    | FlattensValues =>
        match args with
        | parameter_name :: rest =>
            OperatorBuilder.set_shader_param_float4x4 op parameter_name rest
              tuples
        | [] => wrong_arity
        end
    | ConvertsBool =>
        match args with
        | [iterable] =>
            OperatorBuilder.append (VTuple [VInt op; iterable; VInt 0]) tuples
        | [iterable; skip_server] =>
            OperatorBuilder.append (VTuple [VInt op; iterable; skip_server])
              tuples
        | _ => wrong_arity
        end
    | AppendsOperation required defaults =>
        let given := length args in
        if ((required <=? given) && (given <=? required + length defaults))%nat
        then OperatorBuilder.append
               (VTuple (VInt op :: args ++ drop (given - required) defaults))
               tuples
        else wrong_arity
    | AppendsBare params =>
        if (length args =? params)%nat
        then OperatorBuilder.append (VInt op) tuples
        else wrong_arity
    | Delegates _ _ => (Fault, tuples)
    end.

(** [builder.name(a1, ..., an)]: the name is looked up in the class, and a
    delegating method looks its target up in turn. *)
Definition invoke (ns : gmap string method_def) (name : string)
    (args : list pyval) : OperatorBuilder.method :=
  fun tuples =>
    match ns !! name with
    | None => (Raise (AttributeError name), tuples)
    | Some d =>
        match m_body d with
        | Delegates target params =>
            if (length args =? params)%nat then
              match ns !! target with
              | Some d' => run_body d' args tuples
              | None => (Raise (AttributeError target), tuples)
              end
            else (Raise TypeError, tuples)
        | _ => run_body d args tuples
        end
    end.

End Invoke.

(** The checks on the class body that the proofs compute. *)
Definition is_call_script_body (b : method_body) : bool :=
  match b with ChecksThenFlattens => true | _ => false end.

Definition is_delegating (b : method_body) : bool :=
  match b with Delegates _ _ => true | _ => false end.

Definition delegates_to_marshall (b : method_body) : bool :=
  match b with
  | Delegates target _ => String.eqb target "party_set_marshall"
  | _ => true
  end.

(** Builder [0] has emitted its first line; then a second builder is
    constructed and builder [0] sets and emits a second line. *)
Definition said_heap : heap :=
  snd (exec sample_anyone sample_plyr 0%nat
         (CallAppend DialogBuilder.no_dialog) hello_heap).

Definition said_twice_heap : heap :=
  snd (exec sample_anyone sample_plyr 0%nat
         (CallAppend DialogBuilder.no_dialog)
    (snd (exec sample_anyone sample_plyr 0%nat
            (CallPostState DialogBuilder.close_window)
       (snd (exec sample_anyone sample_plyr 0%nat
               (CallDialog (VStr "Again."))
          (snd (exec sample_anyone sample_plyr 0%nat
                  (CallPreState (VStr "start") false)
             (snd (exec sample_anyone sample_plyr 0%nat
                     (CallPartner (VInt 1))
                     (snd (construct said_heap))))))))))).

(** ** Running the primitives *)

Section Primitives.

Context {A B : Type}.

Lemma bind_ret_run (c : M A) (k : A -> M B) h a h' :
  c h = (Ret a, h') -> bind c k h = k a h'.
Proof. intros E. unfold bind. now rewrite E. Qed.

Lemma bind_raise_run (c : M A) (k : A -> M B) h e h' :
  c h = (Raise e, h') -> bind c k h = (Raise e, h').
Proof. intros E. unfold bind. now rewrite E. Qed.

Lemma getattr_run self (f : inst -> A) h i :
  objs h !! self = Some i -> getattr self f h = (Ret (f i), h).
Proof. intros E. unfold getattr, bind, self_dict, ret. now rewrite E. Qed.

End Primitives.

Lemma bind_bind {A B C} (c : M A) (k : A -> M B) (k' : B -> M C) h :
  bind (bind c k) k' h = bind c (fun a => bind (k a) k') h.
Proof. unfold bind. destruct (c h) as [[a|e|] h']; reflexivity. Qed.

Lemma self_dict_run self h i :
  objs h !! self = Some i -> self_dict self h = (Ret i, h).
Proof. intros E. unfold self_dict. now rewrite E. Qed.

Lemma setattr_run self f h i :
  objs h !! self = Some i -> setattr self f h = (Ret tt, upd h self (f i)).
Proof. intros E. unfold setattr, upd. now rewrite E. Qed.

Lemma read_list_run l h ds :
  lists h !! l = Some ds -> read_list l h = (Ret ds, h).
Proof. intros E. unfold read_list. now rewrite E. Qed.

Lemma list_append_run l x h ds :
  lists h !! l = Some ds ->
  list_append l x h = (Ret tt, store h l (snoc ds x)).
Proof. intros E. unfold list_append, store. now rewrite E. Qed.

Lemma new_list_run h :
  new_list h = (Ret (next_loc h), store h (next_loc h) []).
Proof. reflexivity. Qed.

Lemma objs_upd h self i : objs (upd h self i) !! self = Some i.
Proof. unfold upd; simpl. apply lookup_insert_eq. Qed.

Lemma objs_upd_ne h self other i :
  self <> other -> objs (upd h self i) !! other = objs h !! other.
Proof. intros. unfold upd; simpl. now apply lookup_insert_ne. Qed.

Lemma lists_upd h self i : lists (upd h self i) = lists h.
Proof. reflexivity. Qed.

Lemma upd_upd h self i j : upd (upd h self i) self j = upd h self j.
Proof. unfold upd; simpl. now rewrite insert_insert_eq. Qed.

Lemma objs_store h l ds : objs (store h l ds) = objs h.
Proof. reflexivity. Qed.

Lemma lists_store h l ds : lists (store h l ds) !! l = Some ds.
Proof. unfold store; simpl. apply lookup_insert_eq. Qed.

Lemma lists_store_ne h l l' ds :
  l <> l' -> lists (store h l ds) !! l' = lists h !! l'.
Proof. intros. unfold store; simpl. now apply lookup_insert_ne. Qed.

Lemma py_eqb_None v : py_eqb v VNone = true <-> v = VNone.
Proof. destruct v; simpl; split; congruence. Qed.

Lemma py_eqb_None_false v : v <> VNone -> py_eqb v VNone = false.
Proof.
  intros Hv. destruct (py_eqb v VNone) eqn:E; [|reflexivity].
  now apply py_eqb_None in E.
Qed.

Lemma py_eqb_empty_list v : py_eqb v (VList []) = true <-> v = VList [].
Proof.
  destruct v as [| | | |items]; simpl; split; try congruence.
  - destruct items; [reflexivity|discriminate].
  - intros E; injection E as ->. reflexivity.
Qed.

Lemma py_eqb_empty_str v : py_eqb v (VStr "") = true <-> v = VStr "".
Proof.
  destruct v as [| |s| |]; simpl; split; try congruence.
  - intros E. apply String.eqb_eq in E. now subst.
  - intros E; injection E as ->. reflexivity.
Qed.

Lemma complete_spec i :
  complete i = true <->
  attr_partner_bitwise i <> VNone /\ attr_pre_state_string i <> VNone /\
  attr_post_state_string i <> VNone /\ attr_dialog_string i <> VNone.
Proof.
  unfold complete. rewrite !andb_true_iff, !negb_true_iff.
  split.
  - intros [[[H1 H2] H3] H4].
    repeat split; intros E; rewrite E in *; simpl in *; discriminate.
  - intros (H1 & H2 & H3 & H4).
    repeat split; now apply py_eqb_None_false.
Qed.

(** ** [append] *)

Import DialogBuilder.

(** Symbolic execution of a method body: run the next primitive, using the
    allocation facts at hand. *)
Ltac run_prim :=
  rewrite ?bind_bind;
  first
    [ erewrite (bind_ret_run (getattr _ _)) by
        (apply getattr_run; first [eassumption | apply objs_upd])
    | erewrite (bind_ret_run (self_dict _)) by
        (apply self_dict_run; first [eassumption | apply objs_upd])
    | erewrite (bind_ret_run (setattr _ _)) by
        (apply setattr_run;
         first [eassumption | apply objs_upd | rewrite objs_store; eassumption])
    | erewrite (bind_ret_run (read_list _)) by
        (apply read_list_run; eassumption)
    | erewrite (bind_ret_run (list_append _ _)) by
        (apply list_append_run; eassumption)
    | erewrite (bind_ret_run new_list) by apply new_list_run
    | erewrite (bind_ret_run (ret _)) by reflexivity
    | erewrite (bind_ret_run (raise_if false _)) by reflexivity
    | erewrite (bind_raise_run (raise_if true _)) by reflexivity
    | erewrite (bind_raise_run (raise _)) by reflexivity ];
  rewrite ?upd_upd.

Lemma append_not_list self d h :
  is_list d = false ->
  append self d h = (Raise (ValueError "dialog must be a list"), h).
Proof.
  intros Hd. unfold append.
  assert (py_eqb d (VList []) = false) as ->.
  { destruct d; try reflexivity; discriminate. }
  rewrite Hd. simpl. now run_prim.
Qed.

Lemma list_guard_passes d :
  is_list d = true ->
  negb (py_eqb d (VList [])) && negb (is_list d) = false.
Proof. intros ->. apply andb_false_r. Qed.

Lemma append_needs_partner self d h i :
  is_list d = true ->
  objs h !! self = Some i ->
  attr_partner_bitwise i = VNone ->
  append self d h = (Raise (ValueError "partner must be set"), h).
Proof.
  intros Hd Hi Hp. unfold append.
  rewrite (list_guard_passes d Hd).
  do 2 run_prim. rewrite Hp. simpl. now run_prim.
Qed.

Lemma append_needs_pre_state self d h i :
  is_list d = true ->
  objs h !! self = Some i ->
  attr_partner_bitwise i <> VNone ->
  attr_pre_state_string i = VNone ->
  append self d h = (Raise (ValueError "pre_state must be set"), h).
Proof.
  intros Hd Hi Hp Hpre. unfold append.
  rewrite (list_guard_passes d Hd).
  do 2 run_prim. rewrite (py_eqb_None_false _ Hp).
  do 2 run_prim. rewrite Hpre. simpl. now run_prim.
Qed.

Lemma append_needs_post_state self d h i :
  is_list d = true ->
  objs h !! self = Some i ->
  attr_partner_bitwise i <> VNone ->
  attr_pre_state_string i <> VNone ->
  attr_post_state_string i = VNone ->
  append self d h = (Raise (ValueError "post_state must be set"), h).
Proof.
  intros Hd Hi Hp Hpre Hpost. unfold append.
  rewrite (list_guard_passes d Hd).
  do 2 run_prim. rewrite (py_eqb_None_false _ Hp).
  do 2 run_prim. rewrite (py_eqb_None_false _ Hpre).
  do 2 run_prim. rewrite Hpost. simpl. now run_prim.
Qed.

Lemma append_needs_text self d h i :
  is_list d = true ->
  objs h !! self = Some i ->
  attr_partner_bitwise i <> VNone ->
  attr_pre_state_string i <> VNone ->
  attr_post_state_string i <> VNone ->
  attr_dialog_string i = VNone ->
  append self d h = (Raise (ValueError "dialog must be set"), h).
Proof.
  intros Hd Hi Hp Hpre Hpost Htxt. unfold append.
  rewrite (list_guard_passes d Hd).
  do 2 run_prim. rewrite (py_eqb_None_false _ Hp).
  do 2 run_prim. rewrite (py_eqb_None_false _ Hpre).
  do 2 run_prim. rewrite (py_eqb_None_false _ Hpost).
  do 2 run_prim. rewrite Htxt. simpl. now run_prim.
Qed.

Lemma append_complete self d h i ds :
  is_list d = true ->
  objs h !! self = Some i ->
  lists h !! attr_dialogs i = Some ds ->
  complete i = true ->
  append self d h =
    (Ret self,
     store (upd h self (reset i)) (attr_dialogs i) (snoc ds (emitted i d))).
Proof.
  intros Hd Hi Hl Hc. apply complete_spec in Hc as (Hp & Hpre & Hpost & Htxt).
  unfold append.
  rewrite (list_guard_passes d Hd).
  do 2 run_prim. rewrite (py_eqb_None_false _ Hp).
  do 2 run_prim. rewrite (py_eqb_None_false _ Hpre).
  do 2 run_prim. rewrite (py_eqb_None_false _ Hpost).
  do 2 run_prim. rewrite (py_eqb_None_false _ Htxt).
  run_prim.
  assert ((if py_eqb d (VList [])
           then bind (self_dict self) (fun i0 => ret (entry_of i0))
           else ret d) h = (Ret (emitted i d), h)) as E.
  { unfold emitted. destruct (py_eqb d (VList [])); [|reflexivity].
    now run_prim. }
  unfold entry_of in E at 1.
  erewrite bind_ret_run by exact E.
  do 7 run_prim.
  erewrite (bind_ret_run (list_append _ _)).
  2:{ apply list_append_run. rewrite lists_upd. exact Hl. }
  reflexivity.
Qed.

Lemma append_reports_first_missing self d h i field :
  is_list d = true ->
  objs h !! self = Some i ->
  first_missing i = Some field ->
  append self d h = (Raise (must_be_set field), h).
Proof.
  intros Hd Hi. unfold first_missing.
  destruct (py_eqb (attr_partner_bitwise i) VNone) eqn:Ep.
  { intros [= <-]. apply py_eqb_None in Ep. now apply append_needs_partner with i. }
  destruct (py_eqb (attr_pre_state_string i) VNone) eqn:Epre.
  { intros [= <-]. apply py_eqb_None in Epre.
    apply append_needs_pre_state with i; trivial.
    intros E; rewrite E in Ep; discriminate. }
  destruct (py_eqb (attr_post_state_string i) VNone) eqn:Epost.
  { intros [= <-]. apply py_eqb_None in Epost.
    apply append_needs_post_state with i; trivial;
      intros E; rewrite E in *; discriminate. }
  destruct (py_eqb (attr_dialog_string i) VNone) eqn:Etxt; [|discriminate].
  intros [= <-]. apply py_eqb_None in Etxt.
  apply append_needs_text with i; trivial;
    intros E; rewrite E in *; discriminate.
Qed.

Lemma first_missing_complete i :
  first_missing i = None <-> complete i = true.
Proof.
  unfold first_missing, complete.
  destruct (py_eqb (attr_partner_bitwise i) VNone),
    (py_eqb (attr_pre_state_string i) VNone),
    (py_eqb (attr_post_state_string i) VNone),
    (py_eqb (attr_dialog_string i) VNone); simpl; split; congruence.
Qed.

Lemma incomplete_missing i :
  complete i = false -> exists field, first_missing i = Some field.
Proof.
  intros Hc. destruct (first_missing i) as [f|] eqn:E; [now exists f|].
  apply first_missing_complete in E. congruence.
Qed.

(** The reset leaves every per-entry attribute at its unset value, and does
    not touch the two attributes that are no part of an entry. *)
Lemma reset_attrs i :
  attr_partner_bitwise (reset i) = VNone /\
  attr_pre_state_string (reset i) = VNone /\
  attr_post_state_string (reset i) = VNone /\
  attr_condition_tuples (reset i) = VList [] /\
  attr_consequence_tuples (reset i) = VList [] /\
  attr_dialog_string (reset i) = VStr "" /\
  attr_dialogs (reset i) = attr_dialogs i /\
  attr_pre_state_reply_string (reset i) = attr_pre_state_reply_string i.
Proof. repeat split. Qed.

Lemma seq_of_after_append h self i ds :
  seq_of (store (upd h self (reset i)) (attr_dialogs i) ds) self = Some ds.
Proof.
  unfold seq_of. rewrite objs_store, objs_upd.
  change (attr_dialogs (reset i)) with (attr_dialogs i).
  apply lists_store.
Qed.

(** C5: on a complete builder (partner, pre_state, post_state and text all
    set) the no-argument [append] returns, adds at the end of the output
    sequence the six-element entry (speaker, pre_state, conditions, text,
    post_state, consequences) made of the current attribute values, and
    leaves partner, pre_state and post_state at [None], conditions and
    consequences at the empty list and the text at the empty string. *)
Theorem append_emits_entry_and_resets self h i ds :
  objs h !! self = Some i ->
  lists h !! attr_dialogs i = Some ds ->
  complete i = true ->
  exists h' i',
    append self no_dialog h = (Ret self, h') /\
    seq_of h' self =
      Some (ds ++ [VList [attr_partner_bitwise i; attr_pre_state_string i;
                          attr_condition_tuples i; attr_dialog_string i;
                          attr_post_state_string i;
                          attr_consequence_tuples i]]) /\
    objs h' !! self = Some i' /\
    attr_partner_bitwise i' = VNone /\
    attr_pre_state_string i' = VNone /\
    attr_post_state_string i' = VNone /\
    attr_condition_tuples i' = VList [] /\
    attr_consequence_tuples i' = VList [] /\
    attr_dialog_string i' = VStr "".
Proof.
  intros Hi Hl Hc.
  exists (store (upd h self (reset i)) (attr_dialogs i)
            (snoc ds (emitted i no_dialog))), (reset i).
  split.
  - now apply append_complete.
  - split; [apply seq_of_after_append|].
    split; [rewrite objs_store; apply objs_upd|].
    repeat split.
Qed.

Lemma append_emits_entry_and_resets_witness :
  exists h' i',
    append 0%nat no_dialog hello_heap = (Ret 0%nat, h') /\
    seq_of h' 0%nat = Some [hello_entry] /\
    objs h' !! 0%nat = Some i' /\
    attr_partner_bitwise i' = VNone /\
    attr_pre_state_string i' = VNone /\
    attr_post_state_string i' = VNone /\
    attr_condition_tuples i' = VList [] /\
    attr_consequence_tuples i' = VList [] /\
    attr_dialog_string i' = VStr "".
Proof.
  apply (append_emits_entry_and_resets 0%nat hello_heap hello_inst []);
    reflexivity.
Defined.

(** A builder whose text is still the sentinel [""] passes the fourth
    check, which compares with [None]. *)
Lemma sentinel_text_is_complete i :
  attr_partner_bitwise i <> VNone ->
  attr_pre_state_string i <> VNone ->
  attr_post_state_string i <> VNone ->
  attr_dialog_string i = class_dialog_string ->
  complete i = true.
Proof.
  intros Hp Hpre Hpost Htxt. apply complete_spec.
  rewrite Htxt. repeat split; trivial. discriminate.
Qed.

(** C1: with partner, pre_state and post_state set and the text never set
    (it still is the sentinel [""]), the no-argument [append] does not
    raise: it returns and emits an entry whose text is [""]. *)
Theorem append_accepts_unset_text :
  attr_dialog_string <$> (objs silent_heap !! 0%nat)
    = Some class_dialog_string /\
  fst (append 0%nat no_dialog silent_heap) = Ret 0%nat /\
  seq_of (snd (append 0%nat no_dialog silent_heap)) 0%nat
    = Some [silent_entry].
Proof. repeat split. Qed.

(** C3 as stated fails: on a new builder, [append] with an explicit entry
    raises the missing-partner error and appends nothing. *)
Lemma append_explicit_entry_is_validated :
  append 0%nat hello_entry fresh_heap
    = (Raise (ValueError "partner must be set"), fresh_heap) /\
  seq_of fresh_heap 0%nat = Some [].
Proof. split; reflexivity. Qed.

(** C3, amended: [append] with an explicit non-empty list runs the same
    four checks as the no-argument call.  On a complete builder it adds
    that list, as it is, at the end of the output sequence and resets the
    per-entry attributes; on a builder with a required field unset it
    raises the error of the first such field and leaves the heap as it
    was. *)
Theorem append_explicit_entry self h i ds x xs :
  objs h !! self = Some i ->
  lists h !! attr_dialogs i = Some ds ->
  (complete i = true ->
   exists h' i',
     append self (VList (x :: xs)) h = (Ret self, h') /\
     seq_of h' self = Some (ds ++ [VList (x :: xs)]) /\
     objs h' !! self = Some i' /\
     attr_partner_bitwise i' = VNone /\
     attr_pre_state_string i' = VNone /\
     attr_post_state_string i' = VNone /\
     attr_condition_tuples i' = VList [] /\
     attr_consequence_tuples i' = VList [] /\
     attr_dialog_string i' = VStr "") /\
  (forall field,
     first_missing i = Some field ->
     append self (VList (x :: xs)) h = (Raise (must_be_set field), h)).
Proof.
  intros Hi Hl. split.
  - intros Hc.
    exists (store (upd h self (reset i)) (attr_dialogs i)
              (snoc ds (emitted i (VList (x :: xs))))), (reset i).
    split; [now apply append_complete|].
    split; [apply seq_of_after_append|].
    split; [rewrite objs_store; apply objs_upd|].
    repeat split.
  - intros field Hf. now apply append_reports_first_missing with i.
Qed.

Lemma append_explicit_entry_witness :
  (exists h' i',
     append 0%nat (VList [VInt 7; VStr "free"]) hello_heap = (Ret 0%nat, h') /\
     seq_of h' 0%nat = Some [VList [VInt 7; VStr "free"]] /\
     objs h' !! 0%nat = Some i' /\
     attr_partner_bitwise i' = VNone /\
     attr_pre_state_string i' = VNone /\
     attr_post_state_string i' = VNone /\
     attr_condition_tuples i' = VList [] /\
     attr_consequence_tuples i' = VList [] /\
     attr_dialog_string i' = VStr "") /\
  append 0%nat (VList [VInt 7; VStr "free"]) fresh_heap
    = (Raise (must_be_set "partner"), fresh_heap).
Proof.
  split.
  - apply (append_explicit_entry 0%nat hello_heap hello_inst []
             (VInt 7) [VStr "free"]); reflexivity.
  - apply (append_explicit_entry 0%nat fresh_heap empty_inst []
             (VInt 7) [VStr "free"]); reflexivity.
Defined.

(** ** [done] *)

Lemma next_loc_fresh h l ds : lists h !! l = Some ds -> next_loc h <> l.
Proof.
  intros Hl E. subst l.
  assert (lists h !! next_loc h = None) as Hn.
  { apply not_elem_of_dom. unfold next_loc. apply is_fresh. }
  congruence.
Qed.

Lemma done_returns_nonempty self h i d ds :
  objs h !! self = Some i ->
  lists h !! attr_dialogs i = Some (d :: ds) ->
  done self h =
    (Ret (attr_dialogs i),
     upd (store h (next_loc h) []) self (set_dialogs (next_loc h) i)).
Proof.
  intros Hi Hl. unfold done.
  do 2 run_prim. simpl py_eqb. cbv iota.
  do 4 run_prim. reflexivity.
Qed.

Lemma done_finalizes self h i :
  objs h !! self = Some i ->
  lists h !! attr_dialogs i = Some [] ->
  complete i = true ->
  let h1 := store (upd h self (reset i)) (attr_dialogs i) [entry_of i] in
  done self h =
    (Ret (attr_dialogs i),
     upd (store h1 (next_loc h1) []) self (set_dialogs (next_loc h1) (reset i))).
Proof.
  intros Hi Hl Hc h1. unfold done.
  do 2 run_prim. simpl py_eqb. cbv iota.
  erewrite bind_ret_run.
  2:{ erewrite bind_ret_run by (apply (append_complete self no_dialog h i []); trivial).
      reflexivity. }
  fold h1.
  assert (objs h1 !! self = Some (reset i)) as Hi1.
  { unfold h1. rewrite objs_store. apply objs_upd. }
  do 3 run_prim. reflexivity.
Qed.

Lemma done_reports_first_missing self h i field :
  objs h !! self = Some i ->
  lists h !! attr_dialogs i = Some [] ->
  first_missing i = Some field ->
  done self h = (Raise (must_be_set field), h).
Proof.
  intros Hi Hl Hf. unfold done.
  do 2 run_prim. simpl py_eqb. cbv iota.
  erewrite bind_raise_run; [reflexivity|].
  erewrite bind_raise_run; [reflexivity|].
  now apply append_reports_first_missing with i.
Qed.

(** Whatever [done] returns is a sequence with at least one entry: an empty
    sequence sends it through [append] first. *)
Lemma done_never_returns_empty self h l h' :
  done self h = (Ret l, h') ->
  exists d ds, lists h' !! l = Some (d :: ds).
Proof.
  intros Hd.
  destruct (objs h !! self) as [i|] eqn:Hi.
  2:{ unfold done, getattr, bind, self_dict in Hd. rewrite Hi in Hd. discriminate. }
  destruct (lists h !! attr_dialogs i) as [ds|] eqn:Hl.
  2:{ unfold done in Hd. erewrite bind_ret_run in Hd by (apply getattr_run; exact Hi).
      unfold bind, read_list in Hd. rewrite Hl in Hd. discriminate. }
  destruct ds as [|d ds].
  - destruct (complete i) eqn:Hc.
    + rewrite (done_finalizes self h i Hi Hl Hc) in Hd.
      injection Hd as <- <-.
      exists (entry_of i), []. rewrite lists_upd, lists_store_ne.
      * apply lists_store.
      * eapply next_loc_fresh. apply lists_store.
    + destruct (incomplete_missing i Hc) as [field Hf].
      rewrite (done_reports_first_missing self h i field Hi Hl Hf) in Hd.
      discriminate.
  - rewrite (done_returns_nonempty self h i d ds Hi Hl) in Hd.
    injection Hd as <- <-.
    exists d, ds. rewrite lists_upd, lists_store_ne; [exact Hl|].
    eapply next_loc_fresh. exact Hl.
Qed.

(** C4 as stated fails twice: with only the partner set, [done] raises the
    missing-pre_state error; and after a [done] that finalized a complete
    line, a second [done] raises the missing-partner error. *)
Lemma done_needs_every_field_and_does_not_repeat :
  done 0%nat partner_only_heap
    = (Raise (ValueError "pre_state must be set"), partner_only_heap) /\
  fst (done 0%nat hello_heap) = Ret class_dialogs /\
  fst (done 0%nat (snd (done 0%nat hello_heap)))
    = Raise (ValueError "partner must be set").
Proof. repeat split. Qed.

(** C4, amended: on a builder whose sequence is empty and whose required
    fields are all set, [done] finalizes the line in progress, returns the
    sequence, which holds exactly that entry, and rebinds the builder's
    [dialogs] to a new empty list; a second [done] right after raises the
    missing-partner error.  When a required field is unset the first
    [done] raises the error of the first such field. *)
Theorem done_finalizes_then_raises self h i :
  objs h !! self = Some i ->
  lists h !! attr_dialogs i = Some [] ->
  (complete i = true ->
   exists h1,
     done self h = (Ret (attr_dialogs i), h1) /\
     lists h1 !! attr_dialogs i = Some [entry_of i] /\
     seq_of h1 self = Some [] /\
     done self h1 = (Raise (must_be_set "partner"), h1)) /\
  (forall field,
     first_missing i = Some field ->
     done self h = (Raise (must_be_set field), h)).
Proof.
  intros Hi Hl. split.
  - intros Hc.
    pose proof (done_finalizes self h i Hi Hl Hc) as Hd. cbv zeta in Hd.
    set (h1 := store (upd h self (reset i)) (attr_dialogs i) [entry_of i]) in *.
    set (l' := next_loc h1) in *.
    eexists. split; [exact Hd|].
    assert (objs (upd (store h1 l' []) self (set_dialogs l' (reset i))) !! self
            = Some (set_dialogs l' (reset i))) as Hself by apply objs_upd.
    assert (lists (upd (store h1 l' []) self (set_dialogs l' (reset i))) !! l'
            = Some []) as Hnew.
    { rewrite lists_upd. apply lists_store. }
    split; [|split].
    + rewrite lists_upd, lists_store_ne.
      * apply lists_store.
      * eapply next_loc_fresh. apply lists_store.
    + unfold seq_of. rewrite Hself. exact Hnew.
    + eapply done_reports_first_missing; [exact Hself|exact Hnew|reflexivity].
  - intros field Hf. now apply done_reports_first_missing with i.
Qed.

Lemma done_finalizes_then_raises_witness :
  (exists h1,
     done 0%nat hello_heap = (Ret class_dialogs, h1) /\
     lists h1 !! class_dialogs = Some [hello_entry] /\
     seq_of h1 0%nat = Some [] /\
     done 0%nat h1 = (Raise (must_be_set "partner"), h1)) /\
  done 0%nat partner_only_heap
    = (Raise (must_be_set "pre_state"), partner_only_heap).
Proof.
  split.
  - apply (done_finalizes_then_raises 0%nat hello_heap hello_inst);
      reflexivity.
  - apply (done_finalizes_then_raises 0%nat partner_only_heap
             (set_partner_bitwise (VInt 1) empty_inst)); reflexivity.
Defined.

(** ** [partner] *)

Lemma reduce_from_ints a rest :
  reduce_from or_ (VInt a) (map VInt rest) = inr (VInt (bit_or_all a rest)).
Proof.
  revert a. induction rest as [|b rest IH]; intros a; simpl.
  - reflexivity.
  - apply IH.
Qed.

Lemma reduce_or_ints a rest :
  reduce or_ (map VInt (a :: rest)) = inr (VInt (bit_or_all a rest)).
Proof. apply reduce_from_ints. Qed.

(** Bit [n] of the mask is set exactly when it is set in some element. *)
Lemma bit_or_all_testbit a rest n :
  Z.testbit (bit_or_all a rest) n
    = existsb (fun x => Z.testbit x n) (a :: rest).
Proof.
  unfold bit_or_all. revert a.
  induction rest as [|b rest IH]; intros a; simpl.
  - now rewrite orb_false_r.
  - rewrite IH. simpl. now rewrite Z.lor_spec, orb_assoc.
Qed.

Lemma partner_scalar_run self v h i :
  is_list v = false ->
  objs h !! self = Some i ->
  partner self v h = (Ret self, upd h self (set_partner_bitwise v i)).
Proof.
  intros Hv Hi. unfold partner. run_prim.
  destruct v; try discriminate; now run_prim.
Qed.

Lemma partner_list_run self items mask h i :
  reduce or_ items = inr mask ->
  objs h !! self = Some i ->
  partner self (VList items) h
    = (Ret self, upd h self (set_partner_bitwise mask i)).
Proof.
  intros Hr Hi. unfold partner. run_prim. rewrite Hr. simpl lift.
  do 2 run_prim. reflexivity.
Qed.

(** [reduce] has nothing to start from on an empty list: the attribute
    keeps the list that line 124 stored. *)
Lemma partner_empty_list_run self h i :
  objs h !! self = Some i ->
  partner self (VList []) h
    = (Raise TypeError, upd h self (set_partner_bitwise (VList []) i)).
Proof.
  intros Hi. unfold partner. run_prim. simpl.
  erewrite bind_raise_run; [reflexivity|].
  erewrite bind_raise_run; reflexivity.
Qed.

(** C8: [partner] given a non-empty list of integer identifiers stores the
    same speaker as [partner] given their bitwise or [a | b | c | ...],
    which is the integer whose bits are those set in some element; given a
    value that is not a list it stores that value. *)
Theorem partner_list_is_bitwise_or self h i :
  objs h !! self = Some i ->
  (forall a rest,
     partner self (VList (map VInt (a :: rest))) h
       = partner self (VInt (bit_or_all a rest)) h /\
     partner self (VList (map VInt (a :: rest))) h
       = (Ret self, upd h self (set_partner_bitwise (VInt (bit_or_all a rest)) i)) /\
     attr_partner_bitwise (set_partner_bitwise (VInt (bit_or_all a rest)) i)
       = VInt (bit_or_all a rest) /\
     forall n, Z.testbit (bit_or_all a rest) n
               = existsb (fun x => Z.testbit x n) (a :: rest)) /\
  (forall v,
     is_list v = false ->
     partner self v h = (Ret self, upd h self (set_partner_bitwise v i)) /\
     attr_partner_bitwise (set_partner_bitwise v i) = v).
Proof.
  intros Hi. split.
  - intros a rest.
    rewrite (partner_list_run self _ _ h i (reduce_or_ints a rest) Hi).
    rewrite (partner_scalar_run self (VInt (bit_or_all a rest)) h i eq_refl Hi).
    repeat split. apply bit_or_all_testbit.
  - intros v Hv. split; [now apply partner_scalar_run|reflexivity].
Qed.

Lemma partner_list_is_bitwise_or_witness :
  partner 0%nat (VList [VInt 4095; VInt 65536; VInt 131072]) fresh_heap
    = partner 0%nat (VInt 200703) fresh_heap /\
  partner 0%nat (VInt 4095) fresh_heap
    = (Ret 0%nat, upd fresh_heap 0%nat (set_partner_bitwise (VInt 4095) empty_inst)).
Proof.
  destruct (partner_list_is_bitwise_or 0%nat fresh_heap empty_inst eq_refl)
    as [Hlist Hscalar].
  split.
  - exact (proj1 (Hlist 4095 [65536; 131072])).
  - exact (proj1 (Hscalar (VInt 4095) eq_refl)).
Defined.

(** ** [replies_start] and [reply] *)

Lemma pre_state_run self v on_reply h i :
  objs h !! self = Some i ->
  pre_state self v on_reply h =
    (Ret self,
     upd h self (if on_reply
                 then set_pre_state_reply_string v (set_pre_state_string v i)
                 else set_pre_state_string v i)).
Proof.
  intros Hi. unfold pre_state. run_prim.
  destruct on_reply; repeat run_prim; reflexivity.
Qed.

Lemma replies_start_explicit self v h i :
  py_eqb v (VStr "") = false ->
  objs h !! self = Some i ->
  replies_start self v h =
    (Ret self,
     upd h self (set_pre_state_reply_string v (set_pre_state_string v i))).
Proof.
  intros Hv Hi. unfold replies_start.
  erewrite bind_ret_run by (apply pre_state_run; eassumption).
  rewrite Hv. now repeat run_prim.
Qed.

Lemma replies_start_implicit self h i ds entry post :
  objs h !! self = Some i ->
  lists h !! attr_dialogs i = Some (ds ++ [entry]) ->
  py_index entry 4 = inr post ->
  replies_start self no_prestate h =
    (Ret self,
     upd h self (set_pre_state_reply_string post (set_pre_state_string post i))).
Proof.
  intros Hi Hl Hp. unfold replies_start.
  erewrite bind_ret_run by (apply pre_state_run; eassumption).
  simpl py_eqb. cbv iota.
  run_prim. rewrite ?bind_bind.
  erewrite (bind_ret_run (read_list _)) by (apply read_list_run; exact Hl).
  unfold py_last. rewrite last_snoc. simpl lift. run_prim.
  rewrite Hp. simpl lift. run_prim.
  rewrite ?bind_bind.
  erewrite bind_ret_run by (apply pre_state_run; apply objs_upd).
  rewrite upd_upd. now repeat run_prim.
Qed.

(** C10: [replies_start] with its default pre-state, on a builder whose
    sequence is empty, raises [IndexError] at [self.dialogs[-1]], after
    line 289 has stored the empty pre-state; so the call returns only when
    an entry has been appended before, and it does return when the last
    entry has an element at index 4. *)
Theorem replies_start_needs_an_entry self h i ds :
  objs h !! self = Some i ->
  lists h !! attr_dialogs i = Some ds ->
  (ds = [] ->
   replies_start self no_prestate h =
     (Raise IndexError,
      upd h self (set_pre_state_reply_string no_prestate
                    (set_pre_state_string no_prestate i)))) /\
  (forall r h', replies_start self no_prestate h = (Ret r, h') -> ds <> []) /\
  (forall ds' entry post,
     ds = ds' ++ [entry] ->
     py_index entry 4 = inr post ->
     replies_start self no_prestate h =
       (Ret self,
        upd h self (set_pre_state_reply_string post
                      (set_pre_state_string post i)))).
Proof.
  intros Hi Hl.
  assert (ds = [] ->
          replies_start self no_prestate h =
            (Raise IndexError,
             upd h self (set_pre_state_reply_string no_prestate
                           (set_pre_state_string no_prestate i))))
    as Hempty.
  { intros ->. unfold replies_start.
    erewrite bind_ret_run by (apply pre_state_run; eassumption).
    simpl py_eqb. cbv iota.
    run_prim. rewrite ?bind_bind.
    erewrite (bind_ret_run (read_list _)) by (apply read_list_run; exact Hl).
    erewrite bind_raise_run; reflexivity. }
  split; [exact Hempty|]. split.
  - intros r h' Hr Hds. specialize (Hempty Hds). rewrite Hr in Hempty.
    discriminate.
  - intros ds' entry post -> Hp. now apply replies_start_implicit with ds' entry.
Qed.

Lemma replies_start_needs_an_entry_witness :
  replies_start 0%nat no_prestate fresh_heap =
    (Raise IndexError,
     upd fresh_heap 0%nat
       (set_pre_state_reply_string no_prestate
          (set_pre_state_string no_prestate empty_inst))).
Proof.
  apply (replies_start_needs_an_entry 0%nat fresh_heap empty_inst []);
    reflexivity.
Defined.

Lemma talk_is_not_a_method self text :
  call_method self "talk" text = raise (AttributeError "talk").
Proof. reflexivity. Qed.

(** C2: [reply] never returns.  It sets the speaker to [anyone | plyr] and
    the pre-state to the reply base state, and then raises
    [AttributeError] at [self.talk]: the class has no attribute of that
    name.  The text and the post-state are not set and no entry is
    appended. *)
Theorem reply_raises_attribute_error anyone plyr self text poststate
    append_ h i :
  objs h !! self = Some i ->
  exists h',
    reply anyone plyr self text poststate append_ h
      = (Raise (AttributeError "talk"), h') /\
    lists h' = lists h /\
    objs h' !! self =
      Some (set_pre_state_string (attr_pre_state_reply_string i)
              (set_partner_bitwise (VInt (Z.lor anyone plyr)) i)).
Proof.
  intros Hi. eexists. split; [|split].
  - unfold reply.
    erewrite bind_ret_run
      by (apply (partner_list_run self _ (VInt (Z.lor anyone plyr)) h i);
          [reflexivity|exact Hi]).
    run_prim.
    erewrite bind_ret_run by (apply pre_state_run; apply objs_upd).
    rewrite upd_upd, talk_is_not_a_method.
    erewrite bind_raise_run; reflexivity.
  - reflexivity.
  - apply objs_upd.
Qed.

Lemma reply_raises_attribute_error_witness :
  exists h',
    reply sample_anyone sample_plyr 0%nat (VStr "A") close_window true
      replies_heap = (Raise (AttributeError "talk"), h') /\
    lists h' = lists replies_heap /\
    objs h' !! 0%nat =
      Some (set_pre_state_string (VStr "start")
              (set_partner_bitwise (VInt 69631) replies_inst)).
Proof.
  apply (reply_raises_attribute_error sample_anyone sample_plyr 0%nat
           (VStr "A") close_window true replies_heap replies_inst).
  reflexivity.
Defined.

(** ** The class-level list *)

Lemma construct_run h :
  construct h =
    (Ret (fresh (dom (objs h))),
     upd h (fresh (dom (objs h))) empty_inst).
Proof. reflexivity. Qed.

Lemma construct_is_new h : objs h !! fresh (dom (objs h)) = None.
Proof. apply not_elem_of_dom, is_fresh. Qed.

Lemma done_returns_existing self h i ds :
  objs h !! self = Some i ->
  lists h !! attr_dialogs i = Some ds ->
  ds <> [] ->
  done self h =
    (Ret (attr_dialogs i),
     upd (store h (next_loc h) []) self (set_dialogs (next_loc h) i)).
Proof.
  intros Hi Hl Hds. destruct ds as [|d ds]; [congruence|].
  now apply done_returns_nonempty with d ds.
Qed.

Lemma unbound_dialogs i : dialogs i = None -> attr_dialogs i = class_dialogs.
Proof. unfold attr_dialogs. now intros ->. Qed.

Lemma done_keeps_returned_list self h i ds :
  lists h !! attr_dialogs i = Some ds ->
  lists (upd (store h (next_loc h) []) self (set_dialogs (next_loc h) i))
    !! attr_dialogs i = Some ds.
Proof.
  intros Hl. rewrite lists_upd, lists_store_ne; [exact Hl|].
  now apply next_loc_fresh with ds.
Qed.

(** C9 as stated fails: a builder that has called [done] accumulates into
    a list of its own, so the line it emits afterwards is not in the
    sequence that [done] returns on a new builder; and the partner set
    through one builder is not the partner of another. *)
Lemma sharing_ends_at_done :
  fst (after_done_scenario heap0) = Ret [hello_entry] /\
  fst (field_scenario heap0) = Ret VNone.
Proof. split; reflexivity. Qed.

(** C9, amended: builders share the class-level [dialogs] list as long as
    they have not rebound the attribute, which only [done] does.  An entry
    appended through such a builder is in the sequence that [done] returns
    on a different builder, whether that one existed before or is
    constructed afterwards, and constructing a builder leaves every list
    as it is. *)
Theorem class_sequence_is_shared a b h ia ib ds :
  a <> b ->
  objs h !! a = Some ia ->
  objs h !! b = Some ib ->
  dialogs ia = None ->
  dialogs ib = None ->
  complete ia = true ->
  lists h !! class_dialogs = Some ds ->
  exists h1,
    append a no_dialog h = (Ret a, h1) /\
    (exists h2,
       done b h1 = (Ret class_dialogs, h2) /\
       lists h2 !! class_dialogs = Some (ds ++ [entry_of ia])) /\
    (exists c h2 h3,
       construct h1 = (Ret c, h2) /\
       objs h1 !! c = None /\
       lists h2 = lists h1 /\
       done c h2 = (Ret class_dialogs, h3) /\
       lists h3 !! class_dialogs = Some (ds ++ [entry_of ia])).
Proof.
  intros Hab Ha Hb Hda Hdb Hc Hl.
  pose proof (unbound_dialogs ia Hda) as Ea.
  pose proof (unbound_dialogs ib Hdb) as Eb.
  rewrite <- Ea in Hl.
  pose proof (append_complete a no_dialog h ia ds eq_refl Ha Hl Hc) as Happ.
  change (emitted ia no_dialog) with (entry_of ia) in Happ.
  rewrite Ea in Happ, Hl.
  set (h1 := store (upd h a (reset ia)) class_dialogs (snoc ds (entry_of ia)))
    in *.
  assert (lists h1 !! class_dialogs = Some (ds ++ [entry_of ia])) as Hl1
    by apply lists_store.
  assert (ds ++ [entry_of ia] <> []) as Hne by (now destruct ds).
  exists h1. split; [exact Happ|]. split.
  - assert (objs h1 !! b = Some ib) as Hb1.
    { unfold h1. rewrite objs_store, objs_upd_ne; trivial. }
    rewrite <- Eb in Hl1.
    eexists. split.
    + rewrite <- Eb. apply (done_returns_existing b h1 ib _ Hb1 Hl1 Hne).
    + rewrite <- Eb. now apply done_keeps_returned_list.
  - set (c := fresh (dom (objs h1))).
    assert (objs (upd h1 c empty_inst) !! c = Some empty_inst) as Hc1
      by apply objs_upd.
    exists c, (upd h1 c empty_inst). eexists.
    split; [apply construct_run|].
    split; [apply construct_is_new|].
    split; [reflexivity|].
    split.
    + apply (done_returns_existing c (upd h1 c empty_inst) empty_inst _ Hc1 Hl1 Hne).
    + now apply (done_keeps_returned_list c (upd h1 c empty_inst) empty_inst).
Qed.

Lemma class_sequence_is_shared_witness :
  exists h1,
    append 0%nat no_dialog two_builders_heap = (Ret 0%nat, h1) /\
    (exists h2,
       done 1%nat h1 = (Ret class_dialogs, h2) /\
       lists h2 !! class_dialogs = Some [hello_entry]) /\
    (exists c h2 h3,
       construct h1 = (Ret c, h2) /\
       objs h1 !! c = None /\
       lists h2 = lists h1 /\
       done c h2 = (Ret class_dialogs, h3) /\
       lists h3 !! class_dialogs = Some [hello_entry]).
Proof.
  apply (class_sequence_is_shared 0%nat 1%nat two_builders_heap
           hello_inst empty_inst []); try reflexivity.
  lia.
Defined.

(** ** Flattening and [call_script] *)

Import OperatorBuilder.

Lemma flatten_cons_tuple items args :
  flatten (VTuple items :: args) = items ++ flatten args.
Proof. reflexivity. Qed.

Lemma flatten_cons_scalar x args :
  is_tuple x = false -> flatten (x :: args) = x :: flatten args.
Proof. intros Hx. destruct x; try reflexivity; discriminate. Qed.

Lemma flatten_spliced args : spliced args (flatten args).
Proof.
  induction args as [|x args IH].
  - constructor.
  - destruct (is_tuple x) eqn:Hx.
    + destruct x; try discriminate.
      rewrite flatten_cons_tuple. now constructor.
    + rewrite (flatten_cons_scalar x args Hx). now constructor.
Qed.

Lemma spliced_flatten args flat : spliced args flat -> flat = flatten args.
Proof.
  induction 1 as [|items args flat _ IH|x args flat Hx _ IH].
  - reflexivity.
  - now rewrite flatten_cons_tuple, IH.
  - now rewrite (flatten_cons_scalar x args Hx), IH.
Qed.

Lemma flatten_scalars args :
  forallb (fun x => negb (is_tuple x)) args = true -> flatten args = args.
Proof.
  induction args as [|x args IH]; simpl forallb.
  - reflexivity.
  - rewrite andb_true_iff, negb_true_iff. intros [Hx Hrest].
    rewrite (flatten_cons_scalar x args Hx). now rewrite IH.
Qed.

(** C6: [tuple] returns and appends one tuple, the splice of its
    arguments: the elements of each tuple argument in its place, every
    other argument as it is, and nothing below the first level is opened.
    So [tuple(a, (b, c), d)] appends [(a, b, c, d)], and a tuple inside a
    tuple argument stays a tuple. *)
Theorem tuple_splices_one_level args tuples :
  (exists flat,
     tuple args tuples = (Ret tt, tuples ++ [VTuple flat]) /\
     spliced args flat /\
     forall flat', spliced args flat' -> flat' = flat) /\
  (forall a b c d,
     is_tuple a = false -> is_tuple d = false ->
     tuple [a; VTuple [b; c]; d] tuples
       = (Ret tt, tuples ++ [VTuple [a; b; c; d]])) /\
  (forall a b c,
     tuple [VTuple [a; VTuple [b; c]]] tuples
       = (Ret tt, tuples ++ [VTuple [a; VTuple [b; c]]])).
Proof.
  split; [|split].
  - exists (flatten args). split; [reflexivity|].
    split; [apply flatten_spliced|apply spliced_flatten].
  - intros a b c d Ha Hd. unfold tuple, append.
    rewrite (flatten_cons_scalar a _ Ha), flatten_cons_tuple.
    now rewrite (flatten_cons_scalar d _ Hd).
  - reflexivity.
Qed.

Lemma tuple_splices_one_level_witness :
  tuple [VInt 1; VTuple [VStr "b"; VTuple [VInt 3]]; VNone] []
    = (Ret tt, [VTuple [VInt 1; VStr "b"; VTuple [VInt 3]; VNone]]).
Proof.
  destruct (tuple_splices_one_level [] []) as (_ & H & _).
  apply (H (VInt 1) (VStr "b") (VTuple [VInt 3]) VNone); reflexivity.
Defined.

Lemma call_script_within_limit op script args tuples :
  (length args <= 16)%nat ->
  is_tuple script = false ->
  call_script op script args tuples
    = (Ret tt, tuples ++ [VTuple (VInt op :: script :: args)]).
Proof.
  intros Hlen Hs. unfold call_script.
  destruct (Nat.ltb_spec 16 (length args)) as [Hgt|_]; [lia|].
  unfold append.
  rewrite (flatten_cons_scalar (VInt op) _ eq_refl).
  rewrite (flatten_cons_scalar script _ Hs), flatten_cons_tuple.
  simpl flatten. now rewrite app_nil_r.
Qed.

Lemma call_script_over_limit op script args tuples :
  (17 <= length args)%nat ->
  call_script op script args tuples
    = (Raise (ValueError too_many_parameters), tuples).
Proof.
  intros Hlen. unfold call_script.
  destruct (Nat.ltb_spec 16 (length args)) as [_|Hle]; [reflexivity|lia].
Qed.

(** ** A whole chain *)

Import DialogBuilder.

(** The scenario of the specification's section 8: every setter is called
    once and [consequence] emits the line.  The entry holds each value as
    the setter received it. *)
Lemma chain_emits_as_set self h i ds p pre c t post q :
  objs h !! self = Some i ->
  lists h !! attr_dialogs i = Some ds ->
  is_list p = false ->
  p <> VNone -> pre <> VNone -> t <> VNone -> post <> VNone ->
  exists h',
    (DialogBuilder.partner self p ;;!
     DialogBuilder.pre_state self pre false ;;!
     DialogBuilder.condition self (VList c) ;;!
     DialogBuilder.dialog self t ;;!
     DialogBuilder.post_state self post ;;!
     DialogBuilder.consequence self (VList q)) h = (Ret self, h') /\
    seq_of h' self = Some (ds ++ [VList [p; pre; VList c; t; post; VList q]]).
Proof.
  intros Hi Hl Hp Hp' Hpre Ht Hpost.
  erewrite bind_ret_run by (apply partner_scalar_run; eassumption).
  erewrite bind_ret_run by (apply pre_state_run; apply objs_upd).
  rewrite upd_upd. unfold DialogBuilder.condition, DialogBuilder.dialog, DialogBuilder.post_state,
    DialogBuilder.consequence.
  simpl raise_if. repeat run_prim.
  match goal with
  | |- context [DialogBuilder.append self no_dialog (upd h self ?j)] =>
      assert (complete j = true) as Hc
        by (apply complete_spec; repeat split; assumption);
      rewrite (append_complete self no_dialog (upd h self j) j ds eq_refl
                 (objs_upd h self j) Hl Hc)
  end.
  eexists. split; [reflexivity|].
  unfold seq_of. rewrite objs_store, objs_upd. apply lists_store.
Qed.

(** ** What a heap change keeps *)

Lemma grows_refl h : grows h h.
Proof. intros l ds Hl. exists []. now rewrite app_nil_r. Qed.

Lemma grows_trans h1 h2 h3 : grows h1 h2 -> grows h2 h3 -> grows h1 h3.
Proof.
  intros H12 H23 l ds Hl.
  destruct (H12 l ds Hl) as [m1 H1].
  destruct (H23 l _ H1) as [m2 H2].
  exists (m1 ++ m2). now rewrite app_assoc.
Qed.

Lemma next_loc_unused h : lists h !! next_loc h = None.
Proof. apply not_elem_of_dom. unfold next_loc. apply is_fresh. Qed.

Lemma moves_grows h h' : moves h h' -> grows h h'.
Proof.
  induction 1 as [h|h self i i' Hi Hd|h l ds x Hl Hx|h self i Hi|h1 h2 h3 _ IH1 _ IH2].
  - apply grows_refl.
  - exact (grows_refl h).
  - intros l' ds' Hl'. destruct (decide (l = l')) as [<-|Hne].
    + exists [x]. rewrite lists_store. unfold snoc. congruence.
    + exists []. rewrite lists_store_ne, app_nil_r; trivial.
  - intros l ds Hl. exists []. rewrite lists_upd, lists_store_ne, app_nil_r; trivial.
    now apply next_loc_fresh with ds.
  - now apply grows_trans with h2.
Qed.

Lemma moves_same_builders h h' : moves h h' -> same_builders h h'.
Proof.
  induction 1 as [h|h self i i' Hi Hd|h l ds x Hl Hx|h self i Hi|h1 h2 h3 _ IH1 _ IH2];
    intros o.
  - reflexivity.
  - destruct (decide (self = o)) as [<-|Hne].
    + rewrite objs_upd, Hi. split; eauto.
    + now rewrite objs_upd_ne.
  - reflexivity.
  - destruct (decide (self = o)) as [<-|Hne].
    + rewrite objs_upd, Hi. split; eauto.
    + now rewrite objs_upd_ne.
  - now rewrite (IH1 o).
Qed.

Lemma moves_wf h h' : moves h h' -> wf h -> wf h'.
Proof.
  induction 1 as [h|h self i i' Hi Hd|h l ds x Hl Hx|h self i Hi|h1 h2 h3 _ IH1 _ IH2];
    intros [Hc Ho].
  - now split.
  - split; [exact Hc|]. intros o j Hj. rewrite lists_upd.
    destruct (decide (self = o)) as [<-|Hne].
    + rewrite objs_upd in Hj. injection Hj as <-.
      unfold attr_dialogs. rewrite Hd. exact (Ho self i Hi).
    + rewrite objs_upd_ne in Hj by trivial. exact (Ho o j Hj).
  - assert (forall l', is_Some (lists h !! l') ->
                       is_Some (lists (store h l (snoc ds x)) !! l')) as Hkeep.
    { intros l' Hs. destruct (decide (l = l')) as [<-|Hne].
      - rewrite lists_store. eauto.
      - now rewrite lists_store_ne. }
    split; [now apply Hkeep|]. intros o j Hj. apply Hkeep. exact (Ho o j Hj).
  - assert (forall l', is_Some (lists h !! l') ->
                       is_Some (lists (store h (next_loc h) []) !! l')) as Hkeep.
    { intros l' [ds Hs]. rewrite lists_store_ne; [eauto|].
      now apply next_loc_fresh with ds. }
    split; [rewrite lists_upd; now apply Hkeep|].
    intros o j Hj. rewrite lists_upd.
    destruct (decide (self = o)) as [<-|Hne].
    + rewrite objs_upd in Hj. injection Hj as <-.
      change (attr_dialogs (set_dialogs (next_loc h) i)) with (next_loc h).
      rewrite lists_store. eauto.
    + rewrite objs_upd_ne in Hj by trivial. apply Hkeep. exact (Ho o j Hj).
  - apply IH2, IH1. now split.
Qed.

Lemma moves_holds_lists h h' : moves h h' -> holds_lists h -> holds_lists h'.
Proof.
  induction 1 as [h|h self i i' Hi Hd|h l ds x Hl Hx|h self i Hi|h1 h2 h3 _ IH1 _ IH2];
    intros Hh; trivial.
  - intros l' ds' Hl'. destruct (decide (l = l')) as [<-|Hne].
    + rewrite lists_store in Hl'. injection Hl' as <-.
      unfold snoc. apply Forall_app. split; [exact (Hh l ds Hl)|].
      now constructor.
    + rewrite lists_store_ne in Hl' by trivial. exact (Hh l' ds' Hl').
  - intros l ds Hl. rewrite lists_upd in Hl.
    destruct (decide (next_loc h = l)) as [<-|Hne].
    + rewrite lists_store in Hl. injection Hl as <-. constructor.
    + rewrite lists_store_ne in Hl by trivial. exact (Hh l ds Hl).
  - auto.
Qed.

(** ** Every method, case by case *)

Lemma condition_run self v h i :
  objs h !! self = Some i ->
  DialogBuilder.condition self v h =
    if is_list v then (Ret self, upd h self (set_condition_tuples v i))
    else (Raise (ValueError "condition must be a list"), h).
Proof.
  intros Hi. unfold DialogBuilder.condition.
  destruct (is_list v); simpl raise_if; repeat run_prim; reflexivity.
Qed.

Lemma dialog_run self v h i :
  objs h !! self = Some i ->
  DialogBuilder.dialog self v h = (Ret self, upd h self (set_dialog_string v i)).
Proof. intros Hi. unfold DialogBuilder.dialog. now repeat run_prim. Qed.

Lemma post_state_run self v h i :
  objs h !! self = Some i ->
  DialogBuilder.post_state self v h
    = (Ret self, upd h self (set_post_state_string v i)).
Proof. intros Hi. unfold DialogBuilder.post_state. now repeat run_prim. Qed.

Lemma state_run self a b h i :
  objs h !! self = Some i ->
  DialogBuilder.state self a b h =
    (Ret self,
     upd h self (set_post_state_string b (set_pre_state_string a i))).
Proof.
  intros Hi. unfold DialogBuilder.state.
  erewrite bind_ret_run by (apply pre_state_run; eassumption).
  erewrite bind_ret_run by (apply post_state_run; apply objs_upd).
  now rewrite upd_upd.
Qed.

Lemma build_run self h i :
  objs h !! self = Some i ->
  DialogBuilder.build self h =
    (Ret (VTuple [attr_partner_bitwise i; attr_pre_state_string i;
                  attr_condition_tuples i; attr_dialog_string i;
                  attr_post_state_string i; attr_consequence_tuples i]), h).
Proof. intros Hi. unfold DialogBuilder.build. now repeat run_prim. Qed.

Lemma consequence_run self v h i :
  objs h !! self = Some i ->
  DialogBuilder.consequence self v h =
    if is_list v
    then DialogBuilder.append self DialogBuilder.no_dialog
           (upd h self (set_consequence_tuples v i))
    else (Raise (ValueError "consequence must be a list"), h).
Proof.
  intros Hi. unfold DialogBuilder.consequence.
  destruct (is_list v); simpl raise_if; repeat run_prim; reflexivity.
Qed.

Lemma partner_list_error self items e h i :
  reduce or_ items = inl e ->
  objs h !! self = Some i ->
  DialogBuilder.partner self (VList items) h
    = (Raise e, upd h self (set_partner_bitwise (VList items) i)).
Proof.
  intros Hr Hi. unfold DialogBuilder.partner. run_prim. rewrite Hr. simpl lift.
  rewrite ?bind_bind.
  erewrite bind_raise_run; reflexivity.
Qed.

Lemma reduce_or_error items e : reduce or_ items = inl e -> e = TypeError.
Proof.
  unfold reduce. destruct items as [|x rest]; [congruence|].
  revert x. induction rest as [|y rest IH]; intros x; simpl; [discriminate|].
  destruct (or_ x y) as [e'|acc] eqn:Eo.
  - unfold or_ in Eo. destruct x, y; congruence.
  - apply IH.
Qed.

Lemma replies_start_implicit_error self h i ds e :
  objs h !! self = Some i ->
  lists h !! attr_dialogs i = Some ds ->
  (match py_last ds with
   | inr entry => py_index entry 4
   | inl e' => inl e'
   end) = inl e ->
  DialogBuilder.replies_start self DialogBuilder.no_prestate h =
    (Raise e,
     upd h self (set_pre_state_reply_string DialogBuilder.no_prestate
                   (set_pre_state_string DialogBuilder.no_prestate i))).
Proof.
  intros Hi Hl He. unfold DialogBuilder.replies_start.
  erewrite bind_ret_run by (apply pre_state_run; eassumption).
  simpl py_eqb. cbv iota.
  run_prim. rewrite ?bind_bind.
  erewrite (bind_ret_run (read_list _)) by (apply read_list_run; exact Hl).
  destruct (py_last ds) as [e'|entry].
  - injection He as ->. simpl lift.
    erewrite bind_raise_run; reflexivity.
  - simpl lift. run_prim. rewrite He. simpl lift.
    erewrite bind_raise_run; reflexivity.
Qed.

Lemma py_last_snoc ds : py_last ds = inl IndexError \/ exists ds' x, ds = ds' ++ [x] /\ py_last ds = inr x.
Proof.
  destruct ds as [|d ds] using rev_ind.
  - now left.
  - right. exists ds, d. split; [reflexivity|].
    unfold py_last. now rewrite last_snoc.
Qed.

Lemma py_index_list_error items n e :
  py_index (VList items) n = inl e -> e = IndexError.
Proof. simpl. destruct (items !! n); congruence. Qed.

Lemma reply_run anyone plyr self text poststate append_ h i :
  objs h !! self = Some i ->
  DialogBuilder.reply anyone plyr self text poststate append_ h =
    (Raise (AttributeError "talk"),
     upd h self (set_pre_state_string (attr_pre_state_reply_string i)
                   (set_partner_bitwise (VInt (Z.lor anyone plyr)) i))).
Proof.
  intros Hi. unfold DialogBuilder.reply.
  erewrite bind_ret_run
    by (apply (partner_list_run self _ (VInt (Z.lor anyone plyr)) h i);
        [reflexivity|exact Hi]).
  run_prim.
  erewrite bind_ret_run by (apply pre_state_run; apply objs_upd).
  rewrite upd_upd, talk_is_not_a_method.
  erewrite bind_raise_run; reflexivity.
Qed.

Lemma moves_append self d h i ds :
  objs h !! self = Some i ->
  lists h !! attr_dialogs i = Some ds ->
  moves h (snd (DialogBuilder.append self d h)) /\
  ends_well (CallAppend d) (fst (DialogBuilder.append self d h)).
Proof.
  intros Hi Hl. destruct (is_list d) eqn:Hd.
  - destruct (complete i) eqn:Hc.
    + rewrite (append_complete self d h i ds Hd Hi Hl Hc). simpl.
      split; [|exact I].
      apply moves_trans with (upd h self (reset i)).
      * now apply moves_setattr with i.
      * apply moves_push; [exact Hl|].
        unfold emitted. now destruct (py_eqb d (VList [])).
    + destruct (incomplete_missing i Hc) as [field Hf].
      rewrite (append_reports_first_missing self d h i field Hd Hi Hf). simpl.
      split; [constructor|]. right. now exists field.
  - rewrite (append_not_list self d h Hd). simpl.
    split; [constructor|]. now left.
Qed.

Lemma append_list_raises self d h i ds e :
  is_list d = true ->
  objs h !! self = Some i ->
  lists h !! attr_dialogs i = Some ds ->
  fst (DialogBuilder.append self d h) = Raise e ->
  exists field, e = must_be_set field.
Proof.
  intros Hd Hi Hl. destruct (complete i) eqn:Hc.
  - rewrite (append_complete self d h i ds Hd Hi Hl Hc). discriminate.
  - destruct (incomplete_missing i Hc) as [field Hf].
    rewrite (append_reports_first_missing self d h i field Hd Hi Hf).
    intros [= <-]. now exists field.
Qed.

Lemma moves_done self h i ds :
  objs h !! self = Some i ->
  lists h !! attr_dialogs i = Some ds ->
  moves h (snd (DialogBuilder.done self h)) /\
  ends_well CallDone (fst (DialogBuilder.done self h)).
Proof.
  intros Hi Hl. destruct ds as [|d ds].
  - destruct (complete i) eqn:Hc.
    + rewrite (done_finalizes self h i Hi Hl Hc). simpl.
      split; [|exact I].
      set (h1 := store (upd h self (reset i)) (attr_dialogs i) [entry_of i]).
      apply moves_trans with h1.
      * apply moves_trans with (upd h self (reset i)).
        -- now apply moves_setattr with i.
        -- apply (moves_push (upd h self (reset i)) (attr_dialogs i) []
                    (entry_of i)); [exact Hl|reflexivity].
      * apply moves_rebind. unfold h1. rewrite objs_store. apply objs_upd.
    + destruct (incomplete_missing i Hc) as [field Hf].
      rewrite (done_reports_first_missing self h i field Hi Hl Hf). simpl.
      split; [constructor|]. now exists field.
  - rewrite (done_returns_nonempty self h i d ds Hi Hl). simpl.
    split; [|exact I]. now apply moves_rebind.
Qed.

Lemma moves_partner self p h i :
  objs h !! self = Some i ->
  moves h (snd (DialogBuilder.partner self p h)) /\
  ends_well (CallPartner p) (fst (DialogBuilder.partner self p h)).
Proof.
  intros Hi. destruct (is_list p) eqn:Hp.
  - destruct p as [| | | |items]; try discriminate.
    destruct (reduce or_ items) as [e|mask] eqn:Hr.
    + rewrite (partner_list_error self items e h i Hr Hi). simpl.
      split; [now apply moves_setattr with i|].
      now apply reduce_or_error with items.
    + rewrite (partner_list_run self items mask h i Hr Hi). simpl.
      split; [now apply moves_setattr with i|exact I].
  - rewrite (partner_scalar_run self p h i Hp Hi). simpl.
    split; [now apply moves_setattr with i|exact I].
Qed.

Lemma moves_replies_start self s h i ds :
  objs h !! self = Some i ->
  lists h !! attr_dialogs i = Some ds ->
  Forall (fun x => is_list x = true) ds ->
  moves h (snd (DialogBuilder.replies_start self s h)) /\
  ends_well (CallRepliesStart s) (fst (DialogBuilder.replies_start self s h)).
Proof.
  intros Hi Hl Hds. destruct (py_eqb s (VStr "")) eqn:Hs.
  - apply py_eqb_empty_str in Hs. subst s.
    change (VStr "") with DialogBuilder.no_prestate.
    destruct (match py_last ds with
              | inr entry => py_index entry 4
              | inl e' => inl e'
              end) as [e|post] eqn:He.
    + rewrite (replies_start_implicit_error self h i ds e Hi Hl He). simpl.
      split; [now apply moves_setattr with i|].
      destruct (py_last_snoc ds) as [Hn|(ds' & x & -> & Hx)].
      * rewrite Hn in He. congruence.
      * rewrite Hx in He. apply Forall_app in Hds as [_ Hx'].
        inversion Hx' as [|? ? Hlx _]; subst.
        destruct x; try discriminate.
        now apply py_index_list_error with items 4%nat.
    + destruct (py_last_snoc ds) as [Hn|(ds' & x & -> & Hx)].
      * rewrite Hn in He. discriminate.
      * rewrite Hx in He.
        rewrite (replies_start_implicit self h i ds' x post Hi Hl He). simpl.
        split; [now apply moves_setattr with i|exact I].
  - rewrite (replies_start_explicit self s h i Hs Hi). simpl.
    split; [now apply moves_setattr with i|exact I].
Qed.

Lemma exec_result {A} (c : M A) h :
  bind c (fun _ => ret tt) h =
    (match fst (c h) with
     | Ret _ => Ret tt
     | Raise e => Raise e
     | Fault => Fault
     end, snd (c h)).
Proof. unfold bind. destruct (c h) as [[a|e|] h']; reflexivity. Qed.

Lemma ends_well_exec {A} (m : M A) (c : call) h :
  ends_well c (fst (m h)) -> ends_well c (fst (bind m (fun _ => ret tt) h)).
Proof. rewrite exec_result. simpl. now destruct (fst (m h)). Qed.

Lemma exec_moves anyone plyr self c h i :
  wf h -> holds_lists h ->
  objs h !! self = Some i ->
  moves h (snd (exec anyone plyr self c h)) /\
  ends_well c (fst (exec anyone plyr self c h)).
Proof.
  intros [_ Hwf] Hh Hi.
  destruct (Hwf self i Hi) as [ds Hl].
  pose proof (Hh _ _ Hl) as Hds.
  assert (forall i', dialogs i' = dialogs i ->
            moves h (upd h self i')) as Hset
    by (intros i' Hd; now apply moves_setattr with i).
  destruct c as [d| | |p|s r|v|a b|t|s|v| | |s|t s a|]; unfold exec;
    (split; [rewrite exec_result; cbn [snd]|apply ends_well_exec]).
  - now apply (moves_append self d h i ds).
  - now apply (moves_append self d h i ds).
  - rewrite (build_run self h i Hi). constructor.
  - now rewrite (build_run self h i Hi).
  - now apply (moves_done self h i ds).
  - now apply (moves_done self h i ds).
  - now apply (moves_partner self p h i).
  - now apply (moves_partner self p h i).
  - rewrite (pre_state_run self s r h i Hi). simpl.
    apply Hset. now destruct r.
  - now rewrite (pre_state_run self s r h i Hi).
  - rewrite (condition_run self v h i Hi).
    destruct (is_list v); simpl; [now apply Hset|constructor].
  - rewrite (condition_run self v h i Hi).
    now destruct (is_list v).
  - rewrite (state_run self a b h i Hi). now apply Hset.
  - now rewrite (state_run self a b h i Hi).
  - rewrite (dialog_run self t h i Hi). now apply Hset.
  - now rewrite (dialog_run self t h i Hi).
  - rewrite (post_state_run self s h i Hi). now apply Hset.
  - now rewrite (post_state_run self s h i Hi).
  - rewrite (consequence_run self v h i Hi).
    destruct (is_list v); simpl; [|constructor].
    apply moves_trans with (upd h self (set_consequence_tuples v i)).
    + now apply Hset.
    + apply (moves_append self DialogBuilder.no_dialog _
               (set_consequence_tuples v i) ds);
        [apply objs_upd|exact Hl].
  - rewrite (consequence_run self v h i Hi).
    destruct (is_list v); simpl; [|now left].
    destruct (moves_append self DialogBuilder.no_dialog
                (upd h self (set_consequence_tuples v i))
                (set_consequence_tuples v i) ds
                (objs_upd _ _ _) Hl) as [_ Hw].
    destruct (fst (DialogBuilder.append self DialogBuilder.no_dialog _))
      as [r|e|] eqn:Ea; trivial.
    right.
    now apply (append_list_raises self DialogBuilder.no_dialog _
                 (set_consequence_tuples v i) ds e eq_refl (objs_upd _ _ _) Hl).
  - constructor.
  - exact I.
  - constructor.
  - exact I.
  - now apply (moves_replies_start self s h i ds).
  - now apply (moves_replies_start self s h i ds).
  - rewrite (reply_run anyone plyr self t s a h i Hi).
    now apply Hset.
  - now rewrite (reply_run anyone plyr self t s a h i Hi).
  - constructor.
  - exact I.
Qed.

Lemma construct_wf h : wf h -> wf (snd (construct h)).
Proof.
  intros [Hc Ho]. rewrite construct_run. simpl. split; [exact Hc|].
  intros o i Hi. rewrite lists_upd.
  destruct (decide (fresh (dom (objs h)) = o)) as [<-|Hne].
  - rewrite objs_upd in Hi. injection Hi as <-. exact Hc.
  - rewrite objs_upd_ne in Hi by trivial. exact (Ho o i Hi).
Qed.

Lemma heap0_wf : wf heap0.
Proof.
  split.
  - exists []. reflexivity.
  - intros o i Hi. unfold heap0 in Hi. simpl in Hi.
    rewrite lookup_empty in Hi. discriminate.
Qed.

Lemma heap0_holds_lists : holds_lists heap0.
Proof.
  intros l ds Hl. unfold heap0 in Hl. simpl in Hl.
  apply lookup_singleton_Some in Hl as [_ <-]. constructor.
Qed.

Lemma reachable_keeps anyone plyr h0 h :
  wf h0 -> holds_lists h0 ->
  reachable_from anyone plyr h0 h ->
  wf h /\ holds_lists h /\ grows h0 h.
Proof.
  intros Hwf Hh. induction 1 as [|h _ IH|h self i c _ IH Hi].
  - split; [exact Hwf|]. split; [exact Hh|apply grows_refl].
  - destruct IH as (Hw & Hl & Hg).
    split; [now apply construct_wf|]. split; [exact Hl|exact Hg].
  - destruct IH as (Hw & Hl & Hg).
    destruct (exec_moves anyone plyr self c h i Hw Hl Hi) as [Hm _].
    split; [now apply moves_wf with h|].
    split; [now apply moves_holds_lists with h|].
    apply grows_trans with h; [exact Hg|now apply moves_grows].
Qed.

(** ** The builder's dictionary after a call *)

Lemma dict_after_same h self i :
  objs h !! self = Some i -> dict_after h h self i.
Proof. intros Hi. unfold dict_after. symmetry. now apply insert_id. Qed.

Lemma dict_after_upd h self i' : dict_after h (upd h self i') self i'.
Proof. reflexivity. Qed.

Lemma append_dict self d h i ds :
  objs h !! self = Some i ->
  lists h !! attr_dialogs i = Some ds ->
  exists i',
    dict_after h (snd (DialogBuilder.append self d h)) self i' /\
    pre_state_reply_string i' = pre_state_reply_string i /\
    dialogs i' = dialogs i.
Proof.
  intros Hi Hl. destruct (is_list d) eqn:Hd.
  - destruct (complete i) eqn:Hc.
    + rewrite (append_complete self d h i ds Hd Hi Hl Hc).
      exists (reset i). repeat split.
    + destruct (incomplete_missing i Hc) as [field Hf].
      rewrite (append_reports_first_missing self d h i field Hd Hi Hf).
      exists i. split; [now apply dict_after_same|now split].
  - rewrite (append_not_list self d h Hd).
    exists i. split; [now apply dict_after_same|now split].
Qed.

Lemma done_dict self h i ds :
  objs h !! self = Some i ->
  lists h !! attr_dialogs i = Some ds ->
  exists i',
    dict_after h (snd (DialogBuilder.done self h)) self i' /\
    pre_state_reply_string i' = pre_state_reply_string i.
Proof.
  intros Hi Hl. destruct ds as [|d ds].
  - destruct (complete i) eqn:Hc.
    + rewrite (done_finalizes self h i Hi Hl Hc). cbv zeta.
      set (h1 := store (upd h self (reset i)) (attr_dialogs i) [entry_of i]).
      exists (set_dialogs (next_loc h1) (reset i)). split; [|reflexivity].
      unfold dict_after, h1. simpl. now rewrite insert_insert_eq.
    + destruct (incomplete_missing i Hc) as [field Hf].
      rewrite (done_reports_first_missing self h i field Hi Hl Hf).
      exists i. split; [now apply dict_after_same|reflexivity].
  - rewrite (done_returns_nonempty self h i d ds Hi Hl).
    exists (set_dialogs (next_loc h) i). split; reflexivity.
Qed.

Lemma partner_dict self p h i :
  objs h !! self = Some i ->
  exists v,
    snd (DialogBuilder.partner self p h)
      = upd h self (set_partner_bitwise v i).
Proof.
  intros Hi. destruct (is_list p) eqn:Hp.
  - destruct p as [| | | |items]; try discriminate.
    destruct (reduce or_ items) as [e|mask] eqn:Hr.
    + rewrite (partner_list_error self items e h i Hr Hi). now eexists.
    + rewrite (partner_list_run self items mask h i Hr Hi). now eexists.
  - rewrite (partner_scalar_run self p h i Hp Hi). now eexists.
Qed.

Lemma replies_start_dict self s h i ds :
  objs h !! self = Some i ->
  lists h !! attr_dialogs i = Some ds ->
  exists v,
    snd (DialogBuilder.replies_start self s h)
      = upd h self (set_pre_state_reply_string v (set_pre_state_string v i)).
Proof.
  intros Hi Hl. destruct (py_eqb s (VStr "")) eqn:Hs.
  - apply py_eqb_empty_str in Hs. subst s.
    change (VStr "") with DialogBuilder.no_prestate.
    destruct (match py_last ds with
              | inr entry => py_index entry 4
              | inl e' => inl e'
              end) as [e|post] eqn:He.
    + rewrite (replies_start_implicit_error self h i ds e Hi Hl He).
      now eexists.
    + destruct (py_last_snoc ds) as [Hn|(ds' & x & -> & Hx)].
      * rewrite Hn in He. discriminate.
      * rewrite Hx in He.
        rewrite (replies_start_implicit self h i ds' x post Hi Hl He).
        now eexists.
  - rewrite (replies_start_explicit self s h i Hs Hi). now eexists.
Qed.

Lemma exec_dict anyone plyr self c h i :
  wf h ->
  objs h !! self = Some i ->
  exists i',
    dict_after h (snd (exec anyone plyr self c h)) self i' /\
    (sets_reply_base c = false ->
     pre_state_reply_string i' = pre_state_reply_string i) /\
    (emits c = false ->
     dialogs i' = dialogs i /\
     lists (snd (exec anyone plyr self c h)) = lists h).
Proof.
  intros [_ Hwf] Hi.
  destruct (Hwf self i Hi) as [ds Hl].
  destruct c as [d| | |p|s r|v|a b|t|s|v| | |s|t s a|]; unfold exec;
    rewrite exec_result; cbn [snd].
  - destruct (append_dict self d h i ds Hi Hl) as (i' & H1 & H2 & H3).
    exists i'. split; [exact H1|]. split; [now intros _|discriminate].
  - rewrite (build_run self h i Hi). exists i.
    split; [now apply dict_after_same|]. now repeat split.
  - destruct (done_dict self h i ds Hi Hl) as (i' & H1 & H2).
    exists i'. split; [exact H1|]. split; [now intros _|discriminate].
  - destruct (partner_dict self p h i Hi) as [v ->].
    eexists. split; [apply dict_after_upd|]. now repeat split.
  - rewrite (pre_state_run self s r h i Hi).
    eexists. split; [apply dict_after_upd|].
    destruct r; [split; [discriminate|now repeat split]|now repeat split].
  - rewrite (condition_run self v h i Hi). destruct (is_list v).
    + eexists. split; [apply dict_after_upd|]. now repeat split.
    + exists i. split; [now apply dict_after_same|]. now repeat split.
  - rewrite (state_run self a b h i Hi).
    eexists. split; [apply dict_after_upd|]. now repeat split.
  - rewrite (dialog_run self t h i Hi).
    eexists. split; [apply dict_after_upd|]. now repeat split.
  - rewrite (post_state_run self s h i Hi).
    eexists. split; [apply dict_after_upd|]. now repeat split.
  - rewrite (consequence_run self v h i Hi). destruct (is_list v).
    + destruct (append_dict self DialogBuilder.no_dialog
                  (upd h self (set_consequence_tuples v i))
                  (set_consequence_tuples v i) ds (objs_upd _ _ _) Hl)
        as (i' & H1 & H2 & H3).
      exists i'. split; [|split; [now intros _|discriminate]].
      unfold dict_after in *. rewrite H1. simpl. now rewrite insert_insert_eq.
    + exists i. split; [now apply dict_after_same|].
      split; [now intros _|discriminate].
  - exists i. split; [now apply dict_after_same|]. now repeat split.
  - exists i. split; [now apply dict_after_same|]. now repeat split.
  - destruct (replies_start_dict self s h i ds Hi Hl) as [v ->].
    eexists. split; [apply dict_after_upd|].
    split; [discriminate|now repeat split].
  - rewrite (reply_run anyone plyr self t s a h i Hi).
    eexists. split; [apply dict_after_upd|]. now repeat split.
  - exists i. split; [now apply dict_after_same|]. now repeat split.
Qed.

(** ** Further properties of [append], [consequence] and [build] *)

(** X1: [append] given a value that is not a list, a tuple for instance,
    raises [ValueError "dialog must be a list"] before it looks at the
    builder, whatever state the builder is in, and changes nothing. *)
Theorem append_rejects_non_list self d h :
  is_list d = false ->
  DialogBuilder.append self d h
    = (Raise (ValueError "dialog must be a list"), h).
Proof. apply append_not_list. Qed.

Lemma append_rejects_non_list_witness :
  DialogBuilder.append 0%nat
    (VTuple [VInt 1; VStr "start"; VList []; VStr "Hello.";
             VStr "close_window"; VList []]) hello_heap
    = (Raise (ValueError "dialog must be a list"), hello_heap).
Proof.
  apply (append_rejects_non_list 0%nat _ hello_heap). reflexivity.
Defined.

(** X2: [append], with no argument or with an explicit list, reports the
    unset fields in a fixed order.  An unset partner is reported whatever
    the other fields are; an unset pre_state when the partner is set; an
    unset post_state when both are set; a text that is [None] when the
    three are set.  In each case the heap stays as it was. *)
Theorem append_reports_in_check_order self d h i :
  is_list d = true ->
  objs h !! self = Some i ->
  (attr_partner_bitwise i = VNone ->
   DialogBuilder.append self d h
     = (Raise (ValueError "partner must be set"), h)) /\
  (attr_partner_bitwise i <> VNone ->
   attr_pre_state_string i = VNone ->
   DialogBuilder.append self d h
     = (Raise (ValueError "pre_state must be set"), h)) /\
  (attr_partner_bitwise i <> VNone ->
   attr_pre_state_string i <> VNone ->
   attr_post_state_string i = VNone ->
   DialogBuilder.append self d h
     = (Raise (ValueError "post_state must be set"), h)) /\
  (attr_partner_bitwise i <> VNone ->
   attr_pre_state_string i <> VNone ->
   attr_post_state_string i <> VNone ->
   attr_dialog_string i = VNone ->
   DialogBuilder.append self d h
     = (Raise (ValueError "dialog must be set"), h)).
Proof.
  intros Hd Hi. repeat split; intros.
  - now apply append_needs_partner with i.
  - now apply append_needs_pre_state with i.
  - now apply append_needs_post_state with i.
  - now apply append_needs_text with i.
Qed.

Lemma append_reports_in_check_order_witness :
  DialogBuilder.append 0%nat DialogBuilder.no_dialog fresh_heap
    = (Raise (ValueError "partner must be set"), fresh_heap) /\
  DialogBuilder.append 0%nat DialogBuilder.no_dialog partner_only_heap
    = (Raise (ValueError "pre_state must be set"), partner_only_heap).
Proof.
  split.
  - apply (append_reports_in_check_order 0%nat DialogBuilder.no_dialog
             fresh_heap empty_inst); reflexivity.
  - apply (append_reports_in_check_order 0%nat DialogBuilder.no_dialog
             partner_only_heap (set_partner_bitwise (VInt 1) empty_inst));
      try reflexivity.
    discriminate.
Defined.

(** X3: [consequence] given a value that is not a list raises
    [ValueError "consequence must be a list"] and changes nothing.  Given
    a list on a complete builder it emits the line, with that list as the
    consequences.  Given a list on a builder with a required field unset
    it raises that field's error, and the list stays stored as the
    builder's consequences. *)
Theorem consequence_stores_then_appends self q h i ds :
  objs h !! self = Some i ->
  lists h !! attr_dialogs i = Some ds ->
  (is_list q = false ->
   DialogBuilder.consequence self q h
     = (Raise (ValueError "consequence must be a list"), h)) /\
  (is_list q = true -> complete i = true ->
   exists h',
     DialogBuilder.consequence self q h = (Ret self, h') /\
     seq_of h' self =
       Some (ds ++ [VList [attr_partner_bitwise i; attr_pre_state_string i;
                           attr_condition_tuples i; attr_dialog_string i;
                           attr_post_state_string i; q]])) /\
  (is_list q = true ->
   forall field, first_missing i = Some field ->
     DialogBuilder.consequence self q h
       = (Raise (must_be_set field),
          upd h self (set_consequence_tuples q i))).
Proof.
  intros Hi Hl. split; [|split].
  - intros Hq. rewrite (consequence_run self q h i Hi). now rewrite Hq.
  - intros Hq Hc. rewrite (consequence_run self q h i Hi), Hq.
    rewrite (append_complete self DialogBuilder.no_dialog _
               (set_consequence_tuples q i) ds eq_refl (objs_upd _ _ _) Hl Hc).
    eexists. split; [reflexivity|].
    unfold seq_of. rewrite objs_store, upd_upd, objs_upd. apply lists_store.
  - intros Hq field Hf. rewrite (consequence_run self q h i Hi), Hq.
    now apply append_reports_first_missing with (set_consequence_tuples q i);
      [|apply objs_upd|].
Qed.

Lemma consequence_stores_then_appends_witness :
  DialogBuilder.consequence 0%nat (VInt 3) hello_heap
    = (Raise (ValueError "consequence must be a list"), hello_heap) /\
  (exists h',
     DialogBuilder.consequence 0%nat (VList [VTuple [VInt 5]]) hello_heap
       = (Ret 0%nat, h') /\
     seq_of h' 0%nat =
       Some [VList [VInt 69631; VStr "start"; VList []; VStr "Hello.";
                    VStr "close_window"; VList [VTuple [VInt 5]]]]) /\
  DialogBuilder.consequence 0%nat (VList []) partner_only_heap
    = (Raise (must_be_set "pre_state"),
       upd partner_only_heap 0%nat
         (set_consequence_tuples (VList [])
            (set_partner_bitwise (VInt 1) empty_inst))).
Proof.
  split; [|split].
  - apply (consequence_stores_then_appends 0%nat (VInt 3) hello_heap
             hello_inst []); reflexivity.
  - apply (consequence_stores_then_appends 0%nat (VList [VTuple [VInt 5]])
             hello_heap hello_inst []); reflexivity.
  - apply (consequence_stores_then_appends 0%nat (VList [])
             partner_only_heap (set_partner_bitwise (VInt 1) empty_inst) []);
      reflexivity.
Defined.

(** X4: [build] validates nothing and changes nothing: on any builder,
    complete or not, it returns the tuple (speaker, pre_state, conditions,
    text, post_state, consequences) of the six current values; on a
    complete builder these are, in the same order, the six elements of
    the entry that [append] emits next. *)
Theorem build_previews_append self h i :
  objs h !! self = Some i ->
  DialogBuilder.build self h =
    (Ret (VTuple [attr_partner_bitwise i; attr_pre_state_string i;
                  attr_condition_tuples i; attr_dialog_string i;
                  attr_post_state_string i; attr_consequence_tuples i]), h) /\
  (forall ds,
     lists h !! attr_dialogs i = Some ds ->
     complete i = true ->
     exists h',
       DialogBuilder.append self DialogBuilder.no_dialog h = (Ret self, h') /\
       seq_of h' self =
         Some (ds ++ [VList [attr_partner_bitwise i; attr_pre_state_string i;
                             attr_condition_tuples i; attr_dialog_string i;
                             attr_post_state_string i;
                             attr_consequence_tuples i]])).
Proof.
  intros Hi. split.
  - now apply build_run.
  - intros ds Hl Hc.
    rewrite (append_complete self DialogBuilder.no_dialog h i ds eq_refl Hi Hl Hc).
    eexists. split; [reflexivity|]. apply seq_of_after_append.
Qed.

Lemma build_previews_append_witness :
  DialogBuilder.build 0%nat partner_only_heap
    = (Ret (VTuple [VInt 1; VNone; VList []; VStr ""; VNone; VList []]),
       partner_only_heap) /\
  DialogBuilder.build 0%nat hello_heap
    = (Ret (VTuple [VInt 69631; VStr "start"; VList []; VStr "Hello.";
                    VStr "close_window"; VList []]), hello_heap) /\
  exists h',
    DialogBuilder.append 0%nat DialogBuilder.no_dialog hello_heap
      = (Ret 0%nat, h') /\
    seq_of h' 0%nat =
      Some ([] ++ [VList [VInt 69631; VStr "start"; VList []; VStr "Hello.";
                          VStr "close_window"; VList []]]).
Proof.
  split; [|split].
  - apply (build_previews_append 0%nat partner_only_heap
             (set_partner_bitwise (VInt 1) empty_inst)). reflexivity.
  - apply (build_previews_append 0%nat hello_heap hello_inst). reflexivity.
  - apply (proj2 (build_previews_append 0%nat hello_heap hello_inst eq_refl)
             []); reflexivity.
Defined.

(** ** Further properties of [replies_start] and [partner] *)

Lemma short_list_has_no_fifth xs :
  (length xs < 5)%nat -> py_index (VList xs) 4 = inl IndexError.
Proof.
  intros Hlen. simpl.
  rewrite (proj2 (lookup_ge_None xs 4%nat)); [reflexivity|lia].
Qed.

(** X5: right after the no-argument [append] has emitted a line,
    [replies_start] with its default argument returns, and both the
    pre-state and the reply base state are the post-state of that line. *)
Theorem replies_start_follows_last_line self h i ds :
  objs h !! self = Some i ->
  lists h !! attr_dialogs i = Some ds ->
  complete i = true ->
  exists h1 h2 i2,
    DialogBuilder.append self DialogBuilder.no_dialog h = (Ret self, h1) /\
    DialogBuilder.replies_start self DialogBuilder.no_prestate h1
      = (Ret self, h2) /\
    objs h2 !! self = Some i2 /\
    attr_pre_state_string i2 = attr_post_state_string i /\
    attr_pre_state_reply_string i2 = attr_post_state_string i /\
    lists h2 = lists h1.
Proof.
  intros Hi Hl Hc.
  rewrite (append_complete self DialogBuilder.no_dialog h i ds eq_refl Hi Hl Hc).
  change (emitted i DialogBuilder.no_dialog) with (entry_of i).
  set (h1 := store (upd h self (reset i)) (attr_dialogs i)
               (snoc ds (entry_of i))).
  assert (objs h1 !! self = Some (reset i)) as Hi1
    by (unfold h1; rewrite objs_store; apply objs_upd).
  assert (lists h1 !! attr_dialogs (reset i) = Some (ds ++ [entry_of i]))
    as Hl1 by apply lists_store.
  exists h1. eexists. eexists.
  split; [reflexivity|].
  split.
  - apply (replies_start_implicit self h1 (reset i) ds (entry_of i)
             (attr_post_state_string i) Hi1 Hl1). reflexivity.
  - split; [apply objs_upd|]. repeat split.
Qed.

Lemma replies_start_follows_last_line_witness :
  exists h1 h2 i2,
    DialogBuilder.append 0%nat DialogBuilder.no_dialog hello_heap
      = (Ret 0%nat, h1) /\
    DialogBuilder.replies_start 0%nat DialogBuilder.no_prestate h1
      = (Ret 0%nat, h2) /\
    objs h2 !! 0%nat = Some i2 /\
    attr_pre_state_string i2 = VStr "close_window" /\
    attr_pre_state_reply_string i2 = VStr "close_window" /\
    lists h2 = lists h1.
Proof.
  apply (replies_start_follows_last_line 0%nat hello_heap hello_inst []);
    reflexivity.
Defined.

(** X6: [replies_start] with its default argument reads element 4 of the
    last entry whatever that entry is.  After [append] has added an
    explicit list of fewer than five elements, it raises [IndexError]. *)
Theorem replies_start_after_short_entry self h i ds x xs :
  objs h !! self = Some i ->
  lists h !! attr_dialogs i = Some ds ->
  complete i = true ->
  (length (x :: xs) < 5)%nat ->
  exists h1,
    DialogBuilder.append self (VList (x :: xs)) h = (Ret self, h1) /\
    seq_of h1 self = Some (ds ++ [VList (x :: xs)]) /\
    fst (DialogBuilder.replies_start self DialogBuilder.no_prestate h1)
      = Raise IndexError.
Proof.
  intros Hi Hl Hc Hlen.
  rewrite (append_complete self (VList (x :: xs)) h i ds eq_refl Hi Hl Hc).
  change (emitted i (VList (x :: xs))) with (VList (x :: xs)).
  set (h1 := store (upd h self (reset i)) (attr_dialogs i)
               (snoc ds (VList (x :: xs)))).
  assert (objs h1 !! self = Some (reset i)) as Hi1
    by (unfold h1; rewrite objs_store; apply objs_upd).
  assert (lists h1 !! attr_dialogs (reset i) = Some (ds ++ [VList (x :: xs)]))
    as Hl1 by apply lists_store.
  exists h1. split; [reflexivity|]. split; [apply seq_of_after_append|].
  rewrite (replies_start_implicit_error self h1 (reset i) _ IndexError Hi1 Hl1);
    [reflexivity|].
  unfold py_last. rewrite last_snoc. now apply short_list_has_no_fifth.
Qed.

Lemma replies_start_after_short_entry_witness :
  exists h1,
    DialogBuilder.append 0%nat (VList [VInt 7; VStr "free"]) hello_heap
      = (Ret 0%nat, h1) /\
    seq_of h1 0%nat = Some ([] ++ [VList [VInt 7; VStr "free"]]) /\
    fst (DialogBuilder.replies_start 0%nat DialogBuilder.no_prestate h1)
      = Raise IndexError.
Proof.
  apply (replies_start_after_short_entry 0%nat hello_heap hello_inst []
           (VInt 7) [VStr "free"]); try reflexivity.
  simpl. lia.
Defined.

(** X7: [replies_start] given a pre-state other than the empty string
    does not read the sequence: it returns on a builder that has emitted
    nothing, sets the pre-state and the reply base state to its argument
    and leaves every list alone. *)
Theorem replies_start_explicit_needs_no_entry self s h i :
  py_eqb s (VStr "") = false ->
  objs h !! self = Some i ->
  exists h' i',
    DialogBuilder.replies_start self s h = (Ret self, h') /\
    objs h' !! self = Some i' /\
    attr_pre_state_string i' = s /\
    attr_pre_state_reply_string i' = s /\
    lists h' = lists h.
Proof.
  intros Hs Hi. rewrite (replies_start_explicit self s h i Hs Hi).
  eexists. eexists. split; [reflexivity|].
  split; [apply objs_upd|]. repeat split.
Qed.

Lemma replies_start_explicit_needs_no_entry_witness :
  exists h' i',
    DialogBuilder.replies_start 0%nat (VStr "start") fresh_heap
      = (Ret 0%nat, h') /\
    objs h' !! 0%nat = Some i' /\
    attr_pre_state_string i' = VStr "start" /\
    attr_pre_state_reply_string i' = VStr "start" /\
    lists h' = lists fresh_heap.
Proof.
  apply (replies_start_explicit_needs_no_entry 0%nat (VStr "start")
           fresh_heap empty_inst); reflexivity.
Defined.

(** X8: [partner] given the empty list raises [TypeError], but line 124
    has already stored the list: the builder's speaker is then [[]], which
    passes the missing-partner check, so that a later [append] emits a
    line whose speaker is the empty list. *)
Theorem partner_empty_list_is_kept self h i ds :
  objs h !! self = Some i ->
  lists h !! attr_dialogs i = Some ds ->
  complete (set_partner_bitwise (VList []) i) = true ->
  exists h1 h2,
    DialogBuilder.partner self (VList []) h = (Raise TypeError, h1) /\
    DialogBuilder.append self DialogBuilder.no_dialog h1 = (Ret self, h2) /\
    seq_of h2 self =
      Some (ds ++ [VList [VList []; attr_pre_state_string i;
                          attr_condition_tuples i; attr_dialog_string i;
                          attr_post_state_string i;
                          attr_consequence_tuples i]]).
Proof.
  intros Hi Hl Hc.
  rewrite (partner_empty_list_run self h i Hi).
  eexists. eexists. split; [reflexivity|].
  rewrite (append_complete self DialogBuilder.no_dialog _
             (set_partner_bitwise (VList []) i) ds eq_refl (objs_upd _ _ _) Hl Hc).
  split; [reflexivity|].
  unfold seq_of. rewrite objs_store, upd_upd, objs_upd. apply lists_store.
Qed.

Lemma partner_empty_list_is_kept_witness :
  exists h1 h2,
    DialogBuilder.partner 0%nat (VList []) hello_heap = (Raise TypeError, h1) /\
    DialogBuilder.append 0%nat DialogBuilder.no_dialog h1 = (Ret 0%nat, h2) /\
    seq_of h2 0%nat =
      Some ([] ++ [VList [VList []; VStr "start"; VList []; VStr "Hello.";
                          VStr "close_window"; VList []]]).
Proof.
  apply (partner_empty_list_is_kept 0%nat hello_heap hello_inst []);
    reflexivity.
Defined.

Lemma reduce_from_non_int acc l :
  existsb (fun x => negb (is_int x)) l = true ->
  reduce_from or_ acc l = inl TypeError.
Proof.
  revert acc. induction l as [|x l IH]; intros acc; simpl; [discriminate|].
  destruct acc as [| a | | |]; try reflexivity.
  destruct x as [| b | | |]; try reflexivity.
  simpl. apply IH.
Qed.

Lemma reduce_non_int x y rest :
  existsb (fun v => negb (is_int v)) (x :: y :: rest) = true ->
  reduce or_ (x :: y :: rest) = inl TypeError.
Proof.
  unfold reduce. intros Hn.
  destruct x as [| a | | |]; try reflexivity.
  apply reduce_from_non_int. exact Hn.
Qed.

(** X9: [partner] does not validate the elements of a list.  A list of
    one element stores that element, whatever it is, [None] included; a
    list of two or more elements one of which is not an integer raises
    [TypeError] and leaves the list itself stored as the speaker. *)
Theorem partner_does_not_validate self h i :
  objs h !! self = Some i ->
  (forall x,
     DialogBuilder.partner self (VList [x]) h
       = (Ret self, upd h self (set_partner_bitwise x i))) /\
  (forall x y rest,
     existsb (fun v => negb (is_int v)) (x :: y :: rest) = true ->
     DialogBuilder.partner self (VList (x :: y :: rest)) h
       = (Raise TypeError,
          upd h self (set_partner_bitwise (VList (x :: y :: rest)) i))).
Proof.
  intros Hi. split.
  - intros x. now apply partner_list_run.
  - intros x y rest Hn. apply partner_list_error; [|exact Hi].
    now apply reduce_non_int.
Qed.

Lemma partner_does_not_validate_witness :
  DialogBuilder.partner 0%nat (VList [VNone]) fresh_heap
    = (Ret 0%nat, upd fresh_heap 0%nat (set_partner_bitwise VNone empty_inst)) /\
  DialogBuilder.partner 0%nat (VList [VInt 1; VStr "trp_player"]) fresh_heap
    = (Raise TypeError,
       upd fresh_heap 0%nat
         (set_partner_bitwise (VList [VInt 1; VStr "trp_player"]) empty_inst)).
Proof.
  destruct (partner_does_not_validate 0%nat fresh_heap empty_inst eq_refl)
    as [Hone Hmany].
  split.
  - exact (Hone VNone).
  - exact (Hmany (VInt 1) (VStr "trp_player") [] eq_refl).
Defined.

(** ** Further properties of [done] *)

(** X10: on a builder whose sequence has an entry, [done] validates
    nothing and emits nothing: it returns the sequence as it is, and the
    line in progress, complete or not, stays in the builder's fields and
    is in no sequence. *)
Theorem done_leaves_pending_line self h i d ds :
  objs h !! self = Some i ->
  lists h !! attr_dialogs i = Some (d :: ds) ->
  exists h' i',
    DialogBuilder.done self h = (Ret (attr_dialogs i), h') /\
    lists h' !! attr_dialogs i = Some (d :: ds) /\
    seq_of h' self = Some [] /\
    objs h' !! self = Some i' /\
    entry_of i' = entry_of i /\
    attr_pre_state_reply_string i' = attr_pre_state_reply_string i.
Proof.
  intros Hi Hl.
  rewrite (done_returns_nonempty self h i d ds Hi Hl).
  eexists. exists (set_dialogs (next_loc h) i).
  split; [reflexivity|].
  split; [now apply done_keeps_returned_list|].
  split.
  - unfold seq_of. rewrite objs_upd, lists_upd.
    change (attr_dialogs (set_dialogs (next_loc h) i)) with (next_loc h).
    apply lists_store.
  - split; [apply objs_upd|]. split; reflexivity.
Qed.

Lemma done_leaves_pending_line_witness :
  exists h' i',
    DialogBuilder.done 0%nat busy_heap = (Ret class_dialogs, h') /\
    lists h' !! class_dialogs = Some [hello_entry] /\
    seq_of h' 0%nat = Some [] /\
    objs h' !! 0%nat = Some i' /\
    entry_of i' = pending_entry /\
    attr_pre_state_reply_string i' = VNone.
Proof.
  apply (done_leaves_pending_line 0%nat busy_heap pending_inst hello_entry []);
    reflexivity.
Defined.

(** X11: whenever [done] returns, the sequence it returns has at least one
    entry, and the builder's own sequence is a different, empty list. *)
Theorem done_returns_entries self h l h' :
  DialogBuilder.done self h = (Ret l, h') ->
  (exists d ds, lists h' !! l = Some (d :: ds)) /\
  seq_of h' self = Some [].
Proof.
  intros Hd.
  destruct (objs h !! self) as [i|] eqn:Hi.
  2:{ unfold DialogBuilder.done, getattr, bind, self_dict in Hd.
      rewrite Hi in Hd. discriminate. }
  destruct (lists h !! attr_dialogs i) as [ds|] eqn:Hl.
  2:{ unfold DialogBuilder.done in Hd.
      erewrite bind_ret_run in Hd by (apply getattr_run; exact Hi).
      unfold bind, read_list in Hd. rewrite Hl in Hd. discriminate. }
  assert (forall h1 j,
            seq_of (upd (store h1 (next_loc h1) []) self
                      (set_dialogs (next_loc h1) j)) self = Some []) as Hown.
  { intros h1 j. unfold seq_of. rewrite objs_upd, lists_upd.
    change (attr_dialogs (set_dialogs (next_loc h1) j)) with (next_loc h1).
    apply lists_store. }
  destruct ds as [|d ds].
  - destruct (complete i) eqn:Hc.
    + rewrite (done_finalizes self h i Hi Hl Hc) in Hd.
      injection Hd as <- <-. split; [|apply Hown].
      exists (entry_of i), []. rewrite lists_upd, lists_store_ne.
      * apply lists_store.
      * eapply next_loc_fresh. apply lists_store.
    + destruct (incomplete_missing i Hc) as [field Hf].
      rewrite (done_reports_first_missing self h i field Hi Hl Hf) in Hd.
      discriminate.
  - rewrite (done_returns_nonempty self h i d ds Hi Hl) in Hd.
    injection Hd as <- <-. split; [|apply Hown].
    exists d, ds. now apply done_keeps_returned_list.
Qed.

Lemma done_returns_entries_witness :
  (exists d ds,
     lists (snd (DialogBuilder.done 0%nat hello_heap)) !! class_dialogs
       = Some (d :: ds)) /\
  seq_of (snd (DialogBuilder.done 0%nat hello_heap)) 0%nat = Some [].
Proof.
  apply (done_returns_entries 0%nat hello_heap class_dialogs).
  vm_compute. reflexivity.
Defined.

(** X12: [done] hands the builder a list of its own.  What the builder
    emits afterwards goes to that list and leaves the sequence that [done]
    returned as it was. *)
Theorem done_starts_a_new_list self h l h1 i1 h2 i2 d :
  DialogBuilder.done self h = (Ret l, h1) ->
  objs h1 !! self = Some i1 ->
  objs h2 !! self = Some i2 ->
  dialogs i2 = dialogs i1 ->
  lists h2 = lists h1 ->
  lists (snd (DialogBuilder.append self d h2)) !! l = lists h1 !! l /\
  (is_list d = true -> complete i2 = true ->
   seq_of (snd (DialogBuilder.append self d h2)) self = Some [emitted i2 d]).
Proof.
  intros Hd Hi1 Hi2 Hdi Hls.
  destruct (done_returns_entries self h l h1 Hd) as [(e & es & Hret) Hown].
  unfold seq_of in Hown. rewrite Hi1 in Hown.
  assert (attr_dialogs i2 = attr_dialogs i1) as Ea
    by (unfold attr_dialogs; now rewrite Hdi).
  assert (lists h2 !! attr_dialogs i2 = Some []) as Hl2
    by (now rewrite Hls, Ea).
  assert (attr_dialogs i2 <> l) as Hne.
  { intros E. rewrite E, Hls, Hret in Hl2. discriminate. }
  split.
  - destruct (is_list d) eqn:Hlist.
    + destruct (complete i2) eqn:Hc.
      * rewrite (append_complete self d h2 i2 [] Hlist Hi2 Hl2 Hc). simpl.
        rewrite lookup_insert_ne by exact Hne. now rewrite Hls.
      * destruct (incomplete_missing i2 Hc) as [field Hf].
        rewrite (append_reports_first_missing self d h2 i2 field Hlist Hi2 Hf).
        simpl. now rewrite Hls.
    + rewrite (append_not_list self d h2 Hlist). simpl. now rewrite Hls.
  - intros Hlist Hc.
    rewrite (append_complete self d h2 i2 [] Hlist Hi2 Hl2 Hc). simpl.
    apply seq_of_after_append.
Qed.

Lemma done_starts_a_new_list_witness :
  lists (snd (DialogBuilder.append 0%nat DialogBuilder.no_dialog
                (snd (DialogBuilder.done 0%nat busy_heap)))) !! class_dialogs
    = Some [hello_entry] /\
  seq_of (snd (DialogBuilder.append 0%nat DialogBuilder.no_dialog
                 (snd (DialogBuilder.done 0%nat busy_heap)))) 0%nat
    = Some [pending_entry].
Proof.
  assert (DialogBuilder.done 0%nat busy_heap
          = (Ret class_dialogs, snd (DialogBuilder.done 0%nat busy_heap)))
    as Hdone by (vm_compute; reflexivity).
  assert (objs (snd (DialogBuilder.done 0%nat busy_heap)) !! 0%nat
          = Some (set_dialogs 1%nat pending_inst))
    as Hself by (vm_compute; reflexivity).
  destruct (done_starts_a_new_list 0%nat busy_heap class_dialogs
              (snd (DialogBuilder.done 0%nat busy_heap))
              (set_dialogs 1%nat pending_inst)
              (snd (DialogBuilder.done 0%nat busy_heap))
              (set_dialogs 1%nat pending_inst)
              DialogBuilder.no_dialog
              Hdone Hself Hself eq_refl eq_refl) as [Hkept Hown].
  split.
  - rewrite Hkept. vm_compute. reflexivity.
  - exact (Hown eq_refl eq_refl).
Defined.

(** X13: the sequence that [done] returns on a builder that has not
    called [done] before is the class-level list itself, not a copy: a
    line that another such builder emits afterwards is added to it. *)
Theorem done_returns_the_live_list a b h ia ib d ds :
  a <> b ->
  objs h !! a = Some ia ->
  objs h !! b = Some ib ->
  dialogs ia = None ->
  dialogs ib = None ->
  complete ia = true ->
  lists h !! class_dialogs = Some (d :: ds) ->
  exists h1 h2,
    DialogBuilder.done b h = (Ret class_dialogs, h1) /\
    lists h1 !! class_dialogs = Some (d :: ds) /\
    DialogBuilder.append a DialogBuilder.no_dialog h1 = (Ret a, h2) /\
    lists h2 !! class_dialogs = Some ((d :: ds) ++ [entry_of ia]).
Proof.
  intros Hab Ha Hb Hda Hdb Hc Hl.
  pose proof (unbound_dialogs ia Hda) as Ea.
  pose proof (unbound_dialogs ib Hdb) as Eb.
  rewrite <- Eb in Hl.
  rewrite (done_returns_nonempty b h ib d ds Hb Hl).
  set (h1 := upd (store h (next_loc h) []) b (set_dialogs (next_loc h) ib)).
  assert (lists h1 !! class_dialogs = Some (d :: ds)) as Hl1.
  { rewrite <- Eb. now apply done_keeps_returned_list. }
  assert (objs h1 !! a = Some ia) as Ha1.
  { unfold h1. rewrite objs_upd_ne by congruence. exact Ha. }
  exists h1. eexists. rewrite Eb.
  split; [reflexivity|]. split; [exact Hl1|].
  rewrite <- Ea in Hl1.
  rewrite (append_complete a DialogBuilder.no_dialog h1 ia (d :: ds) eq_refl
             Ha1 Hl1 Hc).
  split; [reflexivity|].
  rewrite <- Ea. apply lists_store.
Qed.

Lemma done_returns_the_live_list_witness :
  exists h1 h2,
    DialogBuilder.done 1%nat busy_heap = (Ret class_dialogs, h1) /\
    lists h1 !! class_dialogs = Some [hello_entry] /\
    DialogBuilder.append 0%nat DialogBuilder.no_dialog h1 = (Ret 0%nat, h2) /\
    lists h2 !! class_dialogs = Some ([hello_entry] ++ [pending_entry]).
Proof.
  apply (done_returns_the_live_list 0%nat 1%nat busy_heap pending_inst
           empty_inst hello_entry []); try reflexivity.
  lia.
Defined.

(** ** Properties of every program *)

Lemma reachable_sound anyone plyr h :
  reachable_from anyone plyr heap0 h -> wf h /\ holds_lists h.
Proof.
  intros Hr.
  destruct (reachable_keeps anyone plyr heap0 h heap0_wf heap0_holds_lists Hr)
    as (Hw & Hl & _).
  now split.
Qed.

Lemma reachable_trans anyone plyr h0 h h' :
  reachable_from anyone plyr h0 h ->
  reachable_from anyone plyr h h' ->
  reachable_from anyone plyr h0 h'.
Proof.
  intros H0. induction 1 as [|h1 _ IH|h1 self i c _ IH Hi].
  - exact H0.
  - now apply reach_new.
  - now apply reach_call with i.
Qed.

Lemma hello_heap_reachable :
  reachable_from sample_anyone sample_plyr heap0 hello_heap.
Proof.
  change hello_heap with
    (snd (exec sample_anyone sample_plyr 0%nat
            (CallPostState DialogBuilder.close_window)
       (snd (exec sample_anyone sample_plyr 0%nat
               (CallDialog (VStr "Hello."))
          (snd (exec sample_anyone sample_plyr 0%nat
                  (CallPreState (VStr "start") false)
             (snd (exec sample_anyone sample_plyr 0%nat
                     (CallPartner (VList [VInt sample_anyone; VInt sample_plyr]))
                     (snd (construct heap0)))))))))).
  eapply reach_call; [|vm_compute; reflexivity].
  eapply reach_call; [|vm_compute; reflexivity].
  eapply reach_call; [|vm_compute; reflexivity].
  eapply reach_call; [|vm_compute; reflexivity].
  apply reach_new, reach_here.
Qed.

(** X14: in every heap that a program can reach from the initial one, a
    call on an existing builder returns or raises one of the exceptions
    of its method: [append] and [consequence] the list-type and
    missing-field [ValueError]s, [done] a missing-field [ValueError],
    [condition] its list-type [ValueError], [partner] a [TypeError],
    [replies_start] an [IndexError], [reply] the [AttributeError];
    [build], [pre_state], [state], [dialog], [post_state], [end], [start]
    and [replies_end] never raise.  No reference ever dangles. *)
Theorem calls_end_well anyone plyr h self i c :
  reachable_from anyone plyr heap0 h ->
  objs h !! self = Some i ->
  ends_well c (fst (exec anyone plyr self c h)) /\
  wf (snd (exec anyone plyr self c h)).
Proof.
  intros Hr Hi.
  destruct (reachable_sound anyone plyr h Hr) as [Hw Hl].
  destruct (exec_moves anyone plyr self c h i Hw Hl Hi) as [Hm He].
  split; [exact He|now apply moves_wf with h].
Qed.

Lemma calls_end_well_witness :
  ends_well (CallRepliesStart DialogBuilder.no_prestate)
    (fst (exec sample_anyone sample_plyr 0%nat
            (CallRepliesStart DialogBuilder.no_prestate) fresh_heap)) /\
  wf (snd (exec sample_anyone sample_plyr 0%nat
             (CallRepliesStart DialogBuilder.no_prestate) fresh_heap)).
Proof.
  apply (calls_end_well sample_anyone sample_plyr fresh_heap 0%nat empty_inst).
  - apply reach_new, reach_here.
  - reflexivity.
Defined.

(** X15: the sequences are append-only.  Whatever a program does after a
    heap it has reached, by constructing builders and calling methods
    that return or raise, every list of that heap still has the entries
    it had, in the same order, possibly followed by new ones: no method
    removes, replaces or reorders an entry, and [done] empties no list. *)
Theorem sequences_only_grow anyone plyr h h' l ds :
  reachable_from anyone plyr heap0 h ->
  reachable_from anyone plyr h h' ->
  lists h !! l = Some ds ->
  exists more, lists h' !! l = Some (ds ++ more).
Proof.
  intros Hr Hr' Hl.
  destruct (reachable_sound anyone plyr h Hr) as [Hw Hh].
  destruct (reachable_keeps anyone plyr h h' Hw Hh Hr') as (_ & _ & Hg).
  exact (Hg l ds Hl).
Qed.

Lemma said_heap_reachable :
  reachable_from sample_anyone sample_plyr heap0 said_heap.
Proof.
  apply reach_call with hello_inst; [apply hello_heap_reachable|reflexivity].
Qed.

Lemma said_twice_heap_reachable :
  reachable_from sample_anyone sample_plyr said_heap said_twice_heap.
Proof.
  unfold said_twice_heap.
  eapply reach_call; [|vm_compute; reflexivity].
  eapply reach_call; [|vm_compute; reflexivity].
  eapply reach_call; [|vm_compute; reflexivity].
  eapply reach_call; [|vm_compute; reflexivity].
  eapply reach_call; [|vm_compute; reflexivity].
  apply reach_new, reach_here.
Qed.

Lemma sequences_only_grow_witness :
  lists said_heap !! class_dialogs = Some [hello_entry] /\
  lists said_twice_heap !! class_dialogs = Some [hello_entry; pending_entry] /\
  exists more,
    lists said_twice_heap !! class_dialogs = Some ([hello_entry] ++ more).
Proof.
  split; [vm_compute; reflexivity|].
  split; [vm_compute; reflexivity|].
  apply (sequences_only_grow sample_anyone sample_plyr said_heap
           said_twice_heap class_dialogs [hello_entry]).
  - apply said_heap_reachable.
  - apply said_twice_heap_reachable.
  - vm_compute. reflexivity.
Defined.

(** X16: every entry of every sequence that a program can build is a
    Python list: an explicit entry has to be one, and the entry that
    [append] assembles is a list of six elements, not a tuple. *)
Theorem entries_are_lists anyone plyr h l ds x :
  reachable_from anyone plyr heap0 h ->
  lists h !! l = Some ds ->
  In x ds ->
  is_list x = true.
Proof.
  intros Hr Hl Hx.
  destruct (reachable_sound anyone plyr h Hr) as [_ Hh].
  pose proof (Hh l ds Hl) as Hall.
  rewrite List.Forall_forall in Hall. now apply Hall.
Qed.

Lemma entries_are_lists_witness :
  is_list hello_entry = true.
Proof.
  apply (entries_are_lists sample_anyone sample_plyr
           (snd (exec sample_anyone sample_plyr 0%nat
                   (CallAppend DialogBuilder.no_dialog) hello_heap))
           class_dialogs [hello_entry] hello_entry).
  - apply reach_call with hello_inst;
      [apply hello_heap_reachable|reflexivity].
  - vm_compute. reflexivity.
  - left. reflexivity.
Defined.

(** X17: the reply base state is written by [replies_start] and by
    [pre_state] with [on_reply] set, and by nothing else: after any other
    call, whether it returned or raised, the builder has the reply base
    state it had.  The reset of [append] does not clear it. *)
Theorem reply_base_is_kept anyone plyr h self i c :
  reachable_from anyone plyr heap0 h ->
  objs h !! self = Some i ->
  sets_reply_base c = false ->
  exists i',
    objs (snd (exec anyone plyr self c h)) !! self = Some i' /\
    attr_pre_state_reply_string i' = attr_pre_state_reply_string i.
Proof.
  intros Hr Hi Hc.
  destruct (reachable_sound anyone plyr h Hr) as [Hw _].
  destruct (exec_dict anyone plyr self c h i Hw Hi) as (i' & Hd & Hb & _).
  exists i'. split.
  - rewrite Hd. apply lookup_insert_eq.
  - unfold attr_pre_state_reply_string. now rewrite (Hb Hc).
Qed.

Lemma reply_base_is_kept_witness :
  exists i',
    objs (snd (exec sample_anyone sample_plyr 0%nat
                 (CallAppend DialogBuilder.no_dialog) hello_heap)) !! 0%nat
      = Some i' /\
    attr_pre_state_reply_string i' = attr_pre_state_reply_string hello_inst.
Proof.
  apply (reply_base_is_kept sample_anyone sample_plyr hello_heap 0%nat
           hello_inst (CallAppend DialogBuilder.no_dialog)).
  - apply hello_heap_reachable.
  - reflexivity.
  - reflexivity.
Defined.

(** X18: a call on one builder, whether it returns or raises, leaves the
    attributes of every other builder as they were: the fields of the
    line in progress belong to the instance. *)
Theorem calls_leave_other_builders anyone plyr h self i c other :
  reachable_from anyone plyr heap0 h ->
  objs h !! self = Some i ->
  other <> self ->
  objs (snd (exec anyone plyr self c h)) !! other = objs h !! other.
Proof.
  intros Hr Hi Hne.
  destruct (reachable_sound anyone plyr h Hr) as [Hw _].
  destruct (exec_dict anyone plyr self c h i Hw Hi) as (i' & Hd & _).
  rewrite Hd. apply lookup_insert_ne. congruence.
Qed.

Lemma two_builders_heap_reachable :
  reachable_from sample_anyone sample_plyr heap0 two_builders_heap.
Proof.
  change two_builders_heap with (snd (construct hello_heap)).
  apply reach_new, hello_heap_reachable.
Qed.

Lemma calls_leave_other_builders_witness :
  objs (snd (exec sample_anyone sample_plyr 1%nat
               (CallPartner (VInt 7)) two_builders_heap)) !! 0%nat
    = objs two_builders_heap !! 0%nat.
Proof.
  apply (calls_leave_other_builders sample_anyone sample_plyr
           two_builders_heap 1%nat empty_inst (CallPartner (VInt 7)) 0%nat).
  - apply two_builders_heap_reachable.
  - reflexivity.
  - lia.
Defined.

(** X19: only [append], [consequence] and [done] touch a sequence.  Any
    other call, whether it returns or raises, leaves every list as it was
    and the builder's [dialogs] bound as before. *)
Theorem only_three_methods_emit anyone plyr h self i c :
  reachable_from anyone plyr heap0 h ->
  objs h !! self = Some i ->
  emits c = false ->
  lists (snd (exec anyone plyr self c h)) = lists h /\
  seq_of (snd (exec anyone plyr self c h)) self = seq_of h self.
Proof.
  intros Hr Hi Hc.
  destruct (reachable_sound anyone plyr h Hr) as [Hw _].
  destruct (exec_dict anyone plyr self c h i Hw Hi) as (i' & Hd & _ & Hq).
  destruct (Hq Hc) as [Hdi Hls].
  split; [exact Hls|].
  unfold seq_of. rewrite Hd, lookup_insert_eq, Hi, Hls.
  unfold attr_dialogs. now rewrite Hdi.
Qed.

Lemma only_three_methods_emit_witness :
  lists (snd (exec sample_anyone sample_plyr 0%nat
                (CallReply (VStr "A") DialogBuilder.close_window true)
                hello_heap)) = lists hello_heap /\
  seq_of (snd (exec sample_anyone sample_plyr 0%nat
                 (CallReply (VStr "A") DialogBuilder.close_window true)
                 hello_heap)) 0%nat = seq_of hello_heap 0%nat.
Proof.
  apply (only_three_methods_emit sample_anyone sample_plyr hello_heap 0%nat
           hello_inst (CallReply (VStr "A") DialogBuilder.close_window true)).
  - apply hello_heap_reachable.
  - reflexivity.
  - reflexivity.
Defined.

(** ** Further properties of the flattening *)

Lemma flatten_app xs ys :
  OperatorBuilder.flatten (xs ++ ys)
    = OperatorBuilder.flatten xs ++ OperatorBuilder.flatten ys.
Proof. unfold OperatorBuilder.flatten. apply flat_map_app. Qed.

Lemma flatten_no_tuple args :
  forallb (fun j => negb (is_tuple j)) (OperatorBuilder.flatten args) = true
  <-> shallow args = true.
Proof.
  induction args as [|x args IH]; [now split|].
  destruct (is_tuple x) eqn:Hx.
  - destruct x; try discriminate.
    rewrite flatten_cons_tuple, forallb_app. simpl shallow.
    rewrite !andb_true_iff. now rewrite IH.
  - rewrite (flatten_cons_scalar x args Hx). simpl forallb. rewrite Hx.
    simpl negb.
    assert (shallow (x :: args) = shallow args) as ->.
    { simpl. destruct x; try reflexivity. discriminate. }
    now rewrite andb_true_l.
Qed.

(** X20: [tuple] splices argument by argument: the tuple it appends for
    the arguments [xs] followed by [ys] is the one for [xs] followed by
    the one for [ys], and its length is the number of elements of the
    tuple arguments plus the number of the other arguments. *)
Theorem tuple_splices_each_argument xs ys tuples :
  OperatorBuilder.tuple (xs ++ ys) tuples
    = (Ret tt,
       tuples ++ [VTuple (OperatorBuilder.flatten xs
                          ++ OperatorBuilder.flatten ys)]) /\
  length (OperatorBuilder.flatten xs) =
    list_sum (map (fun i => match i with
                            | VTuple items => length items
                            | _ => 1%nat
                            end) xs).
Proof.
  split.
  - unfold OperatorBuilder.tuple, OperatorBuilder.append.
    now rewrite flatten_app.
  - induction xs as [|x xs IH]; [reflexivity|].
    destruct (is_tuple x) eqn:Hx.
    + destruct x; try discriminate.
      rewrite flatten_cons_tuple, length_app, IH. reflexivity.
    + rewrite (flatten_cons_scalar x xs Hx). simpl length. rewrite IH.
      destruct x; try reflexivity. discriminate.
Qed.

(** X21: one level is all that [tuple] opens.  When no tuple argument
    holds a tuple, the tuple it appends holds no tuple, and passing its
    elements to [tuple] again appends the same tuple; the converse holds
    as well: a tuple inside a tuple argument survives. *)
Theorem tuple_result_is_flat_iff_shallow args tuples :
  (shallow args = true <->
   forallb (fun j => negb (is_tuple j)) (OperatorBuilder.flatten args) = true) /\
  (shallow args = true ->
   OperatorBuilder.tuple (OperatorBuilder.flatten args) tuples
     = OperatorBuilder.tuple args tuples).
Proof.
  split.
  - symmetry. apply flatten_no_tuple.
  - intros Hs. apply flatten_no_tuple in Hs.
    unfold OperatorBuilder.tuple. now rewrite (flatten_scalars _ Hs).
Qed.

Lemma tuple_result_is_flat_iff_shallow_witness :
  OperatorBuilder.tuple
    (OperatorBuilder.flatten [VInt 1; VTuple [VInt 2; VInt 3]; VInt 4]) []
  = OperatorBuilder.tuple [VInt 1; VTuple [VInt 2; VInt 3]; VInt 4] [].
Proof.
  apply (tuple_result_is_flat_iff_shallow
           [VInt 1; VTuple [VInt 2; VInt 3]; VInt 4] []).
  reflexivity.
Defined.

Lemma flatten_size args :
  (list_sum (map size (OperatorBuilder.flatten args)) + tuples_in args
   = list_sum (map size args))%nat.
Proof.
  unfold tuples_in. induction args as [|x args IH]; [reflexivity|].
  destruct (is_tuple x) eqn:Hx.
  - destruct x; try discriminate.
    rewrite flatten_cons_tuple, map_app, list_sum_app.
    rewrite filter_cons_True by reflexivity.
    simpl length. simpl map. simpl list_sum. lia.
  - rewrite (flatten_cons_scalar x args Hx).
    rewrite filter_cons_False by (rewrite Hx; discriminate).
    simpl map. simpl list_sum. lia.
Qed.

Lemma no_tuples_in args :
  tuples_in args = 0%nat ->
  forallb (fun j => negb (is_tuple j)) args = true.
Proof.
  unfold tuples_in. induction args as [|x args IH]; [reflexivity|].
  destruct (is_tuple x) eqn:Hx.
  - rewrite filter_cons_True by exact Hx. discriminate.
  - rewrite filter_cons_False by (rewrite Hx; discriminate).
    intros H. simpl. rewrite Hx. simpl. now apply IH.
Qed.

Lemma flatten_fixed_point args :
  OperatorBuilder.flatten args = args <->
  forallb (fun j => negb (is_tuple j)) args = true.
Proof.
  split.
  - intros E. apply no_tuples_in.
    pose proof (flatten_size args) as Hs. rewrite E in Hs. lia.
  - apply flatten_scalars.
Qed.

(** X22: [call_script] opens only the tuple of its own variadic
    parameters, so a parameter that is a tuple stays a tuple, whereas
    [tuple(call_script, name, parameters...)] splices it.  With at most
    16 parameters the two calls append the same tuple exactly when no
    parameter is a tuple. *)
Theorem call_script_keeps_tuple_parameters op name args tuples :
  (length args <= 16)%nat ->
  (OperatorBuilder.call_script op (VStr name) args tuples
     = OperatorBuilder.tuple (VInt op :: VStr name :: args) tuples
   <-> forallb (fun j => negb (is_tuple j)) args = true).
Proof.
  intros Hlen.
  rewrite (call_script_within_limit op (VStr name) args tuples Hlen eq_refl).
  unfold OperatorBuilder.tuple, OperatorBuilder.append.
  rewrite (flatten_cons_scalar (VInt op) _ eq_refl).
  rewrite (flatten_cons_scalar (VStr name) _ eq_refl).
  rewrite <- flatten_fixed_point.
  split.
  - intros E. injection E as E. apply app_inv_head in E.
    now injection E.
  - now intros ->.
Qed.

Lemma call_script_keeps_tuple_parameters_witness :
  OperatorBuilder.call_script 1 (VStr "script_name") [VInt 5; VStr ":var"] []
    = OperatorBuilder.tuple [VInt 1; VStr "script_name"; VInt 5; VStr ":var"] []
  <-> forallb (fun j => negb (is_tuple j)) [VInt 5; VStr ":var"] = true.
Proof.
  apply (call_script_keeps_tuple_parameters 1 "script_name"
           [VInt 5; VStr ":var"] []).
  simpl. lia.
Defined.

(** X23: a script argument that is itself a tuple is spliced by
    [call_script]: its elements follow the opcode and the parameters
    follow them.  The ceiling of 16 counts the parameters only. *)
Theorem call_script_splices_tuple_script op items args tuples :
  (length args <= 16)%nat ->
  OperatorBuilder.call_script op (VTuple items) args tuples
    = (Ret tt, tuples ++ [VTuple (VInt op :: items ++ args)]).
Proof.
  intros Hlen. unfold OperatorBuilder.call_script.
  destruct (Nat.ltb_spec 16 (length args)) as [Hgt|_]; [lia|].
  unfold OperatorBuilder.append.
  rewrite (flatten_cons_scalar (VInt op) _ eq_refl).
  rewrite !flatten_cons_tuple. simpl OperatorBuilder.flatten.
  now rewrite app_nil_r.
Qed.

Lemma call_script_splices_tuple_script_witness :
  OperatorBuilder.call_script 1 (VTuple [VStr "a"; VStr "b"]) [VInt 5] []
    = (Ret tt, [VTuple [VInt 1; VStr "a"; VStr "b"; VInt 5]]).
Proof.
  apply (call_script_splices_tuple_script 1 [VStr "a"; VStr "b"] [VInt 5] []).
  simpl. lia.
Defined.

(** X24: [set_shader_param_float4x4] checks nothing: for a parameter name
    that is not a tuple and any number of values, none or more than 16
    included, it appends (opcode, name, values...) with every value as it
    was given, tuples included. *)
Theorem set_shader_param_float4x4_takes_any_values op name args tuples :
  is_tuple name = false ->
  OperatorBuilder.set_shader_param_float4x4 op name args tuples
    = (Ret tt, tuples ++ [VTuple (VInt op :: name :: args)]).
Proof.
  intros Hn. unfold OperatorBuilder.set_shader_param_float4x4,
    OperatorBuilder.append.
  rewrite (flatten_cons_scalar (VInt op) _ eq_refl).
  rewrite (flatten_cons_scalar name _ Hn), flatten_cons_tuple.
  simpl OperatorBuilder.flatten. now rewrite app_nil_r.
Qed.

Lemma set_shader_param_float4x4_takes_any_values_witness :
  OperatorBuilder.set_shader_param_float4x4 2 (VStr "@user_value_float4x4")
    [] []
    = (Ret tt, [VTuple [VInt 2; VStr "@user_value_float4x4"]]).
Proof.
  apply (set_shader_param_float4x4_takes_any_values 2
           (VStr "@user_value_float4x4") [] []).
  reflexivity.
Defined.

(** ** Names defined more than once *)

Lemma later_defs_keep name (after : list wrapper_def)
    (ns : gmap string wrapper_def) :
  Forall (fun d => def_name d <> name) after ->
  fold_left (fun ns d => <[def_name d := d]> ns) after ns !! name = ns !! name.
Proof.
  revert ns. induction after as [|d after IH]; intros ns Hn; [reflexivity|].
  inversion Hn as [|? ? Hd Hrest]; subst. simpl.
  rewrite (IH _ Hrest). now apply lookup_insert_ne.
Qed.

Lemma last_def_wins before d after :
  Forall (fun d' => def_name d' <> def_name d) after ->
  class_namespace (before ++ d :: after) !! def_name d = Some d.
Proof.
  intros Hn. unfold class_namespace. rewrite fold_left_app. simpl.
  rewrite (later_defs_keep _ after _ Hn). apply lookup_insert_eq.
Qed.

(** X25: the class defines [set_spawn_position] three times (lines 11650,
    12474 and 13107), and the name is bound to the last definition, which
    takes no position.  Whatever the rest of the class body is, as long
    as no later [def] has that name, [set_spawn_position(position)]
    raises [TypeError] and appends nothing, and [set_spawn_position()]
    appends the opcode itself, not a tuple. *)
Theorem set_spawn_position_takes_no_position opcode before mid1 mid2 after
    position tuples :
  Forall (fun d => def_name d <> "set_spawn_position") after ->
  let ns :=
    class_namespace
      (before ++ set_spawn_position_11650 :: mid1
              ++ set_spawn_position_12474 :: mid2
              ++ set_spawn_position_13107 :: after) in
  call_wrapper opcode ns "set_spawn_position" [position] tuples
    = (Raise TypeError, tuples) /\
  call_wrapper opcode ns "set_spawn_position" [] tuples
    = (Ret tt, tuples ++ [VInt (opcode "set_spawn_position")]).
Proof.
  intros Hn ns.
  assert (ns !! "set_spawn_position" = Some set_spawn_position_13107) as Hns.
  { unfold ns.
    replace (before ++ set_spawn_position_11650 :: mid1
                    ++ set_spawn_position_12474 :: mid2
                    ++ set_spawn_position_13107 :: after)
      with ((before ++ set_spawn_position_11650 :: mid1
                    ++ set_spawn_position_12474 :: mid2)
            ++ set_spawn_position_13107 :: after).
    - now apply (last_def_wins _ set_spawn_position_13107 after).
    - rewrite <- !app_assoc. simpl. now rewrite <- app_assoc. }
  unfold call_wrapper. rewrite Hns. split; reflexivity.
Qed.

Lemma set_spawn_position_takes_no_position_witness :
  call_wrapper (fun _ => 1970)
    (class_namespace [set_spawn_position_11650; set_spawn_position_12474;
                      set_spawn_position_13107])
    "set_spawn_position" [VStr "pos1"] []
    = (Raise TypeError, []).
Proof.
  apply (set_spawn_position_takes_no_position (fun _ => 1970) [] [] [] []
           (VStr "pos1") []).
  constructor.
Defined.

(** ** Failures without effect *)

(** X26: a call of [append], [done] or [condition] that raises has
    changed nothing: the heap is the one before the call.  (The other
    methods that can raise, [partner], [consequence], [replies_start] and
    [reply], write before they fail.) *)
Theorem failed_checks_change_nothing anyone plyr h self i c e :
  reachable_from anyone plyr heap0 h ->
  objs h !! self = Some i ->
  checks_first c = true ->
  fst (exec anyone plyr self c h) = Raise e ->
  snd (exec anyone plyr self c h) = h.
Proof.
  intros Hr Hi Hc.
  destruct (reachable_sound anyone plyr h Hr) as [[_ Hw] _].
  destruct (Hw self i Hi) as [ds Hl].
  destruct c as [d| | |p|s r|v|a b|t|s|v| | |s|t s a|]; try discriminate;
    unfold exec; rewrite exec_result; cbn [fst snd].
  - destruct (is_list d) eqn:Hd.
    + destruct (complete i) eqn:Hcp.
      * rewrite (append_complete self d h i ds Hd Hi Hl Hcp). discriminate.
      * destruct (incomplete_missing i Hcp) as [field Hf].
        now rewrite (append_reports_first_missing self d h i field Hd Hi Hf).
    + now rewrite (append_not_list self d h Hd).
  - destruct ds as [|d ds].
    + destruct (complete i) eqn:Hcp.
      * rewrite (done_finalizes self h i Hi Hl Hcp). discriminate.
      * destruct (incomplete_missing i Hcp) as [field Hf].
        now rewrite (done_reports_first_missing self h i field Hi Hl Hf).
    + rewrite (done_returns_nonempty self h i d ds Hi Hl). discriminate.
  - rewrite (condition_run self v h i Hi).
    destruct (is_list v); [discriminate|reflexivity].
Qed.

Lemma failed_checks_change_nothing_witness :
  snd (exec sample_anyone sample_plyr 0%nat (CallCondition (VTuple []))
         hello_heap) = hello_heap.
Proof.
  apply (failed_checks_change_nothing sample_anyone sample_plyr hello_heap
           0%nat hello_inst (CallCondition (VTuple []))
           (ValueError "condition must be a list")).
  - apply hello_heap_reachable.
  - reflexivity.
  - reflexivity.
  - reflexivity.
Defined.

(** ** The parameter-count ceiling in the whole class *)

Lemma class_dict_from (ns : gmap string method_def) body name d :
  fold_left (fun ns d => <[m_name d := d]> ns) body ns !! name = Some d ->
  (In d body /\ m_name d = name) \/ ns !! name = Some d.
Proof.
  revert ns. induction body as [|d0 body IH]; intros ns; simpl.
  - now right.
  - intros H. destruct (IH _ H) as [[Hin Hn]|Hl].
    + left. split; [now right|exact Hn].
    + destruct (decide (m_name d0 = name)) as [E|Hne].
      * rewrite <- E, lookup_insert_eq in Hl. injection Hl as <-.
        left. split; [now left|exact E].
      * rewrite lookup_insert_ne in Hl by exact Hne. now right.
Qed.

Lemma class_dict_lookup body name d :
  class_dict body !! name = Some d -> In d body /\ m_name d = name.
Proof.
  intros H. destruct (class_dict_from ∅ body name d H) as [Hd|He]; [exact Hd|].
  rewrite lookup_empty in He. discriminate.
Qed.

Lemma only_call_script_checks :
  forallb (fun d => implb (is_call_script_body (m_body d))
                      (String.eqb (m_name d) "call_script")) class_body
    = true.
Proof. vm_compute. reflexivity. Qed.

Lemma only_marshal_delegates :
  forallb (fun d => delegates_to_marshall (m_body d)) class_body = true.
Proof. vm_compute. reflexivity. Qed.

Lemma marshall_in_class :
  class_dict class_body !! "party_set_marshall"
    = Some (Def 4037 "party_set_marshall" (AppendsOperation 2 [])).
Proof. vm_compute. reflexivity. Qed.

Lemma call_script_in_class :
  class_dict class_body !! "call_script"
    = Some (Def 61 "call_script" ChecksThenFlattens).
Proof. vm_compute. reflexivity. Qed.

Lemma tuple_in_class :
  class_dict class_body !! "tuple" = Some (Def 24 "tuple" AppendsFlattened).
Proof. vm_compute. reflexivity. Qed.

Lemma set_shader_in_class :
  class_dict class_body !! "set_shader_param_float4x4"
    = Some (Def 11422 "set_shader_param_float4x4" FlattensValues).
Proof. vm_compute. reflexivity. Qed.

Lemma try_for_prop_instances_in_class :
  class_dict class_body !! "try_for_prop_instances"
    = Some (Def 219 "try_for_prop_instances" FlattensKeywords).
Proof. vm_compute. reflexivity. Qed.

(** Of all the bodies, only the one of [call_script] can end in a
    [ValueError]. *)
Lemma run_body_value_error opcode py_dict d args tuples msg :
  fst (run_body opcode py_dict d args tuples) = Raise (ValueError msg) ->
  m_body d = ChecksThenFlattens.
Proof.
  unfold run_body. destruct (m_body d) as [| | | | | | | |t n|r ds|n];
    trivial; intros H; exfalso.
  - destruct args; discriminate.
  - destruct args as [|? [|? ?]]; discriminate.
  - discriminate.
  - destruct args; discriminate.
  - destruct args as [|? [|? ?]]; discriminate.
  - destruct args as [|? [|? [|? ?]]]; discriminate.
  - destruct args; discriminate.
  - discriminate.
  - destruct ((r <=? length args) && (length args <=? r + length ds))%nat;
      discriminate.
  - destruct (length args =? n)%nat; discriminate.
Qed.

Lemma invoke_value_error opcode py_dict method args tuples msg :
  fst (invoke opcode py_dict (class_dict class_body) method args tuples)
    = Raise (ValueError msg) ->
  method = "call_script".
Proof.
  unfold invoke.
  destruct (class_dict class_body !! method) as [d|] eqn:Hd; [|discriminate].
  destruct (class_dict_lookup _ _ _ Hd) as [Hin Hname].
  pose proof only_call_script_checks as Hcs.
  pose proof only_marshal_delegates as Hdel.
  rewrite forallb_forall in Hcs, Hdel.
  specialize (Hcs d Hin). specialize (Hdel d Hin).
  destruct (m_body d) as [| | | | | | | |t n|r ds|n] eqn:Hb;
    try (intros H; apply run_body_value_error in H; congruence).
  - intros _. simpl in Hcs. apply String.eqb_eq in Hcs. congruence.
  - simpl in Hdel. apply String.eqb_eq in Hdel. subst t.
    rewrite marshall_in_class.
    destruct (length args =? n)%nat; [|discriminate].
    intros H. apply run_body_value_error in H. discriminate.
Qed.

(** C7 as stated fails: a parameter that is a tuple stays a tuple, so the
    tuple that [call_script] appends is not flat. *)
Lemma call_script_result_can_nest :
  OperatorBuilder.call_script 1 (VStr "script_name")
    [VTuple [VInt 2; VInt 3]] []
    = (Ret tt, [VTuple [VInt 1; VStr "script_name"; VTuple [VInt 2; VInt 3]]]) /\
  existsb is_tuple [VInt 1; VStr "script_name"; VTuple [VInt 2; VInt 3]]
    = true.
Proof. split; reflexivity. Qed.

(** C7, amended: [call_script] with a script name and at most 16
    parameters returns and appends the one tuple (opcode, name,
    parameters...), each parameter as it was given; with 17 or more it
    raises the parameter-count [ValueError] and appends nothing.  In the
    whole class no other method raises a [ValueError], whatever the
    number of its positional arguments: a count that a signature does not
    admit is Python's own [TypeError], and the other variadic methods,
    [tuple], [set_shader_param_float4x4] and, for keywords,
    [try_for_prop_instances], return for every number of arguments. *)
Theorem call_script_is_the_only_ceiling opcode py_dict name args tuples :
  ((length args <= 16)%nat ->
   OperatorBuilder.call_script (opcode "call_script") (VStr name) args tuples
     = (Ret tt,
        tuples ++ [VTuple (VInt (opcode "call_script") :: VStr name :: args)]))
  /\
  ((17 <= length args)%nat ->
   OperatorBuilder.call_script (opcode "call_script") (VStr name) args tuples
     = (Raise (ValueError OperatorBuilder.too_many_parameters), tuples)) /\
  invoke opcode py_dict (class_dict class_body) "call_script"
    (VStr name :: args) tuples
    = OperatorBuilder.call_script (opcode "call_script") (VStr name) args
        tuples /\
  (forall method msg,
     method <> "call_script" ->
     fst (invoke opcode py_dict (class_dict class_body) method args tuples)
       <> Raise (ValueError msg)) /\
  fst (invoke opcode py_dict (class_dict class_body) "tuple" args tuples)
    = Ret tt /\
  (forall parameter_name,
     fst (invoke opcode py_dict (class_dict class_body)
            "set_shader_param_float4x4" (parameter_name :: args) tuples)
       = Ret tt) /\
  (forall iterable kwargs,
     invoke opcode py_dict (class_dict class_body) "try_for_prop_instances"
       [iterable] tuples
       = try_for_prop_instances opcode py_dict iterable [] tuples /\
     fst (try_for_prop_instances opcode py_dict iterable kwargs tuples)
       = Ret tt).
Proof.
  split; [|split; [|split; [|split; [|split; [|split]]]]].
  - intros Hlen. now apply call_script_within_limit.
  - apply call_script_over_limit.
  - unfold invoke. rewrite call_script_in_class. reflexivity.
  - intros method msg Hne H. apply Hne.
    now apply invoke_value_error with opcode py_dict args tuples msg.
  - unfold invoke. rewrite tuple_in_class. reflexivity.
  - intros p. unfold invoke. rewrite set_shader_in_class. reflexivity.
  - intros iterable kwargs. split; [|reflexivity].
    unfold invoke. rewrite try_for_prop_instances_in_class. reflexivity.
Qed.

Lemma call_script_is_the_only_ceiling_witness :
  OperatorBuilder.call_script 1 (VStr "script_name") (replicate 16 (VInt 0)) []
    = (Ret tt,
       [] ++ [VTuple (VInt 1 :: VStr "script_name" :: replicate 16 (VInt 0))])
  /\
  OperatorBuilder.call_script 1 (VStr "script_name") (replicate 17 (VInt 0)) []
    = (Raise (ValueError OperatorBuilder.too_many_parameters), []) /\
  fst (invoke (fun _ => 1) (fun _ => VNone) (class_dict class_body)
         "try_for_range" (replicate 17 (VInt 0)) [])
    <> Raise (ValueError OperatorBuilder.too_many_parameters).
Proof.
  destruct (call_script_is_the_only_ceiling (fun _ => 1) (fun _ => VNone)
              "script_name" (replicate 16 (VInt 0)) []) as (Hle & _).
  destruct (call_script_is_the_only_ceiling (fun _ => 1) (fun _ => VNone)
              "script_name" (replicate 17 (VInt 0)) [])
    as (_ & Hgt & _ & Hother & _).
  split; [|split].
  - apply Hle. simpl. lia.
  - apply Hgt. simpl. lia.
  - apply Hother. discriminate.
Defined.
